(** * QCoDeS: the 5 -> 6 schema upgrade and the Keysight B1520A driver

    A shallow embedding of

    - [qcodes/dataset/sqlite/db_upgrades/upgrade_5_to_6.py], the upgrade
      that gives every run description a top-level ['version'] entry, and
    - [qcodes/instrument_drivers/Keysight/keysightb1500/KeysightB1520A.py],
      the driver of the B1520A capacitance measurement unit,

    together with the parts of Python that the two files lean on: text
    (str, int(), float(), format), the [re] module for the patterns of the
    driver that the claims read, and binary64 floating point.

    Python values are modelled as the interpreter has them: an [int] is a
    [Z], a [float] is an IEEE 754 binary64 number ([spec_float] of the
    standard library at precision 53), a [str] is a [string]; the
    instrument link carries ASCII only.  Code that raises returns in the
    error monad [result]. *)

From Stdlib Require Import ZArith String Ascii List Bool Lia ZifyNat.
From Stdlib Require Import Floats.SpecFloat.
From stdpp Require Import base option list strings gmap.

Local Open Scope string_scope.
Local Open Scope Z_scope.
Local Open Scope list_scope.
Local Set Warnings "-register-all".

(* ================================================================== *)
(** * Exceptions *)

(** The exceptions the two files raise or let through. *)
Inductive exn : Type :=
| ValueError (msg : string)       (* raise ValueError(msg), int(), float() *)
| KeyError (key : string)         (* d[key] on a dict without the key *)
| TypeError                       (* subscripting something that is no dict *)
| AssertionError (msg : string)
| Warning (msg : string)          (* raise Warning(msg) *)
| AttributeError (attr : string)
| JSONDecodeError                 (* json.loads on a malformed document *)
| VisaTimeout.                    (* the link gave no reply *)

Inductive result (A : Type) : Type :=
| Ok (a : A)
| Raise (e : exn).
Arguments Ok {A} a.
Arguments Raise {A} e.

Global Instance result_ret : MRet result := fun _ a => Ok a.

Global Instance result_bind : MBind result := fun _ _ f m =>
  match m with
  | Ok a => f a
  | Raise e => Raise e
  end.

Definition is_Ok {A} (m : result A) : bool :=
  match m with Ok _ => true | Raise _ => false end.

(* ================================================================== *)
(** * Python text *)

Module Py.

(** Characters, by code point. *)
Definition code (c : ascii) : Z := Z.of_N (N_of_ascii c).

Definition chr (n : Z) : ascii := ascii_of_N (Z.to_N n).

(** The double quote and the newline, which string notations cannot hold. *)
Definition dquote : ascii := chr 34.
Definition newline : ascii := chr 10.

Definition is_digit (c : ascii) : bool := (48 <=? code c) && (code c <=? 57).

Definition digit_value (c : ascii) : Z := code c - 48.

(** [str.isspace] on one ASCII character: TAB..CR, FS..US and the space. *)
Definition is_space (c : ascii) : bool :=
  let n := code c in
  ((9 <=? n) && (n <=? 13)) || ((28 <=? n) && (n <=? 32)).

(** [\w] on ASCII: letters, digits and the underscore. *)
Definition is_word (c : ascii) : bool :=
  let n := code c in
  ((48 <=? n) && (n <=? 57)) || ((65 <=? n) && (n <=? 90))
  || ((97 <=? n) && (n <=? 122)) || (n =? 95).

Definition lower (c : ascii) : ascii :=
  let n := code c in
  if (65 <=? n) && (n <=? 90) then chr (n + 32) else c.

Fixpoint lower_str (s : string) : string :=
  match s with
  | EmptyString => EmptyString
  | String c s' => String (lower c) (lower_str s')
  end.

Fixpoint lstrip (s : string) : string :=
  match s with
  | String c s' => if is_space c then lstrip s' else s
  | EmptyString => EmptyString
  end.

Fixpoint rev_str (s acc : string) : string :=
  match s with
  | EmptyString => acc
  | String c s' => rev_str s' (String c acc)
  end.

(** [s.strip()] *)
Definition strip (s : string) : string :=
  rev_str (lstrip (rev_str (lstrip s) "")) "".

(** [s[n:]] for [n >= 0] *)
Fixpoint drop_str (n : nat) (s : string) : string :=
  match n, s with
  | O, _ => s
  | S n', String _ s' => drop_str n' s'
  | S _, EmptyString => EmptyString
  end.

(** [s[:n]] for [n >= 0] *)
Fixpoint take_str (n : nat) (s : string) : string :=
  match n, s with
  | O, _ => EmptyString
  | S n', String c s' => String c (take_str n' s')
  | S _, EmptyString => EmptyString
  end.

(** [s.split(sep)] for a one-character separator: never empty, a field per
    separator plus one. *)
Fixpoint split (sep : ascii) (s : string) : list string :=
  match s with
  | EmptyString => [EmptyString]
  | String c s' =>
      if Ascii.eqb c sep then EmptyString :: split sep s'
      else match split sep s' with
           | f :: fs => String c f :: fs
           | [] => [String c EmptyString]
           end
  end.

(** ** Digits *)

(** A [digitpart] of the grammar of int() and float(): digits, single
    underscores allowed between two digits.  [digitpart s] reads the longest
    one at the head of [s] and returns its value, its number of digits and
    the rest, or [None] when [s] does not start with a digit. *)
Fixpoint digits_from (s : string) (acc : Z) (n : nat) : Z * nat * string :=
  match s with
  | String c s' =>
      if is_digit c then digits_from s' (10 * acc + digit_value c) (S n)
      else if Ascii.eqb c "_" then
        match s' with
        | String d s'' =>
            if is_digit d
            then digits_from s'' (10 * acc + digit_value d) (S n)
            else (acc, n, s)
        | EmptyString => (acc, n, s)
        end
      else (acc, n, s)
  | EmptyString => (acc, n, s)
  end.

Definition digitpart (s : string) : option (Z * nat * string) :=
  match s with
  | String c s' =>
      if is_digit c then Some (digits_from s' (digit_value c) 1%nat) else None
  | EmptyString => None
  end.

(** An optional sign: [true] for a minus. *)
Definition sign_of (s : string) : bool * string :=
  match s with
  | String "-" s' => (true, s')
  | String "+" s' => (false, s')
  | _ => (false, s)
  end.

(** ** int(str), base ten *)
Definition int (s : string) : result Z :=
  let '(neg, s1) := sign_of (strip s) in
  match digitpart s1 with
  | Some (v, _, EmptyString) => Ok (if neg then - v else v)
  | _ => Raise (ValueError "invalid literal for int() with base 10")
  end.

(** ** Decimal digits of a non-negative integer, most significant first *)
Fixpoint digits_fuel (fuel : nat) (n : Z) (acc : string) : string :=
  match fuel with
  | O => acc
  | S fuel' =>
      let acc' := String (chr (48 + n mod 10)) acc in
      if n <? 10 then acc' else digits_fuel fuel' (n / 10) acc'
  end.

Definition digits (n : Z) : string :=
  digits_fuel (S (Z.to_nat (Z.log2 n))) n "".

(** [str(n)] for an int *)
Definition str_int (n : Z) : string :=
  if n <? 0 then String "-" (digits (- n)) else digits n.

End Py.

(* ================================================================== *)
(** * Python floats: IEEE 754 binary64 *)

Module Float.

Definition float : Type := spec_float.

Definition prec : Z := 53.
Definition emax : Z := 1024.

Definition add : float -> float -> float := SFadd prec emax.
Definition sub : float -> float -> float := SFsub prec emax.
Definition mul : float -> float -> float := SFmul prec emax.
Definition div : float -> float -> float := SFdiv prec emax.

(** [x == y], [x < y] *)
Definition eqb : float -> float -> bool := SFeqb.
Definition ltb : float -> float -> bool := SFltb.

Definition zero : float := S754_zero false.

(** The float nearest to [(-1)^neg * m * 10^e] for [m >= 0], ties to even:
    an integer is rounded as it stands, a fraction [m / 10^-e] is the
    correctly rounded quotient of its two (exact) terms. *)
Definition of_decimal (neg : bool) (m e : Z) : float :=
  match m with
  | Zpos p =>
      if 0 <=? e
      then binary_normalize prec emax (cond_Zopp neg (m * 10 ^ e)) 0 false
      else div (S754_finite neg p 0)
               (S754_finite false (Z.to_pos (10 ^ (- e))) 0)
  | _ => S754_zero neg
  end.

(** [float(n)] for an int within the range of the floats (beyond it Python
    raises OverflowError; no such int occurs below). *)
Definition of_int (n : Z) : float := binary_normalize prec emax n 0 false.

(** ** float(str)

    [floatvalue ::= [sign] (floatnumber | "inf" | "infinity" | "nan")],
    [floatnumber ::= ([digitpart] "." digitpart | digitpart ["."]) [exponent]],
    surrounding whitespace stripped, letters in either case. *)
Definition bad_float {A} : result A :=
  Raise (ValueError "could not convert string to float").

(** The exponent part, or 0 when the text stops before it. *)
Definition exponent (s : string) : result Z :=
  match s with
  | EmptyString => Ok 0
  | String c s1 =>
      if Ascii.eqb (Py.lower c) "e" then
        let '(neg, s2) := Py.sign_of s1 in
        match Py.digitpart s2 with
        | Some (v, _, EmptyString) => Ok (if neg then - v else v)
        | _ => bad_float
        end
      else bad_float
  end.

Definition of_str (s : string) : result float :=
  let '(neg, s1) := Py.sign_of (Py.strip s) in
  let l := Py.lower_str s1 in
  if String.eqb l "inf" || String.eqb l "infinity" then Ok (S754_infinity neg)
  else if String.eqb l "nan" then Ok S754_nan
  else
    let '(ip, s2) :=
      match Py.digitpart s1 with
      | Some (v, _, r) => (Some v, r)
      | None => (None, s1)
      end in
    let '(fp, s3) :=
      match s2 with
      | String "." r =>
          match Py.digitpart r with
          | Some (v, n, r') => (Some (v, n), r')
          | None => (None, r)
          end
      | _ => (None, s2)
      end in
    match ip, fp with
    | None, None => bad_float
    | _, _ =>
        let i := default 0 ip in
        let '(f, n) := default (0, 0%nat) fp in
        e ← exponent s3;
        Ok (of_decimal neg (i * 10 ^ Z.of_nat n + f) (e - Z.of_nat n))
    end.

(** ** repr(float)

    The shortest decimal that reads back as the same float (the nearest to
    it among the shortest), laid out in fixed notation when its decimal
    point falls in the range [-4 < decpt <= 16] and with an exponent
    otherwise. *)

(** [x < 10^d] for [x = m * 2^e] *)
Definition lt_pow10 (m : positive) (e d : Z) : bool :=
  let num := Zpos m * 2 ^ Z.max e 0 * 10 ^ Z.max (- d) 0 in
  let den := 2 ^ Z.max (- e) 0 * 10 ^ Z.max d 0 in
  num <? den.

(** The position of the decimal point: the least [d] with [x < 10^d]. *)
Definition decpt_of (m : positive) (e : Z) : Z :=
  let bits := Zpos (digits2_pos m) + e in
  let d0 := (bits - 1) * 30103 / 100000 - 1 in
  default (d0 + 6)
    (List.find (lt_pow10 m e) (map (fun k => d0 + Z.of_nat k) (seq 0 6))).

(** The [n]-digit decimal next to [x = m * 2^e] that reads back as [x],
    as (digits, exponent), if there is one. *)
Definition shortest_at (m : positive) (e decpt : Z) (n : Z) : option (Z * Z) :=
  let k := n - decpt in
  let num := Zpos m * 2 ^ Z.max e 0 * 10 ^ Z.max k 0 in
  let den := 2 ^ Z.max (- e) 0 * 10 ^ Z.max (- k) 0 in
  let lo := num / den in
  let hi := lo + 1 in
  let back c := match of_decimal false c (- k) with
                | S754_finite false m' e' => Pos.eqb m m' && (e =? e')
                | _ => false
                end in
  let lo_closer :=
    match 2 * num ?= (2 * lo + 1) * den with
    | Lt => true
    | Eq => Z.even lo
    | Gt => false
    end in
  match back lo, back hi with
  | true, true => Some (if lo_closer then lo else hi, - k)
  | true, false => Some (lo, - k)
  | false, true => Some (hi, - k)
  | false, false => None
  end.

Fixpoint strip_zeros (fuel : nat) (c e : Z) : Z * Z :=
  match fuel with
  | O => (c, e)
  | S fuel' =>
      if (c mod 10 =? 0) && negb (c =? 0)
      then strip_zeros fuel' (c / 10) (e + 1) else (c, e)
  end.

(** The digits of the shortest decimal of [x = m * 2^e], and the position of
    its decimal point: [x ~ 0.d1 d2 ... dn * 10^decpt]. *)
Definition shortest (m : positive) (e : Z) : string * Z :=
  let decpt := decpt_of m e in
  let found :=
    List.fold_right
      (fun n later => match shortest_at m e decpt n with
                      | Some r => Some r
                      | None => later
                      end)
      None (map (fun k => Z.of_nat k) (seq 1 17)) in
  let '(c, e10) := default (0, 0) found in
  let '(c', e10') := strip_zeros 20 c e10 in
  let ds := Py.digits c' in
  (ds, e10' + Z.of_nat (String.length ds)).

Fixpoint zeros (n : nat) : string :=
  match n with
  | O => EmptyString
  | S n' => String "0" (zeros n')
  end.

Definition layout (ds : string) (decpt : Z) : string :=
  let nd := Z.of_nat (String.length ds) in
  if (-4 <? decpt) && (decpt <=? 16) then
    if decpt <=? 0 then "0." +:+ zeros (Z.to_nat (- decpt)) +:+ ds
    else if nd <=? decpt then ds +:+ zeros (Z.to_nat (decpt - nd)) +:+ ".0"
    else Py.take_str (Z.to_nat decpt) ds +:+ "." +:+ Py.drop_str (Z.to_nat decpt) ds
  else
    let x := decpt - 1 in
    let xs := Py.digits (Z.abs x) in
    Py.take_str 1 ds
    +:+ (if 1 <? nd then "." +:+ Py.drop_str 1 ds else "")
    +:+ "e" +:+ (if x <? 0 then "-" else "+")
    +:+ (if Z.abs x <? 10 then "0" else "") +:+ xs.

Definition repr (x : float) : string :=
  match x with
  | S754_nan => "nan"
  | S754_infinity s => if s then "-inf" else "inf"
  | S754_zero s => if s then "-0.0" else "0.0"
  | S754_finite s m e =>
      let '(ds, decpt) := shortest m e in
      (if s then "-" else "") +:+ layout ds decpt
  end.

End Float.

(* ================================================================== *)
(** * Python's [re]: the patterns of the driver *)

Module Re.

(** The syntax the driver's patterns use. *)
Inductive regex : Type :=
| Chr (c : ascii)                                  (* a literal character *)
| Dot                                              (* [.] *)
| WordChar                                         (* [\w] *)
| DigitChar                                        (* [\d] *)
| OneOf (cs : list ascii)                          (* [[...]] *)
| Dollar                                           (* [$] *)
| Eps                                              (* the empty pattern *)
| Cat (r1 r2 : regex)                              (* [r1 r2] *)
| Alt (r1 r2 : regex)                              (* [r1|r2] *)
| Rep (r : regex) (lo : nat) (hi : option nat) (greedy : bool)
                                                   (* [r{lo,hi}], [r{lo,hi}?] *)
| Named (name : string) (r : regex).               (* [(?P<name>r)] *)

(** [r?], [r+?], [r{n}], [r{lo,hi}] and a literal word. *)
Definition opt (r : regex) : regex := Rep r 0 (Some 1%nat) true.
Definition plus_lazy (r : regex) : regex := Rep r 1 None false.
Definition times (n : nat) (r : regex) : regex := Rep r n (Some n) true.
Definition between (lo hi : nat) (r : regex) : regex := Rep r lo (Some hi) true.

Fixpoint lit (s : string) : regex :=
  match s with
  | EmptyString => Eps
  | String c EmptyString => Chr c
  | String c s' => Cat (Chr c) (lit s')
  end.

Fixpoint cat (rs : list regex) : regex :=
  match rs with
  | [] => Eps
  | [r] => r
  | r :: rs' => Cat r (cat rs')
  end.

(** The named groups that took part in a match, latest first. *)
Definition groups : Type := list (string * string).

(** [m[name]]: the text of the group, [None] when it took no part. *)
Fixpoint group (name : string) (g : groups) : option string :=
  match g with
  | [] => None
  | (n, v) :: g' => if String.eqb n name then Some v else group name g'
  end.

(** [match1 c s]: the rest of [s] after one character that satisfies [c]. *)
Definition match1 (c : ascii -> bool) (s : string) : option string :=
  match s with
  | String a s' => if c a then Some s' else None
  | EmptyString => None
  end.

Section Matcher.

Context {A : Type}.

(** The backtracking matcher: [run r s g k] matches [r] at the head of [s]
    in every way, in the order of preference of [re] (the left branch of an
    alternative first, more repetitions first when greedy and fewer when
    lazy), and hands the rest of the text to [k]; the first way that [k]
    accepts is the result.  A repetition stops at an iteration that consumes
    nothing, so [S (length s)] rounds suffice. *)
Fixpoint run (r : regex) (s : string) (g : groups)
    (k : string -> groups -> option A) {struct r} : option A :=
  match r with
  | Chr c => s' ← match1 (Ascii.eqb c) s; k s' g
  | Dot => s' ← match1 (fun a => negb (Ascii.eqb a Py.newline)) s; k s' g
  | WordChar => s' ← match1 Py.is_word s; k s' g
  | DigitChar => s' ← match1 Py.is_digit s; k s' g
  | OneOf cs => s' ← match1 (fun a => existsb (Ascii.eqb a) cs) s; k s' g
  | Dollar =>
      if String.eqb s "" || String.eqb s (String Py.newline "")
      then k s g else None
  | Eps => k s g
  | Cat r1 r2 => run r1 s g (fun s' g' => run r2 s' g' k)
  | Alt r1 r2 =>
      match run r1 s g k with
      | Some a => Some a
      | None => run r2 s g k
      end
  | Named name r1 =>
      run r1 s g (fun s' g' =>
        k s' ((name, Py.take_str (String.length s - String.length s') s) :: g'))
  | Rep r1 lo hi greedy =>
      (fix loop (fuel : nat) (count : nat) (s : string) (g : groups)
         {struct fuel} : option A :=
         match fuel with
         | O => None
         | S fuel' =>
             let again (_ : unit) :=
               if match hi with Some h => (count <? h)%nat | None => true end
               then run r1 s g (fun s' g' =>
                      if (String.length s' <? String.length s)%nat
                      then loop fuel' (S count) s' g' else None)
               else None in
             let leave (_ : unit) :=
               if (lo <=? count)%nat then k s g else None in
             if greedy
             then match again tt with Some a => Some a | None => leave tt end
             else match leave tt with Some a => Some a | None => again tt end
         end) (S (String.length s)) 0%nat s g
  end.

End Matcher.

(** A match: its groups, the matched text and what follows it. *)
Record match_ : Type := Match { m_groups : groups; m_text : string; m_rest : string }.

(** [pattern.match(s)]: a match at the head of [s]. *)
Definition match_at (r : regex) (s : string) : option match_ :=
  run r s [] (fun s' g =>
    Some (Match g (Py.take_str (String.length s - String.length s') s) s')).

(** [re.search(pattern, s)]: the first position with a match. *)
Fixpoint search (r : regex) (s : string) : option match_ :=
  match match_at r s with
  | Some m => Some m
  | None =>
      match s with
      | String _ s' => search r s'
      | EmptyString => None
      end
  end.

(** [re.finditer(pattern, s)]: the matches from left to right, each search
    starting where the previous match ended (one character further after a
    match of the empty text). *)
Fixpoint finditer_fuel (fuel : nat) (r : regex) (s : string) : list match_ :=
  match fuel with
  | O => []
  | S fuel' =>
      match search r s with
      | None => []
      | Some m =>
          m :: match m_text m, m_rest m with
               | EmptyString, EmptyString => []
               | EmptyString, String _ s' => finditer_fuel fuel' r s'
               | _, s' => finditer_fuel fuel' r s'
               end
      end
  end.

Definition finditer (r : regex) (s : string) : list match_ :=
  finditer_fuel (S (String.length s)) r s.

End Re.

(* ================================================================== *)
(** * JSON documents *)

Module Json.

(** What [json.loads] returns: None, a bool, an int, a float, a str, a list
    or a dict.  A dict keeps its keys in the order they were first set. *)
Inductive value : Type :=
| Null
| Bool (b : bool)
| Int (n : Z)
| Number (x : Float.float)
| Str (s : string)
| Array (vs : list value)
| Object (kvs : list (string * value)).

(** ** dict *)

(** [key in d] and the value stored under it. *)
Fixpoint dict_get (kvs : list (string * value)) (key : string) : option value :=
  match kvs with
  | [] => None
  | (k, v) :: kvs' => if String.eqb k key then Some v else dict_get kvs' key
  end.

(** [d[key] = v]: in place when the key is there, at the end otherwise. *)
Fixpoint dict_set (kvs : list (string * value)) (key : string) (v : value)
    : list (string * value) :=
  match kvs with
  | [] => [(key, v)]
  | (k, w) :: kvs' =>
      if String.eqb k key then (k, v) :: kvs'
      else (k, w) :: dict_set kvs' key v
  end.

(** [x[key]] for a str key: the entry of a dict, KeyError without it,
    TypeError on anything that is no dict. *)
Definition getitem (x : value) (key : string) : result value :=
  match x with
  | Object kvs =>
      match dict_get kvs key with
      | Some v => Ok v
      | None => Raise (KeyError key)
      end
  | _ => Raise TypeError
  end.

(** [x[key] = v] on a dict *)
Definition setitem (x : value) (key : string) (v : value) : result value :=
  match x with
  | Object kvs => Ok (Object (dict_set kvs key v))
  | _ => Raise TypeError
  end.

(** The keys of a dict, in order. *)
Definition keys (x : value) : list string :=
  match x with
  | Object kvs => map fst kvs
  | _ => []
  end.

(** ** Text of a document: UTF-8 *)

Definition hex_digit (n : Z) : ascii :=
  if n <? 10 then Py.chr (48 + n) else Py.chr (87 + n).

Definition hex_value (c : ascii) : option Z :=
  let n := Py.code c in
  if (48 <=? n) && (n <=? 57) then Some (n - 48)
  else if (97 <=? n) && (n <=? 102) then Some (n - 87)
  else if (65 <=? n) && (n <=? 70) then Some (n - 55)
  else None.

(** Four hex digits at the head of [s]. *)
Definition hex4 (s : string) : option (Z * string) :=
  match s with
  | String a (String b (String c (String d s'))) =>
      x ← hex_value a; y ← hex_value b; z ← hex_value c; w ← hex_value d;
      Some (((x * 16 + y) * 16 + z) * 16 + w, s')
  | _ => None
  end.

(** The UTF-8 bytes of a code point, in front of [s]. *)
Definition utf8 (cp : Z) (s : string) : string :=
  let b (n : Z) := Py.chr n in
  let cont (n : Z) := b (128 + n mod 64) in
  if cp <? 128 then String (b cp) s
  else if cp <? 2048 then String (b (192 + cp / 64)) (String (cont cp) s)
  else if cp <? 65536 then
    String (b (224 + cp / 4096)) (String (cont (cp / 64)) (String (cont cp) s))
  else
    String (b (240 + cp / 262144))
      (String (cont (cp / 4096)) (String (cont (cp / 64)) (String (cont cp) s))).

(** The code point at the head of a text, and the rest; a byte that starts
    no well-formed sequence counts for itself. *)
Definition code_point (c : ascii) (s : string) : Z * string :=
  let n := Py.code c in
  let is_cont (a : ascii) := (128 <=? Py.code a) && (Py.code a <? 192) in
  let low (a : ascii) := Py.code a mod 64 in
  match s with
  | String c1 s1 =>
      if (192 <=? n) && (n <? 224) && is_cont c1
      then ((n - 192) * 64 + low c1, s1)
      else match s1 with
      | String c2 s2 =>
          if (224 <=? n) && (n <? 240) && is_cont c1 && is_cont c2
          then (((n - 224) * 64 + low c1) * 64 + low c2, s2)
          else match s2 with
          | String c3 s3 =>
              if (240 <=? n) && (n <? 248)
                 && is_cont c1 && is_cont c2 && is_cont c3
              then ((((n - 240) * 64 + low c1) * 64 + low c2) * 64 + low c3, s3)
              else (n, s)
          | EmptyString => (n, s)
          end
      | EmptyString => (n, s)
      end
  | EmptyString => (n, s)
  end.

(** ** json.dumps, with its defaults *)

Definition u_escape (cp : Z) (s : string) : string :=
  String "\" (String "u"
    (String (hex_digit (cp / 4096)) (String (hex_digit (cp / 256 mod 16))
      (String (hex_digit (cp / 16 mod 16)) (String (hex_digit (cp mod 16)) s))))).

(** The body of a string literal: everything but printable ASCII escaped. *)
Fixpoint escape_fuel (fuel : nat) (s : string) : string :=
  match fuel, s with
  | S fuel', String c s' =>
      let n := Py.code c in
      if n =? 34 then String "\" (String c (escape_fuel fuel' s'))
      else if n =? 92 then String "\" (String "\" (escape_fuel fuel' s'))
      else if n =? 10 then String "\" (String "n" (escape_fuel fuel' s'))
      else if n =? 13 then String "\" (String "r" (escape_fuel fuel' s'))
      else if n =? 9 then String "\" (String "t" (escape_fuel fuel' s'))
      else if n =? 8 then String "\" (String "b" (escape_fuel fuel' s'))
      else if n =? 12 then String "\" (String "f" (escape_fuel fuel' s'))
      else if (32 <=? n) && (n <=? 126) then String c (escape_fuel fuel' s')
      else
        let '(cp, rest) := code_point c s' in
        if cp <? 65536 then u_escape cp (escape_fuel fuel' rest)
        else
          let v := cp - 65536 in
          u_escape (55296 + v / 1024)
            (u_escape (56320 + v mod 1024) (escape_fuel fuel' rest))
  | _, _ => EmptyString
  end.

Definition quote (s : string) : string :=
  String Py.dquote (escape_fuel (String.length s) s +:+ String Py.dquote "").

Definition dumps_float (x : Float.float) : string :=
  match x with
  | S754_nan => "NaN"
  | S754_infinity s => if s then "-Infinity" else "Infinity"
  | _ => Float.repr x
  end.

Fixpoint join (sep : string) (items : list string) : string :=
  match items with
  | [] => ""
  | [x] => x
  | x :: xs => x +:+ sep +:+ join sep xs
  end.

Fixpoint dumps (v : value) : string :=
  match v with
  | Null => "null"
  | Bool b => if b then "true" else "false"
  | Int n => Py.str_int n
  | Number x => dumps_float x
  | Str s => quote s
  | Array vs => "[" +:+ join ", " (map dumps vs) +:+ "]"
  | Object kvs =>
      "{" +:+ join ", " (map (fun kv => quote (fst kv) +:+ ": " +:+ dumps (snd kv)) kvs)
      +:+ "}"
  end.

(** ** json.loads, with its defaults *)

Fixpoint skip_ws (s : string) : string :=
  match s with
  | String c s' =>
      let n := Py.code c in
      if (n =? 32) || (n =? 9) || (n =? 10) || (n =? 13) then skip_ws s' else s
  | EmptyString => EmptyString
  end.

(** [starts w s]: the rest of [s] after the word [w]. *)
Fixpoint starts (w s : string) : option string :=
  match w, s with
  | EmptyString, _ => Some s
  | String a w', String b s' => if Ascii.eqb a b then starts w' s' else None
  | String _ _, EmptyString => None
  end.

(** The body of a string literal, after its opening quote: up to the closing
    quote, escapes resolved; a control character ends the parse. *)
Fixpoint scan_string (fuel : nat) (s : string) : option (string * string) :=
  match fuel, s with
  | S fuel', String c s' =>
      let n := Py.code c in
      if n =? 34 then Some (EmptyString, s')
      else if n <? 32 then None
      else if n =? 92 then
        match s' with
        | String e s'' =>
            let plain (a : ascii) :=
              '(body, rest) ← scan_string fuel' s''; Some (String a body, rest) in
            if Ascii.eqb e "u" then
              '(cp, s3) ← hex4 s'';
              match (if (55296 <=? cp) && (cp <=? 56319)
                     then s4 ← starts "\u" s3;
                          '(lo, s5) ← hex4 s4;
                          if (56320 <=? lo) && (lo <=? 57343)
                          then Some (65536 + (cp - 55296) * 1024 + (lo - 56320), s5)
                          else None
                     else None) with
              | Some (cp', s5) =>
                  '(body, rest) ← scan_string fuel' s5; Some (utf8 cp' body, rest)
              | None =>
                  '(body, rest) ← scan_string fuel' s3; Some (utf8 cp body, rest)
              end
            else if Ascii.eqb e "n" then plain (Py.chr 10)
            else if Ascii.eqb e "r" then plain (Py.chr 13)
            else if Ascii.eqb e "t" then plain (Py.chr 9)
            else if Ascii.eqb e "b" then plain (Py.chr 8)
            else if Ascii.eqb e "f" then plain (Py.chr 12)
            else if Ascii.eqb e "/" then plain e
            else if Ascii.eqb e "\" then plain e
            else if Py.code e =? 34 then plain e
            else None
        | EmptyString => None
        end
      else '(body, rest) ← scan_string fuel' s'; Some (String c body, rest)
  | _, _ => None
  end.

(** A run of digits at the head of [s]: its text and the rest. *)
Fixpoint span_digits (s : string) : string * string :=
  match s with
  | String c s' =>
      if Py.is_digit c
      then let '(ds, rest) := span_digits s' in (String c ds, rest)
      else (EmptyString, s)
  | EmptyString => (EmptyString, s)
  end.

(** A number: an optional minus, an integer part without leading zeros, an
    optional fraction (a point and digits) and an optional exponent ([e] or
    [E], a sign, digits); an int when it has neither fraction nor exponent
    and a float otherwise. *)
Definition scan_number (s : string) : option (value * string) :=
  let '(neg, s1) := match s with
                    | String "-" s' => (true, s')
                    | _ => (false, s)
                    end in
  let '(ip, s2) :=
    match s1 with
    | String "0" s' => ("0", s')
    | _ => span_digits s1
    end in
  if String.eqb ip "" then None
  else
    let '(fp, s3) :=
      match s2 with
      | String "." s' =>
          let '(ds, rest) := span_digits s' in
          if String.eqb ds "" then ("", s2) else ("." +:+ ds, rest)
      | _ => ("", s2)
      end in
    let '(ep, s4) :=
      match s3 with
      | String e s' =>
          if Ascii.eqb (Py.lower e) "e" then
            let '(sg, s'') := match s' with
                              | String "-" r => ("-", r)
                              | String "+" r => ("+", r)
                              | _ => ("", s')
                              end in
            let '(ds, rest) := span_digits s'' in
            if String.eqb ds "" then ("", s3)
            else (String e sg +:+ ds, rest)
          else ("", s3)
      | EmptyString => ("", s3)
      end in
    let sign := if neg then "-" else "" in
    if String.eqb fp "" && String.eqb ep ""
    then match Py.int (sign +:+ ip) with
         | Ok n => Some (Int n, s4)
         | Raise _ => None
         end
    else match Float.of_str (sign +:+ ip +:+ fp +:+ ep) with
         | Ok x => Some (Number x, s4)
         | Raise _ => None
         end.

(** A value at the head of [s] (no whitespace before it), and the rest. *)
Fixpoint scan_value (fuel : nat) (s : string) : option (value * string) :=
  match fuel with
  | O => None
  | S fuel' =>
      match s with
      | String c s' =>
          if Py.code c =? 34 then
            '(body, rest) ← scan_string (String.length s') s'; Some (Str body, rest)
          else if Ascii.eqb c "{" then
            match skip_ws s' with
            | String "}" rest => Some (Object [], rest)
            | s1 => '(kvs, rest) ← scan_members fuel' s1 []; Some (Object kvs, rest)
            end
          else if Ascii.eqb c "[" then
            match skip_ws s' with
            | String "]" rest => Some (Array [], rest)
            | s1 => '(vs, rest) ← scan_elements fuel' s1; Some (Array vs, rest)
            end
          else match starts "null" s with
          | Some rest => Some (Null, rest)
          | None =>
          match starts "true" s with
          | Some rest => Some (Bool true, rest)
          | None =>
          match starts "false" s with
          | Some rest => Some (Bool false, rest)
          | None =>
          match starts "NaN" s with
          | Some rest => Some (Number S754_nan, rest)
          | None =>
          match starts "Infinity" s with
          | Some rest => Some (Number (S754_infinity false), rest)
          | None =>
          match starts "-Infinity" s with
          | Some rest => Some (Number (S754_infinity true), rest)
          | None => scan_number s
          end end end end end end
      | EmptyString => None
      end
  end
(* The members of an object from its first key on; a key given twice keeps
   its first place and its last value. *)
with scan_members (fuel : nat) (s : string) (acc : list (string * value))
    : option (list (string * value) * string) :=
  match fuel with
  | O => None
  | S fuel' =>
      match s with
      | String c s' =>
          if Py.code c =? 34 then
            '(key, s1) ← scan_string (String.length s') s';
            match skip_ws s1 with
            | String ":" s2 =>
                '(v, s3) ← scan_value fuel' (skip_ws s2);
                let acc' := dict_set acc key v in
                match skip_ws s3 with
                | String "}" rest => Some (acc', rest)
                | String "," s4 => scan_members fuel' (skip_ws s4) acc'
                | _ => None
                end
            | _ => None
            end
          else None
      | EmptyString => None
      end
  end
(* The elements of an array from its first one on. *)
with scan_elements (fuel : nat) (s : string) : option (list value * string) :=
  match fuel with
  | O => None
  | S fuel' =>
      '(v, s1) ← scan_value fuel' s;
      match skip_ws s1 with
      | String "]" rest => Some ([v], rest)
      | String "," s2 =>
          '(vs, rest) ← scan_elements fuel' (skip_ws s2); Some (v :: vs, rest)
      | _ => None
      end
  end.

Definition loads (s : string) : result value :=
  match scan_value (S (String.length s)) (skip_ws s) with
  | Some (v, rest) =>
      if String.eqb (skip_ws rest) "" then Ok v else Raise JSONDecodeError
  | None => Raise JSONDecodeError
  end.

End Json.

(* ================================================================== *)
(** * Code with state: the database connection, the instrument *)

(** A computation over a state [S] that returns or raises.  The state is
    there after a raise too: what was written before an exception stays
    written unless somebody undoes it. *)
Definition SE (S A : Type) : Type := S -> result A * S.

Global Instance SE_ret {S} : MRet (SE S) := fun _ a s => (Ok a, s).

Global Instance SE_bind {S} : MBind (SE S) := fun _ _ f m s =>
  match m s with
  | (Ok a, s') => f a s'
  | (Raise e, s') => (Raise e, s')
  end.

Definition raise {S A} (e : exn) : SE S A := fun s => (Raise e, s).

(** A pure computation that may raise, run in place. *)
Definition lift {S A} (r : result A) : SE S A := fun s => (r, s).

Definition gets {S A} (f : S -> A) : SE S A := fun s => (Ok (f s), s).

Definition modify {S} (f : S -> S) : SE S unit := fun s => (Ok tt, f s).

(** [for x in xs: body(x)] *)
Fixpoint for_ {S A} (xs : list A) (body : A -> SE S unit) : SE S unit :=
  match xs with
  | [] => mret tt
  | x :: xs' => _ ← body x; for_ xs' body
  end.

(** [range(a, b)] *)
Definition range (a b : Z) : list Z := seqZ a (b - a).

(* ================================================================== *)
(** * The run store *)

Module Sqlite.

(** Modelled from the spec: [qcodes.dataset.sqlite.connection] and
    [qcodes.dataset.sqlite.queries] are not among the sources.  The spec's
    data model has runs numbered [1..N] without gaps, each with one mutable
    [description] that is a string or absent (NULL): the [runs] table is the
    list of the descriptions, run [k] at index [k - 1]. *)
Record ConnectionPlus : Type := Conn { runs : list (option string) }.

(** Modelled from the spec: the description of a run as the table holds
    it; a run that is not there has none. *)
Definition description (conn : ConnectionPlus) (run_id : Z) : option string :=
  if 1 <=? run_id then mjoin (runs conn !! Z.to_nat (run_id - 1)) else None.

(** Modelled from the spec: [SELECT max(run_id) FROM runs], NULL for an empty
    table ([RunRegistry.max_run_id], before the caller's [or 0]). *)
Definition select_max_run_id : SE ConnectionPlus (option Z) :=
  gets (fun conn =>
    match runs conn with
    | [] => None
    | _ => Some (Z.of_nat (length (runs conn)))
    end).

(** Modelled from the spec: [RunRegistry.get_description(run_id)], a string
    or None. *)
Definition get_run_description (run_id : Z) : SE ConnectionPlus (option string) :=
  gets (fun conn => description conn run_id).

(** Modelled from the spec: [RunRegistry.set_description(run_id, string)];
    an UPDATE of the one row, of no row when the run is not there. *)
Definition update_run_description (run_id : Z) (new : string)
    : SE ConnectionPlus unit :=
  modify (fun conn =>
    if 1 <=? run_id
    then Conn (<[Z.to_nat (run_id - 1) := Some new]> (runs conn))
    else conn).

(** Modelled from the spec: [atomic(conn)], the scoped transaction that
    commits on normal exit and rolls back on any error, which then surfaces
    to the caller.  The body works on the connection; a commit keeps what it
    wrote, a rollback returns to the state at entry. *)
Definition atomic {A} (body : SE ConnectionPlus A) : SE ConnectionPlus A :=
  fun conn =>
    match body conn with
    | (Ok a, conn') => (Ok a, conn')
    | (Raise e, _) => (Raise e, conn)
    end.

End Sqlite.

(* ================================================================== *)
(** * upgrade_5_to_6.py *)

(** What the upgrade imports: [json.loads] and [json.dumps] of the standard
    library, and the serialized empty [InterDependencies()] of
    [qcodes.dataset.dependencies] (not among the sources). *)
Class Imports : Type := {
  json_loads : string -> result Json.value;
  json_dumps : Json.value -> string;
  empty_idps_ser : Json.value;
}.

Module Upgrade.
Import Sqlite.

Section WithImports.
Context `{Imports}.

(** Lines 36-43: the new description of a run from its stored one. *)
Definition new_json_of (json_str : option string) : result string :=
  match json_str with
  | None =>
      Ok (json_dumps (Json.Object [("version", Json.Int 0);
                                   ("interdependencies", empty_idps_ser)]))
  | Some json_str =>
      ser ← json_loads json_str;
      let new_ser := Json.Object [("version", Json.Int 0)] in
      idps ← Json.getitem ser "interdependencies";
      new_ser ← Json.setitem new_ser "interdependencies" idps;
      Ok (json_dumps new_ser)
  end.

(** Lines 35-44: the body of the loop. *)
Definition upgrade_run (run_id : Z) : SE ConnectionPlus unit :=
  json_str ← get_run_description run_id;
  new_json ← lift (new_json_of json_str);
  update_run_description run_id new_json.

(** Lines 29-44: the loop over the runs (the progress bar only shows). *)
Definition upgrade_runs (no_of_runs : Z) : SE ConnectionPlus unit :=
  for_ (range 1 (no_of_runs + 1)) upgrade_run.

Definition upgrade_5_to_6 : SE ConnectionPlus unit :=
  no_of_runs ← select_max_run_id;
  let no_of_runs := default 0 no_of_runs in
  atomic (upgrade_runs no_of_runs).

(** ** What the claims speak of *)

(** The rows after the loop ran over them, and how it ended: the rows before
    the first one that fails are rewritten, that one and the rest are not. *)
Fixpoint rows_after (rows : list (option string))
    : result unit * list (option string) :=
  match rows with
  | [] => (Ok tt, [])
  | d :: rows' =>
      match new_json_of d with
      | Ok new_json =>
          let '(r, rows'') := rows_after rows' in (r, Some new_json :: rows'')
      | Raise e => (Raise e, rows)
      end
  end.

(** Every run can be rewritten. *)
Definition upgradable (conn : ConnectionPlus) : Prop :=
  forall run_id, 1 <= run_id <= Z.of_nat (length (runs conn)) ->
    is_Ok (new_json_of (description conn run_id)) = true.

(** The document the upgrade writes around the dependencies [idps]. *)
Definition versioned (idps : Json.value) : Json.value :=
  Json.Object [("version", Json.Int 0); ("interdependencies", idps)].

(** A row that holds a versioned document which [json_loads] reads back. *)
Definition reads_back (d : option string) : Prop :=
  exists idps, d = Some (json_dumps (versioned idps))
               /\ json_loads (json_dumps (versioned idps)) = Ok (versioned idps).

End WithImports.
End Upgrade.

(** The imports as Python has them: the codec of [Json], and an empty set of
    dependencies that serializes to no parameter specifications. *)
Definition python_imports : Imports := {|
  json_loads := Json.loads;
  json_dumps := Json.dumps;
  empty_idps_ser := Json.Object [("paramspecs", Json.Array [])];
|}.

(** ** Stores for the examples *)

Module Examples.
Import Sqlite.

(** [s] between double quotes. *)
Definition q (s : string) : string :=
  String Py.dquote (s +:+ String Py.dquote "").

(** A description of schema version 5:
    [{"interdependencies": {"paramspecs": []}}]. *)
Definition doc_v5 : string :=
  "{" +:+ q "interdependencies" +:+ ": {" +:+ q "paramspecs" +:+ ": []}}".

(** What the upgrade makes of it:
    [{"version": 0, "interdependencies": {"paramspecs": []}}]. *)
Definition doc_v6 : string :=
  "{" +:+ q "version" +:+ ": 0, " +:+ q "interdependencies" +:+ ": {"
  +:+ q "paramspecs" +:+ ": []}}".

(** A description that already has a version, and not 0:
    [{"version": 3, "interdependencies": {"paramspecs": []}}]. *)
Definition doc_v3 : string :=
  "{" +:+ q "version" +:+ ": 3, " +:+ q "interdependencies" +:+ ": {"
  +:+ q "paramspecs" +:+ ": []}}".

(** Two runs, one with a description and one without. *)
Definition store : ConnectionPlus := Conn [Some doc_v5; None].

(** The same two runs and a third whose description is cut short. *)
Definition failing_store : ConnectionPlus :=
  Conn [Some doc_v5; None; Some ("{" +:+ q "interdependencies" +:+ ": {")].

(** One run whose description says version 3. *)
Definition store_v3 : ConnectionPlus := Conn [Some doc_v3].

End Examples.

(* ================================================================== *)
(** * Python numbers and [str.format] *)

Module Num.

(** A number as the driver passes it around: an int or a float.  The
    members of an [IntEnum] ([ChNr], [SweepMode], ...) are ints. *)
Inductive num : Type :=
| Int (n : Z)
| Flt (x : Float.float).

(** The integer a finite float equals, if it equals one. *)
Definition integral (x : Float.float) : option Z :=
  match x with
  | S754_zero _ => Some 0
  | S754_finite s m e =>
      let v := if 0 <=? e then Some (Zpos m * 2 ^ e)
               else if Zpos m mod 2 ^ (- e) =? 0 then Some (Zpos m / 2 ^ (- e))
               else None in
      (fun z => if s then - z else z) <$> v
  | _ => None
  end.

(** [a == b] *)
Definition eqb (a b : num) : bool :=
  match a, b with
  | Int x, Int y => x =? y
  | Flt x, Flt y => Float.eqb x y
  | Int x, Flt y | Flt y, Int x =>
      match integral y with
      | Some z => x =? z
      | None => false
      end
  end.

(** [a < 0] *)
Definition negative (a : num) : bool :=
  match a with
  | Int x => x <? 0
  | Flt x => Float.ltb x Float.zero
  end.

(** [bool(a)]: a number is false when it equals zero. *)
Definition truthy (a : num) : bool := negb (eqb a (Int 0)).

(** [float(a)] *)
Definition to_float (a : num) : Float.float :=
  match a with
  | Int n => Float.of_int n
  | Flt x => x
  end.

(** [operator.index(a)]: an int as it is, TypeError for a float. *)
Definition index (a : num) : result Z :=
  match a with
  | Int n => Ok n
  | Flt _ => Raise TypeError
  end.

(** [str(a)] *)
Definition str (a : num) : string :=
  match a with
  | Int n => Py.str_int n
  | Flt x => Float.repr x
  end.

End Num.

Module Format.

(** [str.format] with keyword arguments, for replacement fields that are plain names:
    [{name}] is replaced by the str of the argument of that name, [{{] and
    [}}] stand for a brace.  [field] holds the name being read, backwards. *)
Fixpoint go (kwargs : list (string * Num.num)) (s : string)
    (field : option string) {struct s} : result string :=
  match s, field with
  | EmptyString, None => Ok ""
  | EmptyString, Some _ =>
      Raise (ValueError "expected '}' before end of string")
  | String c s', None =>
      if Ascii.eqb c "{" then
        match s' with
        | String "{" s'' => r ← go kwargs s'' None; Ok (String "{" r)
        | _ => go kwargs s' (Some "")
        end
      else if Ascii.eqb c "}" then
        match s' with
        | String "}" s'' => r ← go kwargs s'' None; Ok (String "}" r)
        | _ => Raise (ValueError "Single '}' encountered in format string")
        end
      else r ← go kwargs s' None; Ok (String c r)
  | String c s', Some acc =>
      if Ascii.eqb c "}" then
        let name := Py.rev_str acc "" in
        match (snd <$> List.find (fun kv => String.eqb (fst kv) name) kwargs) with
        | Some v => r ← go kwargs s' None; Ok (Num.str v +:+ r)
        | None => Raise (KeyError name)
        end
      else go kwargs s' (Some (String c acc))
  end.

Definition format (template : string) (kwargs : list (string * Num.num))
    : result string :=
  go kwargs template None.

End Format.

(* ================================================================== *)
(** * numpy *)

(** [np.log10] and [np.power] on float64: the two functions of numpy the
    driver calls that go beyond the four operations. *)
Class Numpy : Type := {
  np_log10 : Float.float -> Float.float;
  np_power : Float.float -> Float.float -> Float.float;
}.

Module Np.

(** [np.linspace(start, stop, num, endpoint)] on floats: [num] samples
    [start + i * step]; with the end point the last sample is [stop]
    itself.  A negative [num] raises. *)
Definition linspace (start stop : Float.float) (num : Z) (endpoint : bool)
    : result (list Float.float) :=
  if num <? 0
  then Raise (ValueError ("Number of samples, " +:+ Py.str_int num
                          +:+ ", must be non-negative."))
  else
    let div := if endpoint then num - 1 else num in
    let delta := Float.sub stop start in
    let y := map Float.of_int (seqZ 0 num) in
    let y :=
      if 0 <? div then
        let step := Float.div delta (Float.of_int div) in
        if Float.eqb step Float.zero
        then map (fun i => Float.mul (Float.div i (Float.of_int div)) delta) y
        else map (fun i => Float.mul i step) y
      else map (fun i => Float.mul i delta) y in
    let y := map (fun v => Float.add v start) y in
    Ok (if endpoint && (1 <? num)
        then <[Z.to_nat (num - 1) := stop]> y else y).

(** [np.logspace(start, stop, num, endpoint)], base ten. *)
Definition logspace `{Numpy} (start stop : Float.float) (num : Z)
    (endpoint : bool) : result (list Float.float) :=
  y ← linspace start stop num endpoint;
  Ok (map (np_power (Float.of_int 10)) y).

End Np.

(* ================================================================== *)
(** * KeysightB1520A.py *)

(** What the driver imports from its package and is not among the sources:
    the constants, and the messages of [MessageBuilder]; [mb_rc chnum mode
    range] is [MessageBuilder().rc(chnum=.., ranging_mode=..,
    measurement_range=..).message], and so on. *)
Class B1500 : Type := {
  RangingMode_AUTO : Z;
  MM_Mode_SPOT_C : Z;
  LRN_Type_CV_DC_BIAS_SWEEP_MEASUREMENT_SETTINGS : Z;
  mb_mm : Z -> list Z -> string;
  mb_tc : Z -> Z -> string;
  mb_rc : Z -> Z -> option Z -> string;
  mb_xe : string;
  mb_lrn_query : Z -> string;
}.

Module B1520A.
Import Num.

(** ** The patterns *)

Definition sign_chars : list ascii := ["+"; "-"]%char.

(** Lines 20-21:
    [((?P<status>\w)(?P<chnr>\w)(?P<dtype>\w))?]
    [(?P<value>[+-]\d{1,3}\.\d{3,6}E[+-]\d{2})] *)
Definition _pattern : Re.regex :=
  Re.Cat
    (Re.opt (Re.cat [Re.Named "status" Re.WordChar;
                     Re.Named "chnr" Re.WordChar;
                     Re.Named "dtype" Re.WordChar]))
    (Re.Named "value"
       (Re.cat [Re.OneOf sign_chars; Re.between 1 3 Re.DigitChar; Re.Chr ".";
                Re.between 3 6 Re.DigitChar; Re.Chr "E"; Re.OneOf sign_chars;
                Re.times 2 Re.DigitChar])).

(** Lines 479-481:
    [WDCV(?P<chan>.+?),(?P<sweep_mode>.+?),(?P<sweep_start>.+?),]
    [(?P<sweep_end>.+?),(?P<sweep_steps>.+?)(;|$)] *)
Definition wdcv_pattern : Re.regex :=
  Re.cat [Re.lit "WDCV";
          Re.Named "chan" (Re.plus_lazy Re.Dot); Re.Chr ",";
          Re.Named "sweep_mode" (Re.plus_lazy Re.Dot); Re.Chr ",";
          Re.Named "sweep_start" (Re.plus_lazy Re.Dot); Re.Chr ",";
          Re.Named "sweep_end" (Re.plus_lazy Re.Dot); Re.Chr ",";
          Re.Named "sweep_steps" (Re.plus_lazy Re.Dot);
          Re.Alt (Re.Chr ";") Re.Dollar].

(** [m[name]] of a match whose pattern always fills the group. *)
Definition group_text (m : Re.match_) (name : string) : string :=
  default "" (Re.group name (Re.m_groups m)).

(** ** The parsers *)

(** Lines 477-493. *)
Definition _get_sweep_steps_parser (response : string)
    : result (list (string * num)) :=
  match Re.search wdcv_pattern response with
  | None => Raise (ValueError "Sweep steps (WDCV) not found.")
  | Some m =>
      chan ← Py.int (group_text m "chan");
      sweep_mode ← Py.int (group_text m "sweep_mode");
      sweep_start ← Float.of_str (group_text m "sweep_start");
      sweep_end ← Float.of_str (group_text m "sweep_end");
      sweep_steps ← Py.int (group_text m "sweep_steps");
      Ok [("chan", Int chan); ("sweep_mode", Int sweep_mode);
          ("sweep_start", Flt sweep_start); ("sweep_end", Flt sweep_end);
          ("sweep_steps", Int sweep_steps)]
  end.

(** Lines 418-427: the two values of a spot measurement. *)
Definition parse_capacitance (response : string)
    : result (Float.float * Float.float) :=
  let parsed := Re.finditer _pattern response in
  match parsed with
  | [p0; p1] =>
      if negb (bool_decide (Re.group "dtype" (Re.m_groups p0) = Some "C"))
         || negb (bool_decide (Re.group "dtype" (Re.m_groups p1) = Some "Y"))
      then Raise (ValueError "Result format not supported.")
      else
        v0 ← Float.of_str (group_text p0 "value");
        v1 ← Float.of_str (group_text p1 "value");
        Ok (v0, v1)
  | _ => Raise (ValueError "Result format not supported.")
  end.

(** Lines 676-682, [enumerate] and the two [append]s: the values at even
    places go to [param1], those at odd places to [param2]. *)
Fixpoint deal (i : nat) (no_str param1 param2 : list Float.float)
    : list Float.float * list Float.float :=
  match no_str with
  | [] => (param1, param2)
  | val :: rest =>
      if (i mod 2 =? 0)%nat
      then deal (S i) rest (param1 ++ [val]) param2
      else deal (S i) rest param1 (param2 ++ [val])
  end.

(** Lines 672-686. *)
Definition parse_sweep_data (raw_data : string)
    : result (list Float.float * list Float.float) :=
  let no_commas := Py.split "," raw_data in
  no_str ← mapM (fun val => Float.of_str (Py.drop_str 3 val)) no_commas;
  Ok (deal 0 no_str [] []).

(** ** The module and its link *)

(** The attributes of a [B1520A] that the methods below use, the cached
    values of its parameters by name, and the link: what was written so
    far, and the instrument, which answers a query given all that was
    written before it (or does not answer). *)
Record B1520A : Type := Module_ {
  channels : Z;                                  (* self.channels[0] *)
  setup_fnc_already_run : bool;
  _ranging_mode : Z;
  _measurement_range_for_non_auto : option Z;
  _sweep_steps : Z;
  parameters : gmap string num;
  written : list string;
  instrument : list string -> string -> option string;
}.

(** Lines 179-183 of [__init__]. *)
Definition initialized `{B1500} (self : B1520A) : Prop :=
  setup_fnc_already_run self = false
  /\ _ranging_mode self = RangingMode_AUTO
  /\ _measurement_range_for_non_auto self = None
  /\ _sweep_steps self = 1.

Definition set_written (w : list string) (self : B1520A) : B1520A :=
  Module_ (channels self) (setup_fnc_already_run self) (_ranging_mode self)
    (_measurement_range_for_non_auto self) (_sweep_steps self)
    (parameters self) w (instrument self).

Definition set_parameters (p : gmap string num) (self : B1520A) : B1520A :=
  Module_ (channels self) (setup_fnc_already_run self) (_ranging_mode self)
    (_measurement_range_for_non_auto self) (_sweep_steps self)
    p (written self) (instrument self).

Definition set_ranging_mode (m : Z) (self : B1520A) : B1520A :=
  Module_ (channels self) (setup_fnc_already_run self) m
    (_measurement_range_for_non_auto self) (_sweep_steps self)
    (parameters self) (written self) (instrument self).

Definition set_measurement_range (r : option Z) (self : B1520A) : B1520A :=
  Module_ (channels self) (setup_fnc_already_run self) (_ranging_mode self)
    r (_sweep_steps self) (parameters self) (written self) (instrument self).

(** Modelled from the spec: [self.write(cmd)] of the instrument classes,
    which are not among the sources, is the link's [send]: the command goes
    out and no reply is expected. *)
Definition write (cmd : string) : SE B1520A unit :=
  modify (fun self => set_written (written self ++ [cmd]) self).

(** Modelled from the spec: [self.ask(cmd)] is the link's
    [send_and_receive]: the query goes out and one reply is read; no reply
    within the timeout raises. *)
Definition ask (cmd : string) : SE B1520A string :=
  fun self =>
    let self' := set_written (written self ++ [cmd]) self in
    match instrument self (written self) cmd with
    | Some reply => (Ok reply, self')
    | None => (Raise VisaTimeout, self')
    end.

(** ** Parameters *)

(** Modelled from the spec: [qcodes.utils.validators] is not among the
    sources; [vals.Ints(1, 1001)] of line 243 is the integer range of the
    spec's validators, both ends included. *)
Definition valid_sweep_steps (value : num) : bool :=
  match value with
  | Int n => (1 <=? n) && (n <=? 1001)
  | Flt _ => false
  end.

(** Lines 255-260: the [set_cmd] of the group [set_sweep_steps]. *)
Definition set_sweep_steps_set_cmd : string :=
  "WDCV {chan},{sweep_mode},{sweep_start},{sweep_end},{sweep_steps}".

(** The members of the group, in the order of lines 250-254. *)
Definition set_sweep_steps_members : list string :=
  ["chan"; "sweep_mode"; "sweep_start"; "sweep_end"; "sweep_steps"].

(** The floats 0.0 and 1.0, and the five values of the example of the spec:
    channel 1, mode 1 (LINEAR), from 0.0 to 1.0 in 11 steps. *)
Definition f0 : Float.float := Float.of_decimal false 0 0.
Definition f1 : Float.float := Float.of_decimal false 1 0.

Definition wdcv_values : list (string * num) :=
  [("chan", Int 1); ("sweep_mode", Int 1); ("sweep_start", Flt f0);
   ("sweep_end", Flt f1); ("sweep_steps", Int 11)].

(** The settings as the parser of the group returns them. *)
Definition settings (chan mode : Z) (start end_ : Float.float) (steps : Z)
    : list (string * num) :=
  [("chan", Int chan); ("sweep_mode", Int mode); ("sweep_start", Flt start);
   ("sweep_end", Flt end_); ("sweep_steps", Int steps)].

Section WithB1500.
Context `{B1500}.

(** Lines 469-475: the [get_cmd] of the group. *)
Definition _get_sweep_steps : string :=
  mb_lrn_query LRN_Type_CV_DC_BIAS_SWEEP_MEASUREMENT_SETTINGS.

(** Modelled from the spec: [qcodes.instrument.group_parameter] is not
    among the sources.  Setting a member of a group builds the one composite
    command from the [set_cmd] template, the new value in its place and the
    cached values of the other members in theirs, writes it, and caches the
    new value.  A member that has no value yet cannot be formatted. *)
Definition group_set (name : string) (value : num) : SE B1520A unit :=
  self ← gets id;
  let calling_dict := <[name := value]> (parameters self) in
  command_str ← lift (Format.format set_sweep_steps_set_cmd
    (omap (fun name => pair name <$> calling_dict !! name)
          set_sweep_steps_members));
  _ ← write command_str;
  modify (set_parameters calling_dict).

(** Line 241: the parameter [sweep_steps], with its validator; a value the
    validator rejects raises before anything is built or sent. *)
Definition sweep_steps_set (value : num) : SE B1520A unit :=
  if valid_sweep_steps value then group_set "sweep_steps" value
  else raise (ValueError "sweep_steps: not an int between 1 and 1001").

(** Modelled from the spec: a read of a member of a group issues the one
    composite query, parses the reply in one pass and caches every member
    (all of them or, when the reply does not parse, none), then returns the
    member's value. *)
Definition group_update : SE B1520A unit :=
  response ← ask _get_sweep_steps;
  ret ← lift (_get_sweep_steps_parser response);
  modify (fun self => set_parameters (list_to_map ret ∪ parameters self) self).

(** Modelled from the spec: the read itself, [self.<member>()]. *)
Definition group_get (name : string) : SE B1520A num :=
  _ ← group_update;
  self ← gets id;
  match parameters self !! name with
  | Some value => mret value
  | None => raise (KeyError name)
  end.

(** The instrument answers the query of the sweep settings with [response],
    whatever was written before. *)
Definition answers (self : B1520A) (response : string) : Prop :=
  forall sent, instrument self sent _get_sweep_steps = Some response.

(** The module after one read of a member of the group that returned [ret]. *)
Definition refreshed (ret : list (string * num)) (self : B1520A) : B1520A :=
  set_parameters (list_to_map ret ∪ parameters self)
    (set_written (written self ++ [_get_sweep_steps]) self).

(** ** The methods *)

(** Lines 522-524. *)
Definition _set_measurement_mode (mode : Z) : SE B1520A unit :=
  self ← gets id;
  write (mb_mm mode [channels self]).

(** Lines 409-427. *)
Definition _get_capacitance : SE B1520A (Float.float * Float.float) :=
  _ ← _set_measurement_mode MM_Mode_SPOT_C;
  self ← gets id;
  response ← ask (mb_tc (channels self) RangingMode_AUTO);
  lift (parse_capacitance response).

(** The module after [_get_capacitance] sent its two messages. *)
Definition after_capacitance (self : B1520A) : B1520A :=
  set_written
    (written self ++ [mb_mm MM_Mode_SPOT_C [channels self];
                      mb_tc (channels self) RangingMode_AUTO]) self.

(** Lines 535-544. *)
Definition _set_ranging_mode (val : Z) : SE B1520A unit :=
  _ ← modify (set_ranging_mode val);
  _ ← (if val =? RangingMode_AUTO
       then modify (set_measurement_range None) else mret tt);
  self ← gets id;
  write (mb_rc (channels self) (_ranging_mode self)
           (_measurement_range_for_non_auto self)).

(** Lines 546-553. *)
Definition _set_measurement_range_for_non_auto (val : option Z)
    : SE B1520A unit :=
  _ ← modify (set_measurement_range val);
  self ← gets id;
  write (mb_rc (channels self) (_ranging_mode self)
           (_measurement_range_for_non_auto self)).

End WithB1500.

(** ** The sweep voltages *)

(** Line 344: [sign = lambda s: s and (1, -1)[s < 0]]. *)
Definition sign (s : num) : num :=
  if truthy s then (if negative s then Int (-1) else Int 1) else s.

(** The resolution, [0.005]. *)
Definition resolution : Float.float := Float.of_decimal false 5 (-3).

(** [a * 0.005] *)
Definition times_resolution (a : num) : num :=
  Flt (Float.mul (to_float a) resolution).

Section WithNumpy.
Context `{Numpy}.

(** Lines 358-360. *)
Definition linear_sweep (start end_ steps : num) : result (list num) :=
  steps ← index steps;
  sweep_val ← Np.linspace (to_float start) (to_float end_) steps true;
  Ok (map Flt sweep_val).

(** Lines 362-364. *)
Definition log_sweep (start end_ steps : num) : result (list num) :=
  steps ← index steps;
  sweep_val ← Np.logspace (np_log10 (to_float start))
                 (np_log10 (to_float end_)) steps true;
  Ok (map Flt sweep_val).

(** Lines 366-374. *)
Definition linear_2way_sweep (start end_ steps : num) : result (list num) :=
  steps ← index steps;
  if steps mod 2 =? 0 then
    half_list ← Np.linspace (to_float start) (to_float end_) (steps / 2) true;
    let half_list := map Flt half_list in
    Ok (half_list ++ reverse half_list)
  else
    half_list ← Np.linspace (to_float start) (to_float end_) (steps / 2) false;
    let half_list := map Flt half_list in
    Ok (half_list ++ [end_] ++ reverse half_list).

(** Lines 376-385. *)
Definition log_2way_sweep (start end_ steps : num) : result (list num) :=
  steps ← index steps;
  if steps mod 2 =? 0 then
    half_list ← Np.logspace (np_log10 (to_float start))
                   (np_log10 (to_float end_)) (steps / 2) true;
    let half_list := map Flt half_list in
    Ok (half_list ++ reverse half_list)
  else
    half_list ← Np.logspace (np_log10 (to_float start))
                   (np_log10 (to_float end_)) (steps / 2) false;
    let half_list := map Flt half_list in
    Ok (half_list ++ [end_] ++ reverse half_list).

(** Lines 387-390: [modes[mode]], a KeyError for any other mode. *)
Definition modes (mode : num) : result (num -> num -> num -> result (list num)) :=
  if eqb mode (Int 1) then Ok linear_sweep
  else if eqb mode (Int 2) then Ok log_sweep
  else if eqb mode (Int 3) then Ok linear_2way_sweep
  else if eqb mode (Int 4) then Ok log_2way_sweep
  else Raise (KeyError (str mode)).

(** Lines 349-356, reached when the start and the end differ in sign:
    a zero moves to the resolution (times its own sign), two opposite signs
    raise. *)
Definition check_polarity (start_value end_value end_again : num)
    : result (num * num) :=
  if negb (eqb (sign start_value) (sign end_again)) then
    if eqb (sign start_value) (Int 0)
    then Ok (times_resolution (sign start_value), end_value)
    else if eqb (sign end_value) (Int 0)
    then Ok (start_value, times_resolution (sign end_value))
    else Raise (AssertionError "Polarity of start and end is not same.")
  else Ok (start_value, end_value).

(** The test of lines 349-356 on floats: whether the start and the end have
    the same sign or one of them is zero. *)
Definition polarity_ok (start end_ : Float.float) : bool :=
  eqb (sign (Flt start)) (sign (Flt end_))
  || eqb (sign (Flt start)) (Int 0) || eqb (sign (Flt end_)) (Int 0).

(** Lines 348-392 on the settings read: the sweep as a function of the mode,
    the start, the end and the number of steps. *)
Definition sweep_voltages_of (mode : Z) (start end_ : Float.float) (steps : Z)
    : result (list num) :=
  '(start_value, end_value) ←
    (if (mode =? 2) || (mode =? 4)
     then check_polarity (Flt start) (Flt end_) (Flt end_)
     else Ok (Flt start, Flt end_));
  sweep ← modes (Int mode);
  sweep start_value end_value (Int steps).

(** A two-way sweep of [n] steps around [end_]: the half list, the end
    value, the half list backwards. *)
Definition two_way (half : list Float.float) (end_ : Float.float) (n : Z)
    (sweep : list num) : Prop :=
  sweep = map Flt half ++ [Flt end_] ++ reverse (map Flt half)
  /\ length half = Z.to_nat (n / 2)
  /\ length sweep = Z.to_nat n
  /\ sweep !! Z.to_nat (n / 2) = Some (Flt end_).

Context `{B1500}.

(** Lines 343-392.  Every [self.sweep_...()] is a read of a parameter of
    the group. *)
Definition _cv_sweep_voltages : SE B1520A (list num) :=
  start_value ← group_get "sweep_start";
  end_value ← group_get "sweep_end";
  step_value ← group_get "sweep_steps";
  mode ← group_get "sweep_mode";
  is_log ← (if eqb mode (Int 2) then mret true
            else mode ← group_get "sweep_mode"; mret (eqb mode (Int 4)));
  '(start_value, end_value) ←
    (if is_log : bool then
       end_again ← group_get "sweep_end";
       lift (check_polarity start_value end_value end_again)
     else mret (start_value, end_value));
  mode ← group_get "sweep_mode";
  sweep ← lift (modes mode);
  lift (sweep start_value end_value step_value).

(** Lines 713-729, [CVSweepMeasurement.get_raw].  The module registers its
    sweep submodule as [cv_sweep] (line 224): [self._instrument.cvsweep] of
    line 717 names no attribute.  Setting the shapes, the setpoints and the
    timeout touches nothing that is modelled, but the setpoints are read. *)
Definition get_raw : SE B1520A (list Float.float * list Float.float) :=
  ready ← gets setup_fnc_already_run;
  if negb ready
  then raise (Warning "Sweep setup has not yet been run successfully")
  else
    num_steps ← group_get "sweep_steps";
    delay_time ← (raise (AttributeError "cvsweep") : SE B1520A num);
    setpoints ← _cv_sweep_voltages;
    raw_data ← ask mb_xe;
    lift (parse_sweep_data raw_data).

End WithNumpy.

End B1520A.

(* ================================================================== *)
(** * Instances to run the driver with *)

(** Modelled from the spec: [MessageBuilder] is not among the sources.  A
    command is a mnemonic and its positional arguments, separated by commas;
    an optional argument that is omitted at the end is dropped. *)
Definition command (mnemonic : string) (arguments : list Z) : string :=
  match arguments with
  | [] => mnemonic
  | _ => mnemonic +:+ " " +:+ Json.join "," (map Py.str_int arguments)
  end.

(** The theorems below hold for every [B1500]; this one runs the examples.
    Its constants are the numbers the examples use for AUTO ranging, the
    spot C measurement mode and the learn query of the sweep settings. *)
Definition example_b1500 : B1500 := {|
  RangingMode_AUTO := 0;
  MM_Mode_SPOT_C := 17;
  LRN_Type_CV_DC_BIAS_SWEEP_MEASUREMENT_SETTINGS := 61;
  mb_mm mode chans := command "MM" (mode :: chans);
  mb_tc chnum mode := command "TC" [chnum; mode];
  mb_rc chnum mode range := command "RC" ([chnum; mode] ++ option_list range);
  mb_xe := command "XE" [];
  mb_lrn_query type_id := command "*LRN?" [type_id];
|}.

(** The theorems below hold for every [Numpy]; this one runs the examples.
    It is exact on whole powers of ten and answers nan elsewhere, where
    numpy rounds. *)
Definition decade_log10 (x : Float.float) : Float.float :=
  default S754_nan
    (Float.of_int <$>
       List.find (fun k => Float.eqb x (Float.of_decimal false 1 k)) (seqZ 0 23)).

Definition decade_power (b y : Float.float) : Float.float :=
  match Num.integral b, Num.integral y with
  | Some 10, Some k => Float.of_decimal false 1 k
  | _, _ => S754_nan
  end.

Definition example_numpy : Numpy := {|
  np_log10 := decade_log10;
  np_power := decade_power;
|}.

(** A module in slot 3, fresh from [__init__], on an instrument that
    answers every query with [reply]. *)
Definition fresh_module (reply : string) : B1520A.B1520A :=
  B1520A.Module_ 3 false (@RangingMode_AUTO example_b1500) None 1 ∅ []
    (fun _ _ => Some reply).

(** The same module once [setup_staircase_cv] has seen no error. *)
Definition configured_module (reply : string) : B1520A.B1520A :=
  B1520A.Module_ 3 true (@RangingMode_AUTO example_b1500) None 1 ∅ []
    (fun _ _ => Some reply).

(* ================================================================== *)
(** * Replies of the instrument *)

Module Text.

(** No character of [s] is one of [cs]. *)
Fixpoint free_of (cs : list ascii) (s : string) : bool :=
  match s with
  | EmptyString => true
  | String a s' => negb (existsb (Ascii.eqb a) cs) && free_of cs s'
  end.

(** Every character of [s] satisfies [p]. *)
Fixpoint all_chars (p : ascii -> bool) (s : string) : bool :=
  match s with
  | EmptyString => true
  | String a s' => p a && all_chars p s'
  end.

(** The number that a text of digits spells, after the digits of [acc]. *)
Fixpoint spelled (s : string) (acc : Z) : Z :=
  match s with
  | EmptyString => acc
  | String c s' => spelled s' (10 * acc + Py.digit_value c)
  end.

(** [s.startswith(w)] *)
Fixpoint startswith (w s : string) : bool :=
  match w, s with
  | EmptyString, _ => true
  | String a w', String b s' => Ascii.eqb a b && startswith w' s'
  | String _ _, EmptyString => false
  end.

(** [s.find(w)]: the first place where [w] occurs in [s]. *)
Fixpoint find (w s : string) : option nat :=
  if startswith w s then Some 0%nat
  else match s with
       | String _ s' => S <$> find w s'
       | EmptyString => None
       end.

(** A field of a reply: not empty, and none of [cs] nor a newline in it. *)
Definition field (cs : list ascii) (s : string) : bool :=
  negb (String.eqb s "") && free_of (Py.newline :: cs) s.

(** What may follow the last field of a reply for [(;|$)] to match: the
    end of the text, a newline that ends it, or a semicolon. *)
Definition closes (tail : string) : bool :=
  match tail with
  | EmptyString => true
  | String c t => Ascii.eqb c ";" || (Ascii.eqb c Py.newline && String.eqb t "")
  end.

(** The same for [$] alone. *)
Definition ends (tail : string) : bool :=
  String.eqb tail "" || String.eqb tail (String Py.newline "").

End Text.

(** ** Tools of the proofs *)

(** The loop of the matcher for [.+?], by itself: [Re.run] on
    [Re.plus_lazy Re.Dot] is this loop, from 0 repetitions on. *)
Definition lazy_dots {A} (k : string -> Re.groups -> option A) :=
  fix loop (fuel : nat) (count : nat) (s : string) (g : Re.groups)
         {struct fuel} : option A :=
         match fuel with
         | O => None
         | S fuel' =>
             let again (_ : unit) :=
               if true
               then Re.run Re.Dot s g (fun s' g' =>
                      if (String.length s' <? String.length s)%nat
                      then loop fuel' (S count) s' g' else None)
               else None in
             let leave (_ : unit) :=
               if (1 <=? count)%nat then k s g else None in
             match leave tt with Some a => Some a | None => again tt end
         end.

(** The elements at even places of a list (from 0) and those at odd
    places. *)
Fixpoint evens {A} (l : list A) : list A :=
  match l with
  | [] => []
  | x :: l' => x :: match l' with [] => [] | _ :: l'' => evens l'' end
  end.

Definition odds {A} (l : list A) : list A :=
  match l with
  | [] => []
  | _ :: l' => evens l'
  end.

(* ================================================================== *)
(** * KeysightB1520A.py: the sweep submodule, the corrections, the setup *)

(** [Union[bool, constants.Abort]], what [sweep_auto_abort] is set to: a
    bool, or the member of an [IntEnum]. *)
Inductive auto_abort : Type :=
| AbortBool (b : bool)
| AbortEnum (n : Z).

(** [bool(a)]: true for [True] and for every int but zero. *)
Definition abort_truthy (a : auto_abort) : bool :=
  match a with
  | AbortBool b => b
  | AbortEnum n => negb (n =? 0)
  end.

(** More of what the driver imports and is not among the sources: the
    members of the enumerations of [constants] that validators list or
    replies are converted to (a member is its value, with its name where the
    driver prints it), and more messages of [MessageBuilder]. *)
Class Messages : Type := {
  ACT_Mode : list Z;
  IMP_MeasurementMode : list Z;
  SweepMode : list Z;
  MM_Mode_CV_DC_SWEEP : Z;
  LRN_Type_MFCMU_ADC_SETTING : Z;
  ADJQuery_Response : list (Z * string);
  CORR_Response : list (Z * string);
  CORRST_Response : list (Z * string);
  mb_dcv : Z -> Num.num -> string;
  mb_acv : Z -> Num.num -> string;
  mb_fc : Z -> Num.num -> string;
  mb_adj : Z -> Z -> string;
  mb_adj_query : Z -> option Z -> string;
  mb_ab : string;
  mb_imp : Z -> string;
  mb_lmn : bool -> string;
  mb_wmdcv : auto_abort -> option Z -> string;
  mb_corrst : Z -> Z -> bool -> string;
  mb_corrst_query : Z -> Z -> string;
  mb_corr_query : Z -> Z -> string;
}.

(** The link as the mainframe sees it: what was written so far, and the
    instrument. *)
Definition Link : Type := list string * (list string -> string -> option string).

(** The two methods of the mainframe ([KeysightB1500], not among the
    sources) that the setup calls.  Whatever they do, they do it on the
    link: each returns or raises, and leaves a log of what was written. *)
Class Mainframe : Type := {
  enable_channels : list Z -> Link -> result unit * list string;
  error_message : Link -> result string * list string;
}.

(** ** Validators *)

Module Vals.
Import Num.

(** [x] against the int [n], exactly, as Python compares a float with an
    int; a nan compares with nothing. *)
Definition float_compare_int (x : Float.float) (n : Z) : option comparison :=
  match x with
  | S754_nan => None
  | S754_infinity s => Some (if s then Lt else Gt)
  | S754_zero _ => Some (0 ?= n)
  | S754_finite s m e =>
      let v := if s then Z.neg m else Z.pos m in
      Some (if 0 <=? e then v * 2 ^ e ?= n else v ?= n * 2 ^ (- e))
  end.

Definition compare (a b : num) : option comparison :=
  match a, b with
  | Int x, Int y => Some (x ?= y)
  | Flt x, Flt y => SFcompare x y
  | Flt x, Int y => float_compare_int x y
  | Int x, Flt y => CompOpp <$> float_compare_int y x
  end.

(** [a <= b] *)
Definition leb (a b : num) : bool :=
  match compare a b with
  | Some Lt | Some Eq => true
  | _ => false
  end.

(** Modelled from the spec: [vals.Numbers(min, max)], the numeric range of
    the spec's validators, both ends included. *)
Definition Numbers (min_value max_value : num) (value : num) : result unit :=
  if leb min_value value && leb value max_value then Ok tt
  else Raise (ValueError "value is outside the range of the validator").

(** Modelled from the spec: [vals.Ints(min, max)], the integer range. *)
Definition Ints (min_value max_value : Z) (value : num) : result unit :=
  match value with
  | Int n =>
      if (min_value <=? n) && (n <=? max_value) then Ok tt
      else Raise (ValueError "value is outside the range of the validator")
  | Flt _ => Raise TypeError
  end.

(** Modelled from the spec: [vals.Enum(members)], the enumeration
    membership. *)
Definition Enum (members : list Z) (value : Z) : result unit :=
  if existsb (Z.eqb value) members then Ok tt
  else Raise (ValueError "value is not in the set of the validator").

End Vals.

(** [E(n)] for an enumeration [E]: the member of value [n], ValueError when
    there is none. *)
Definition enum_member (members : list (Z * string)) (n : Z)
    : result (Z * string) :=
  match List.find (fun member => fst member =? n) members with
  | Some member => Ok member
  | None => Raise (ValueError "not a valid member of the enumeration")
  end.

(** The bounds of the delays: 655.35, 65.535. *)
Definition f655_35 : Float.float := Float.of_decimal false 65535 (-2).
Definition f65_535 : Float.float := Float.of_decimal false 65535 (-3).

(** ** The class [CVSweep] *)

Module CVSweep.
Import Num B1520A.

(** The attributes of a [CVSweep] and the module it belongs to, whose link
    it writes to.  The module holds the cached values of the five delays
    too, under their names. *)
Record CVSweep : Type := Channel_ {
  _sweep_auto_abort : auto_abort;
  _post_sweep_voltage_cond : Z;
  parent : B1520A.B1520A;
}.

Definition set_sweep_auto_abort (val : auto_abort) (self : CVSweep) : CVSweep :=
  Channel_ val (_post_sweep_voltage_cond self) (parent self).

Definition set_post_sweep_voltage_cond (val : Z) (self : CVSweep) : CVSweep :=
  Channel_ (_sweep_auto_abort self) val (parent self).

Definition set_parent (p : B1520A.B1520A) (self : CVSweep) : CVSweep :=
  Channel_ (_sweep_auto_abort self) (_post_sweep_voltage_cond self) p.

(** A method of the module, run from the submodule. *)
Definition on_parent {A} (m : SE B1520A.B1520A A) : SE CVSweep A :=
  fun self => let '(r, p) := m (parent self) in (r, set_parent p self).

(** Lines 113-118: the [set_cmd] of the group [set_sweep_delays], and its
    members in the order of lines 108-112. *)
Definition set_sweep_delays_set_cmd : string :=
  "WTDCV {hold},{delay},{step_delay},{trigger_delay},{measure_delay}".

Definition set_sweep_delays_members : list string :=
  ["hold"; "delay"; "step_delay"; "trigger_delay"; "measure_delay"].

(** Lines 132-134:
    [WTDCV(?P<hold>.+?),(?P<delay>.+?),(?P<step_delay>.+?),]
    [(?P<trigger_delay>.+?),(?P<measure_delay>.+?)(;|$)] *)
Definition wtdcv_pattern : Re.regex :=
  Re.cat [Re.lit "WTDCV";
          Re.Named "hold" (Re.plus_lazy Re.Dot); Re.Chr ",";
          Re.Named "delay" (Re.plus_lazy Re.Dot); Re.Chr ",";
          Re.Named "step_delay" (Re.plus_lazy Re.Dot); Re.Chr ",";
          Re.Named "trigger_delay" (Re.plus_lazy Re.Dot); Re.Chr ",";
          Re.Named "measure_delay" (Re.plus_lazy Re.Dot);
          Re.Alt (Re.Chr ";") Re.Dollar].

(** Lines 130-141. *)
Definition _get_sweep_delays_parser (response : string)
    : result (list (string * num)) :=
  match Re.search wtdcv_pattern response with
  | None => Raise (ValueError "Sweep delays (WTDCV) not found.")
  | Some m =>
      hold ← Float.of_str (group_text m "hold");
      delay ← Float.of_str (group_text m "delay");
      step_delay ← Float.of_str (group_text m "step_delay");
      trigger_delay ← Float.of_str (group_text m "trigger_delay");
      measure_delay ← Float.of_str (group_text m "measure_delay");
      Ok [("hold", Flt hold); ("delay", Flt delay);
          ("step_delay", Flt step_delay); ("trigger_delay", Flt trigger_delay);
          ("measure_delay", Flt measure_delay)]
  end.

(** Lines 122-128: the [get_cmd] of the group, the query that the group of
    the sweep steps sends too. *)
Definition _get_sweep_delays `{B1500} : string :=
  mb_lrn_query LRN_Type_CV_DC_BIAS_SWEEP_MEASUREMENT_SETTINGS.

Section WithMessages.
Context `{Messages}.

(** Lines 143-146. *)
Definition _set_sweep_auto_abort (val : auto_abort) : SE CVSweep unit :=
  _ ← modify (set_sweep_auto_abort val);
  self ← gets id;
  on_parent (write (mb_wmdcv (_sweep_auto_abort self) None)).

(** Lines 148-156. *)
Definition _set_post_sweep_voltage_cond (val : Z) : SE CVSweep unit :=
  self ← gets id;
  if negb (abort_truthy (_sweep_auto_abort self))
  then raise (Warning "Enable auto abort before setting post sweep volatge.")
  else
    _ ← modify (set_post_sweep_voltage_cond val);
    self ← gets id;
    on_parent (write (mb_wmdcv (_sweep_auto_abort self)
                        (Some (_post_sweep_voltage_cond self)))).

End WithMessages.

End CVSweep.

(** ** The class [B1520A], further *)

Module B1520A_methods.
Import Num B1520A CVSweep.

(** Line 275: the [set_cmd] of the group [adc_group], and its members in
    the order of line 274. *)
Definition adc_group_set_cmd : string := "ACT {adc_mode},{adc_coef}".

Definition adc_group_members : list string := ["adc_mode"; "adc_coef"].

(** Line 505: [ACT(?P<adc_mode>.+?),(?P<adc_coef>.+?)$] *)
Definition act_pattern : Re.regex :=
  Re.cat [Re.lit "ACT";
          Re.Named "adc_mode" (Re.plus_lazy Re.Dot); Re.Chr ",";
          Re.Named "adc_coef" (Re.plus_lazy Re.Dot);
          Re.Dollar].

(** Lines 503-511. *)
Definition _get_adc_mode_parser (response : string)
    : result (list (string * num)) :=
  match Re.search act_pattern response with
  | None => Raise (ValueError "ADC mode and coef (ATC) not found.")
  | Some m =>
      adc_mode ← Py.int (group_text m "adc_mode");
      adc_coef ← Py.int (group_text m "adc_coef");
      Ok [("adc_mode", Int adc_mode); ("adc_coef", Int adc_coef)]
  end.

Definition set_setup_fnc_already_run (b : bool) (self : B1520A.B1520A)
    : B1520A.B1520A :=
  Module_ (channels self) b (_ranging_mode self)
    (_measurement_range_for_non_auto self) (_sweep_steps self)
    (parameters self) (written self) (instrument self).

Definition set_sweep_steps (n : Z) (self : B1520A.B1520A) : B1520A.B1520A :=
  Module_ (channels self) (setup_fnc_already_run self) (_ranging_mode self)
    (_measurement_range_for_non_auto self) n
    (parameters self) (written self) (instrument self).

(** A method of the mainframe, run from the module: it sees the link, and
    what it wrote is written. *)
Definition on_link {A} (m : Link -> result A * list string)
    : SE B1520A.B1520A A :=
  fun self =>
    let '(r, w) := m (written self, instrument self) in (r, set_written w self).

(** Modelled from the spec: setting a member of a group, as [group_set]
    has it for the group of the sweep steps, for any group: its [set_cmd]
    template and its members. *)
Definition group_set_in (set_cmd : string) (members : list string)
    (name : string) (value : num) : SE B1520A.B1520A unit :=
  self ← gets id;
  let calling_dict := <[name := value]> (parameters self) in
  command_str ← lift (Format.format set_cmd
    (omap (fun name => pair name <$> calling_dict !! name) members));
  _ ← write command_str;
  modify (set_parameters calling_dict).

(** Modelled from the spec: a parameter with a validator; a value the
    validator rejects raises before anything is built or sent. *)
Definition validated {S} (check : result unit) (set : SE S unit) : SE S unit :=
  _ ← lift check; set.

Section WithMessages.
Context `{B1500} `{Messages}.

(** Lines 394-407. *)
Definition _set_voltage_dc (value : num) : SE B1520A.B1520A unit :=
  self ← gets id;
  write (mb_dcv (channels self) value).

Definition _set_voltage_ac (value : num) : SE B1520A.B1520A unit :=
  self ← gets id;
  write (mb_acv (channels self) value).

Definition _set_frequency (value : num) : SE B1520A.B1520A unit :=
  self ← gets id;
  write (mb_fc (channels self) value).

(** Lines 429-431. *)
Definition _set_phase_compensation_mode (mode : Z) : SE B1520A.B1520A unit :=
  self ← gets id;
  write (mb_adj (channels self) mode).

(** Lines 433-467; the timeout of the link is 60 seconds meanwhile. *)
Definition phase_compensation (mode : option Z)
    : SE B1520A.B1520A (Z * string) :=
  self ← gets id;
  response ← ask (mb_adj_query (channels self) mode);
  lift (n ← Py.int response; enum_member ADJQuery_Response n).

(** Lines 495-501: the [get_cmd] of the group [adc_group]. *)
Definition _get_adc_mode : string := mb_lrn_query LRN_Type_MFCMU_ADC_SETTING.

(** Lines 513-520. *)
Definition abort : SE B1520A.B1520A unit := write mb_ab.

(** Lines 526-529. *)
Definition _set_impedance_model (val : Z) : SE B1520A.B1520A unit :=
  write (mb_imp val).

(** Lines 531-533. *)
Definition _set_ac_dc_volt_monitor (val : bool) : SE B1520A.B1520A unit :=
  write (mb_lmn val).

(** ** The parameters that the setup sets, with their validators *)

(** Lines 264-277. *)
Definition adc_mode_set (value : Z) : SE B1520A.B1520A unit :=
  validated (Vals.Enum ACT_Mode value)
    (group_set_in adc_group_set_cmd adc_group_members "adc_mode" (Int value)).

Definition adc_coef_set (value : Z) : SE B1520A.B1520A unit :=
  validated (Vals.Ints 1 100 (Int value))
    (group_set_in adc_group_set_cmd adc_group_members "adc_coef" (Int value)).

(** Lines 40-120. *)
Definition sweep_delay_set (name : string) (value : num)
    : SE B1520A.B1520A unit :=
  group_set_in set_sweep_delays_set_cmd set_sweep_delays_members name value.

Definition hold_set (value : num) : SE B1520A.B1520A unit :=
  validated (Vals.Numbers (Int 0) (Flt f655_35) value)
    (sweep_delay_set "hold" value).

Definition delay_set (value : num) : SE B1520A.B1520A unit :=
  validated (Vals.Numbers (Int 0) (Flt f65_535) value)
    (sweep_delay_set "delay" value).

Definition step_delay_set (value : num) : SE B1520A.B1520A unit :=
  validated (Vals.Numbers (Int 0) (Int 1) value)
    (sweep_delay_set "step_delay" value).

Definition trigger_delay_set (value : num) : SE B1520A.B1520A unit :=
  sweep_delay_set "trigger_delay" value.

Definition measure_delay_set (value : num) : SE B1520A.B1520A unit :=
  validated (Vals.Numbers (Int 0) (Flt f65_535) value)
    (sweep_delay_set "measure_delay" value).

(** Lines 226-239. *)
Definition sweep_mode_set (value : Z) : SE B1520A.B1520A unit :=
  validated (Vals.Enum SweepMode value) (group_set "sweep_mode" (Int value)).

Definition sweep_start_set (value : num) : SE B1520A.B1520A unit :=
  group_set "sweep_start" value.

Definition sweep_end_set (value : num) : SE B1520A.B1520A unit :=
  group_set "sweep_end" value.

(** Lines 303-308. *)
Definition impedance_model_set (value : Z) : SE B1520A.B1520A unit :=
  validated (Vals.Enum IMP_MeasurementMode value) (_set_impedance_model value).

(** Lines 310-313; a bool is an int, [False] is 0 and [True] is 1, so the
    validator [vals.Ints(0, 1)] accepts both. *)
Definition ac_dc_volt_monitor_set (value : bool) : SE B1520A.B1520A unit :=
  validated (Vals.Ints 0 1 (Int (if value then 1 else 0)))
    (_set_ac_dc_volt_monitor value).

Context `{Mainframe}.

(** What [error_message] returns when there is no error:
    [+0,"No Error."] *)
Definition no_error : string :=
  "+0," +:+ String Py.dquote ("No Error." +:+ String Py.dquote "").

(** Lines 643-664 of [setup_staircase_cv]: the settings, in the order of
    the programming example. *)
Definition staircase_settings (v_start v_end : num) (n_steps : Z)
    (freq ac_rms : num) (post_sweep_voltage_cond : Z)
    (adc_mode adc_coef imp_model ranging_mode : Z) (fixed_range_val : option Z)
    (hold_delay delay step_delay trigger_delay measure_delay : num)
    (abort_enabled : auto_abort) (sweep_mode : Z) (volt_monitor : bool)
    : SE CVSweep unit :=
  self ← gets parent;
  _ ← on_parent (on_link (enable_channels [channels self]));
  _ ← on_parent (adc_mode_set adc_mode);
  _ ← on_parent (adc_coef_set adc_coef);
  _ ← on_parent (_set_frequency freq);
  _ ← on_parent (_set_voltage_ac ac_rms);
  _ ← _set_sweep_auto_abort abort_enabled;
  _ ← _set_post_sweep_voltage_cond post_sweep_voltage_cond;
  _ ← on_parent (hold_set hold_delay);
  _ ← on_parent (delay_set delay);
  _ ← on_parent (step_delay_set step_delay);
  _ ← on_parent (trigger_delay_set trigger_delay);
  _ ← on_parent (measure_delay_set measure_delay);
  _ ← on_parent (sweep_mode_set sweep_mode);
  _ ← on_parent (sweep_start_set v_start);
  _ ← on_parent (sweep_end_set v_end);
  _ ← on_parent (modify (set_sweep_steps n_steps));
  self ← gets parent;
  _ ← on_parent (sweep_steps_set (Int (_sweep_steps self)));
  _ ← on_parent (_set_measurement_mode MM_Mode_CV_DC_SWEEP);
  _ ← on_parent (impedance_model_set imp_model);
  _ ← on_parent (ac_dc_volt_monitor_set volt_monitor);
  _ ← on_parent (_set_ranging_mode ranging_mode);
  on_parent (_set_measurement_range_for_non_auto fixed_range_val).

(** Lines 555-670.  [self.self] of line 669 names no attribute of the
    module, so the call ends there. *)
Definition setup_staircase_cv (v_start v_end : num) (n_steps : Z)
    (freq ac_rms : num) (post_sweep_voltage_cond : Z)
    (adc_mode adc_coef imp_model ranging_mode : Z) (fixed_range_val : option Z)
    (hold_delay delay step_delay trigger_delay measure_delay : num)
    (abort_enabled : auto_abort) (sweep_mode : Z) (volt_monitor : bool)
    : SE CVSweep string :=
  _ ← staircase_settings v_start v_end n_steps freq ac_rms
        post_sweep_voltage_cond adc_mode adc_coef imp_model ranging_mode
        fixed_range_val hold_delay delay step_delay trigger_delay measure_delay
        abort_enabled sweep_mode volt_monitor;
  err ← on_parent (on_link error_message);
  _ ← (if String.eqb err no_error
       then on_parent (modify (set_setup_fnc_already_run true))
       else mret tt);
  _ ← (raise (AttributeError "self") : SE CVSweep unit);
  mret err.

End WithMessages.

End B1520A_methods.

(** ** The class [Correction] *)

Module Correction.
Import Num B1520A.

Section WithMessages.
Context `{Messages}.

(** Lines 744-758; [self._chnum] is the channel of the module. *)
Definition enable (corr : Z) : SE B1520A.B1520A unit :=
  self ← gets id;
  write (mb_corrst (channels self) corr true).

(** Lines 760-770. *)
Definition disable (corr : Z) : SE B1520A.B1520A unit :=
  self ← gets id;
  write (mb_corrst (channels self) corr false).

(** Lines 772-784. *)
Definition is_enabled (corr : Z) : SE B1520A.B1520A (Z * string) :=
  self ← gets id;
  response ← ask (mb_corrst_query (channels self) corr);
  lift (n ← Py.int response; enum_member CORRST_Response n).

(** Lines 844-873. *)
Definition perform (corr : Z) : SE B1520A.B1520A (Z * string) :=
  self ← gets id;
  response ← ask (mb_corr_query (channels self) corr);
  lift (n ← Py.int response; enum_member CORR_Response n).

(** Lines 875-889. *)
Definition perform_and_enable (corr : Z) : SE B1520A.B1520A string :=
  correction_status ← perform corr;
  _ ← enable corr;
  is_enabled ← is_enabled corr;
  mret ("Correction status " +:+ snd correction_status +:+ " and Enable "
        +:+ snd is_enabled).

End WithMessages.

End Correction.

(** ** Instances to run the rest of the driver with *)

(** Modelled from the spec: a command whose arguments are texts already. *)
Definition command_of (mnemonic : string) (arguments : list string) : string :=
  match arguments with
  | [] => mnemonic
  | _ => mnemonic +:+ " " +:+ Json.join "," arguments
  end.

Definition abort_text (a : auto_abort) : string :=
  match a with
  | AbortBool b => if b then "2" else "1"
  | AbortEnum n => Py.str_int n
  end.

(** The theorems hold for every [Messages]; this one runs the examples,
    with a few members for each enumeration. *)
Definition example_messages : Messages := {|
  ACT_Mode := [0; 1; 2];
  IMP_MeasurementMode := [100; 101; 102];
  SweepMode := [1; 2; 3; 4];
  MM_Mode_CV_DC_SWEEP := 18;
  LRN_Type_MFCMU_ADC_SETTING := 60;
  ADJQuery_Response := [(0, "PASSED"); (1, "FAILED"); (2, "ABORTED")];
  CORR_Response := [(0, "SUCCESSFUL"); (1, "FAILED"); (2, "ABORTED")];
  CORRST_Response := [(0, "OFF"); (1, "ON")];
  mb_dcv chnum value := command_of "DCV" [Py.str_int chnum; Num.str value];
  mb_acv chnum value := command_of "ACV" [Py.str_int chnum; Num.str value];
  mb_fc chnum value := command_of "FC" [Py.str_int chnum; Num.str value];
  mb_adj chnum mode := command "ADJ" [chnum; mode];
  mb_adj_query chnum mode := command "ADJ?" (chnum :: option_list mode);
  mb_ab := command "AB" [];
  mb_imp mode := command "IMP" [mode];
  mb_lmn enable := command "LMN" [if enable then 1 else 0];
  mb_wmdcv abort post :=
    command_of "WMDCV" (abort_text abort :: option_list (Py.str_int <$> post));
  mb_corrst chnum corr state :=
    command "CORRST" [chnum; corr; if state then 1 else 0];
  mb_corrst_query chnum corr := command "CORRST?" [chnum; corr];
  mb_corr_query chnum corr := command "CORR?" [chnum; corr];
|}.

(** The theorems hold for every [Mainframe]; this one enables the channels
    with one command and asks the instrument for its error message. *)
Definition example_mainframe : Mainframe := {|
  enable_channels chans link := (Ok tt, link.1 ++ [command "CN" chans]);
  error_message link :=
    (match link.2 link.1 "ERRX?" with
     | Some reply => Ok reply
     | None => Raise VisaTimeout
     end, link.1 ++ ["ERRX?"]);
|}.

(** The values of the members of the three groups after [__init__], lines
    40-98 and 226-272, with mode 2 for the ADC. *)
Definition initial_parameters : gmap string Num.num :=
  list_to_map
    [("hold", Num.Int 0); ("delay", Num.Int 0); ("step_delay", Num.Int 0);
     ("trigger_delay", Num.Int 0); ("measure_delay", Num.Int 0);
     ("sweep_mode", Num.Int 1); ("sweep_start", Num.Int 0);
     ("sweep_end", Num.Int 0); ("sweep_steps", Num.Int 1); ("chan", Num.Int 3);
     ("adc_coef", Num.Int 1); ("adc_mode", Num.Int 2)].

(** The sweep submodule of a module in slot 3, both fresh from [__init__]
    (lines 28-30 and 179-183), on an instrument that answers every query
    with [reply]. *)
Definition fresh_sweep (reply : string) : CVSweep.CVSweep :=
  CVSweep.Channel_ (AbortBool true) 1
    (B1520A.Module_ 3 false (@RangingMode_AUTO example_b1500) None 1
       initial_parameters [] (fun _ _ => Some reply)).

(** ** The commands of the groups *)





(** ** Readings of a reply *)

(** The loop of the matcher for [\d{lo,hi}], by itself. *)
Definition greedy_digits {A} (lo h : nat) (k : string -> Re.groups -> option A) :=
  fix loop (fuel : nat) (count : nat) (s : string) (g : Re.groups)
         {struct fuel} : option A :=
         match fuel with
         | O => None
         | S fuel' =>
             let again (_ : unit) :=
               if (count <? h)%nat
               then Re.run Re.DigitChar s g (fun s' g' =>
                      if (String.length s' <? String.length s)%nat
                      then loop fuel' (S count) s' g' else None)
               else None in
             let leave (_ : unit) :=
               if (lo <=? count)%nat then k s g else None in
             match again tt with Some a => Some a | None => leave tt end
         end.

Module Reading.
Import Text.

(** The text of a value as the instrument sends it: a sign, one to three
    digits, a point, three to six digits, [E], a sign and two digits. *)
Definition value_text (sign : ascii) (ip fp : string) (esign e1 e2 : ascii)
    : string :=
  String sign
    (ip +:+ String "." (fp +:+ String "E" (String esign (String e1 (String e2 ""))))).

Definition is_sign (c : ascii) : bool := existsb (Ascii.eqb c) B1520A.sign_chars.

Definition value_ok (sign : ascii) (ip fp : string) (esign e1 e2 : ascii) : bool :=
  is_sign sign
  && all_chars Py.is_digit ip
  && (1 <=? String.length ip)%nat && (String.length ip <=? 3)%nat
  && all_chars Py.is_digit fp
  && (3 <=? String.length fp)%nat && (String.length fp <=? 6)%nat
  && is_sign esign && Py.is_digit e1 && Py.is_digit e2.

(** A reading in a reply: the three tag characters (status, channel, type
    of the data) and the parts of the value. *)
Record reading : Type := Reading_ {
  status : ascii;
  chnr : ascii;
  dtype : ascii;
  sign : ascii;
  int_part : string;
  frac_part : string;
  exp_sign : ascii;
  exp_1 : ascii;
  exp_2 : ascii;
}.

Definition value (r : reading) : string :=
  value_text (sign r) (int_part r) (frac_part r) (exp_sign r) (exp_1 r) (exp_2 r).

Definition text (r : reading) : string :=
  String (status r) (String (chnr r) (String (dtype r) (value r))).

Definition reading_ok (r : reading) : bool :=
  Py.is_word (status r) && Py.is_word (chnr r) && Py.is_word (dtype r)
  && value_ok (sign r) (int_part r) (frac_part r) (exp_sign r) (exp_1 r) (exp_2 r).

(** The groups of the match of a reading, latest first. *)
Definition groups_of (r : reading) : Re.groups :=
  [("value", value r); ("dtype", String (dtype r) ""); ("chnr", String (chnr r) "");
   ("status", String (status r) "")].

(** The number that the value of a reading spells: the float next to
    [+-int.frac * 10^(+-exp)]. *)
Definition number (r : reading) : Float.float :=
  let n := Z.of_nat (String.length (frac_part r)) in
  let e := 10 * Py.digit_value (exp_1 r) + Py.digit_value (exp_2 r) in
  Float.of_decimal (Ascii.eqb (sign r) "-")
    (spelled (int_part r) 0 * 10 ^ n + spelled (frac_part r) 0)
    ((if Ascii.eqb (exp_sign r) "-" then - e else e) - n).

End Reading.


(* ================================================================== *)
(** * Facts *)

(** [lia], also through divisions and remainders by constants. *)
Ltac lia_div := first [lia | zify; Z.div_mod_to_equations; lia].

(** ** The upgrade *)

Module UpgradeFacts.
Import Sqlite Upgrade.

Section WithImports.
Context `{Imports}.

(** The row of run [length before + 1]. *)
Lemma description_middle (before after : list (option string)) d :
  description (Conn (before ++ d :: after)) (Z.of_nat (length before) + 1) = d.
Proof.
  unfold description. destruct (Z.leb_spec 1 (Z.of_nat (length before) + 1)); [|lia].
  replace (Z.to_nat (Z.of_nat (length before) + 1 - 1)) with (length before) by lia.
  simpl. by rewrite list_lookup_middle.
Qed.

(** One turn of the loop: the row is rewritten, or the turn raises and the
    table stays. *)
Lemma upgrade_run_middle (before after : list (option string)) d :
  upgrade_run (Z.of_nat (length before) + 1) (Conn (before ++ d :: after)) =
  match new_json_of d with
  | Ok new_json => (Ok tt, Conn (before ++ Some new_json :: after))
  | Raise e => (Raise e, Conn (before ++ d :: after))
  end.
Proof.
  unfold upgrade_run, get_run_description, update_run_description, gets, modify, lift.
  unfold mbind, SE_bind. rewrite description_middle.
  destruct (new_json_of d) as [new_json|e]; [|reflexivity].
  destruct (Z.leb_spec 1 (Z.of_nat (length before) + 1)); [|lia].
  replace (Z.to_nat (Z.of_nat (length before) + 1 - 1)) with (length before) by lia.
  simpl. rewrite insert_app_r_alt by lia. by rewrite Nat.sub_diag.
Qed.

(** The loop from run [length before + 1] on follows [rows_after]. *)
Lemma upgrade_loop (before rows : list (option string)) :
  for_ (seqZ (Z.of_nat (length before) + 1) (Z.of_nat (length rows))) upgrade_run
    (Conn (before ++ rows)) =
  ((rows_after rows).1, Conn (before ++ (rows_after rows).2)).
Proof.
  revert before. induction rows as [|d rows IH]; intros before.
  - reflexivity.
  - rewrite seqZ_cons by (simpl; lia). simpl for_.
    unfold mbind at 1. unfold SE_bind. rewrite upgrade_run_middle. simpl rows_after.
    destruct (new_json_of d) as [new_json|e]; [|reflexivity].
    specialize (IH (before ++ [Some new_json])).
    rewrite length_app in IH. simpl length in IH.
    replace (Z.succ (Z.of_nat (length before) + 1))
      with (Z.of_nat (length before + 1) + 1) by lia.
    replace (Z.pred (Z.of_nat (S (length rows)))) with (Z.of_nat (length rows)) by lia.
    rewrite <- !(assoc_L (++)) in IH. simpl in IH. rewrite IH.
    destruct (rows_after rows) as [r rows']. reflexivity.
Qed.

Lemma upgrade_runs_all (conn : ConnectionPlus) :
  upgrade_runs (Z.of_nat (length (runs conn))) conn =
  ((rows_after (runs conn)).1, Conn (rows_after (runs conn)).2).
Proof.
  destruct conn as [rows]. unfold upgrade_runs, range. simpl runs.
  replace (Z.of_nat (length rows) + 1 - 1) with (Z.of_nat (length rows)) by lia.
  apply (upgrade_loop [] rows).
Qed.

(** The upgrade in one equation: the rows of [rows_after] when the loop
    returns, the connection as it was when it raises. *)
Lemma upgrade_5_to_6_rows (conn : ConnectionPlus) :
  upgrade_5_to_6 conn =
  match rows_after (runs conn) with
  | (Ok _, rows') => (Ok tt, Conn rows')
  | (Raise e, _) => (Raise e, conn)
  end.
Proof.
  unfold upgrade_5_to_6, select_max_run_id, gets. unfold mbind at 1. unfold SE_bind.
  unfold atomic.
  assert (default 0 match runs conn with
                    | [] => None
                    | _ :: _ => Some (Z.of_nat (length (runs conn)))
                    end = Z.of_nat (length (runs conn))) as ->
    by (destruct (runs conn); reflexivity).
  rewrite upgrade_runs_all. destruct (rows_after (runs conn)) as [[[]|e] rows']; reflexivity.
Qed.

Lemma description_lookup (conn : ConnectionPlus) (i : nat) d :
  runs conn !! i = Some d -> description conn (Z.of_nat i + 1) = d.
Proof.
  intros Hi. unfold description.
  destruct (Z.leb_spec 1 (Z.of_nat i + 1)); [|lia].
  replace (Z.to_nat (Z.of_nat i + 1 - 1)) with i by lia. by rewrite Hi.
Qed.

Lemma description_run (conn : ConnectionPlus) (run_id : Z) :
  1 <= run_id <= Z.of_nat (length (runs conn)) ->
  exists i d, run_id = Z.of_nat i + 1 /\ runs conn !! i = Some d
              /\ description conn run_id = d.
Proof.
  intros Hr. destruct (lookup_lt_is_Some_2 (runs conn) (Z.to_nat (run_id - 1)))
    as [d Hd]; [lia|].
  exists (Z.to_nat (run_id - 1)), d. split; [lia|]. split; [done|].
  rewrite <- (description_lookup conn _ d Hd). f_equal. lia.
Qed.

Lemma rows_after_ok (rows : list (option string)) :
  (forall i d, rows !! i = Some d -> is_Ok (new_json_of d) = true) ->
  (rows_after rows).1 = Ok tt
  /\ length (rows_after rows).2 = length rows
  /\ forall i d, rows !! i = Some d ->
       exists new_json, new_json_of d = Ok new_json
                        /\ (rows_after rows).2 !! i = Some (Some new_json).
Proof.
  induction rows as [|d rows IH]; intros Hok.
  - repeat split. intros i d Hi. by destruct i.
  - simpl. pose proof (Hok 0%nat d eq_refl) as Hd.
    destruct (new_json_of d) as [new_json|e] eqn:Ed; [|discriminate].
    destruct IH as (IH1 & IH2 & IH3); [intros i d'; apply (Hok (S i))|].
    destruct (rows_after rows) as [r rows']. simpl in *.
    repeat split; [done|by f_equal|].
    intros [|i] d' Hi; simpl in *.
    + injection Hi as <-. eauto.
    + by apply IH3.
Qed.

Lemma rows_after_fails (rows : list (option string)) (i : nat) d e :
  rows !! i = Some d -> new_json_of d = Raise e ->
  (forall j d', (j < i)%nat -> rows !! j = Some d' -> is_Ok (new_json_of d') = true) ->
  (rows_after rows).1 = Raise e
  /\ forall j d', (j < i)%nat -> rows !! j = Some d' ->
       exists new_json, new_json_of d' = Ok new_json
                        /\ (rows_after rows).2 !! j = Some (Some new_json).
Proof.
  revert i. induction rows as [|d0 rows IH]; intros i Hi He Hbefore; [by destruct i|].
  destruct i as [|i]; simpl in *.
  - injection Hi as ->. rewrite He. split; [done|]. intros; lia.
  - pose proof (Hbefore 0%nat d0 ltac:(lia) eq_refl) as H0.
    destruct (new_json_of d0) as [new_json|] eqn:E0; [|discriminate].
    destruct (IH i Hi He) as [IH1 IH2].
    { intros j d' Hj. apply (Hbefore (S j)). lia. }
    destruct (rows_after rows) as [r rows']. simpl in *. split; [done|].
    intros [|j] d' Hj Hd'; simpl in *.
    + injection Hd' as <-. eauto.
    + apply IH2; [lia|done].
Qed.

Lemma upgradable_rows (conn : ConnectionPlus) :
  upgradable conn ->
  forall i d, runs conn !! i = Some d -> is_Ok (new_json_of d) = true.
Proof.
  intros Hup i d Hi. rewrite <- (description_lookup conn i d Hi).
  apply Hup. apply lookup_lt_Some in Hi. lia.
Qed.

Lemma new_json_of_Some (json_str : string) ser idps :
  json_loads json_str = Ok ser -> Json.getitem ser "interdependencies" = Ok idps ->
  new_json_of (Some json_str) = Ok (json_dumps (versioned idps)).
Proof. intros Hl Hg. unfold new_json_of. rewrite Hl. simpl. rewrite Hg. reflexivity. Qed.

Lemma rows_after_reads_back (rows : list (option string)) :
  Forall reads_back rows -> rows_after rows = (Ok tt, rows).
Proof.
  induction 1 as [|d rows (idps & -> & Hback) _ IH]; [done|].
  cbn [rows_after]. rewrite (new_json_of_Some _ _ idps Hback eq_refl), IH. done.
Qed.

(** ** The claims on the upgrade *)

(** C1. If the upgrade fails while it processes run [K] (the runs before it
    can be rewritten, run [K] raises [e]: its description is no JSON
    document, or one without ['interdependencies']), the call raises [e] and
    leaves the store as it found it: whatever the loop wrote for the runs
    before [K] is rolled back, and every description reads as before. *)
Theorem upgrade_failure_rolls_back (conn : ConnectionPlus) (K : Z) (e : exn) :
  1 <= K <= Z.of_nat (length (runs conn)) ->
  (forall run_id, 1 <= run_id < K ->
     is_Ok (new_json_of (description conn run_id)) = true) ->
  new_json_of (description conn K) = Raise e ->
  exists conn',
    upgrade_5_to_6 conn = (Raise e, conn')
    /\ conn' = conn
    /\ forall run_id, run_id < K -> description conn' run_id = description conn run_id.
Proof.
  intros HK Hbefore HKe. exists conn. split; [|done].
  destruct (description_run conn K HK) as (i & d & -> & Hi & Hd). rewrite Hd in HKe.
  destruct (rows_after_fails (runs conn) i d e Hi HKe) as [Hfail _].
  { intros j d' Hj Hd'. rewrite <- (description_lookup conn j d' Hd').
    apply Hbefore. lia. }
  rewrite upgrade_5_to_6_rows. destruct (rows_after (runs conn)) as [r rows'].
  simpl in Hfail. by subst r.
Qed.

(** X3. Inside the transaction a failure at run [K] comes after the runs
    before [K] were rewritten: the loop of lines 34-44 leaves each of them
    with its new description, and the rollback of C1 is the work of
    [atomic]. *)
Theorem upgrade_runs_partial (conn : ConnectionPlus) (K : Z) (e : exn) :
  1 <= K <= Z.of_nat (length (runs conn)) ->
  (forall run_id, 1 <= run_id < K ->
     is_Ok (new_json_of (description conn run_id)) = true) ->
  new_json_of (description conn K) = Raise e ->
  exists conn',
    upgrade_runs (Z.of_nat (length (runs conn))) conn = (Raise e, conn')
    /\ forall run_id, 1 <= run_id < K ->
         exists new_json, new_json_of (description conn run_id) = Ok new_json
                          /\ description conn' run_id = Some new_json.
Proof.
  intros HK Hbefore HKe.
  destruct (description_run conn K HK) as (i & d & -> & Hi & Hd). rewrite Hd in HKe.
  destruct (rows_after_fails (runs conn) i d e Hi HKe) as [Hfail Hpart].
  { intros j d' Hj Hd'. rewrite <- (description_lookup conn j d' Hd').
    apply Hbefore. lia. }
  rewrite upgrade_runs_all. eexists. split; [by rewrite Hfail|].
  intros run_id Hr.
  destruct (description_run conn run_id ltac:(lia)) as (j & d' & -> & Hj & Hd').
  destruct (Hpart j d' ltac:(lia) Hj) as (new_json & Hn & Hl).
  exists new_json. rewrite Hd'. split; [done|].
  by rewrite (description_lookup (Conn _) j _ Hl).
Qed.

(** C8. A run without a description (None) gets the canonical empty
    document: the loop body writes [json.dumps] of the dict with the keys
    ['version'] (0) and ['interdependencies'] (the serialized empty
    dependencies), in that order, and when every run can be rewritten the
    upgrade returns with that description stored for the run. *)
Theorem absent_description_gets_empty_document (conn : ConnectionPlus) (run_id : Z) :
  1 <= run_id <= Z.of_nat (length (runs conn)) ->
  description conn run_id = None ->
  (exists conn1,
     upgrade_run run_id conn = (Ok tt, conn1)
     /\ description conn1 run_id = Some (json_dumps (versioned empty_idps_ser)))
  /\ (upgradable conn ->
      exists conn',
        upgrade_5_to_6 conn = (Ok tt, conn')
        /\ description conn' run_id = Some (json_dumps (versioned empty_idps_ser)))
  /\ Json.keys (versioned empty_idps_ser) = ["version"; "interdependencies"].
Proof.
  intros Hr Hnone.
  destruct (description_run conn run_id Hr) as (i & d & -> & Hi & Hd).
  rewrite Hnone in Hd. subst d. repeat split.
  - destruct conn as [rows]. simpl in Hi.
    destruct (list_elem_of_split_length rows i None Hi) as (before & after & -> & ->).
    rewrite upgrade_run_middle. simpl new_json_of. eexists. split; [done|].
    apply description_middle.
  - intros Hup.
    destruct (rows_after_ok (runs conn) (upgradable_rows conn Hup)) as (Hok & _ & Hrows).
    destruct (Hrows i None Hi) as (new_json & Hn & Hl).
    simpl in Hn. injection Hn as <-.
    rewrite upgrade_5_to_6_rows. destruct (rows_after (runs conn)) as [r rows'].
    simpl in *. subst r. eexists. split; [done|].
    by rewrite (description_lookup (Conn rows') i _ Hl).
Qed.

(** C3, as the code has it. When every run can be rewritten the upgrade
    returns, and a run whose description parses to a dict with an
    ['interdependencies'] entry [idps] then holds [json.dumps] of the dict
    with the keys ['version'] and ['interdependencies'], in that order: the
    version is 0 whatever the parsed document said, the dependencies are
    [idps] itself. On a store in which every row reads back as the versioned
    document it was dumped from (so on an upgraded store, for a codec whose
    loads inverts its dumps) a further upgrade changes nothing at all. *)
Theorem upgrade_rewrites_with_version_0 (conn : ConnectionPlus) :
  upgradable conn ->
  exists conn',
    upgrade_5_to_6 conn = (Ok tt, conn')
    /\ (forall run_id json_str ser idps,
          1 <= run_id <= Z.of_nat (length (runs conn)) ->
          description conn run_id = Some json_str ->
          json_loads json_str = Ok ser ->
          Json.getitem ser "interdependencies" = Ok idps ->
          description conn' run_id = Some (json_dumps (versioned idps))
          /\ Json.keys (versioned idps) = ["version"; "interdependencies"]
          /\ Json.getitem (versioned idps) "version" = Ok (Json.Int 0)
          /\ Json.getitem (versioned idps) "interdependencies" = Ok idps)
    /\ (Forall reads_back (runs conn') -> upgrade_5_to_6 conn' = (Ok tt, conn')).
Proof.
  intros Hup.
  destruct (rows_after_ok (runs conn) (upgradable_rows conn Hup)) as (Hok & _ & Hrows).
  rewrite upgrade_5_to_6_rows. destruct (rows_after (runs conn)) as [r rows'].
  simpl in *. subst r. eexists. split; [done|]. split.
  - intros run_id json_str ser idps Hr Hd Hl Hg.
    destruct (description_run conn run_id Hr) as (i & d & -> & Hi & Hd').
    rewrite Hd in Hd'. subst d.
    destruct (Hrows i _ Hi) as (new_json & Hn & Hl').
    rewrite (new_json_of_Some _ _ _ Hl Hg) in Hn. injection Hn as <-.
    by rewrite (description_lookup (Conn rows') i _ Hl').
  - intros Hback. rewrite upgrade_5_to_6_rows. simpl runs.
    by rewrite (rows_after_reads_back rows' Hback).
Qed.

End WithImports.

Import Examples.

Lemma upgrade_failure_rolls_back_witness :
  exists conn',
    @upgrade_5_to_6 python_imports failing_store = (Raise JSONDecodeError, conn')
    /\ conn' = failing_store
    /\ forall run_id, run_id < 3 ->
         description conn' run_id = description failing_store run_id.
Proof.
  apply (@upgrade_failure_rolls_back python_imports failing_store 3 JSONDecodeError).
  - simpl. lia.
  - intros run_id Hr. assert (run_id = 1 \/ run_id = 2) as [-> | ->] by lia;
      vm_compute; reflexivity.
  - vm_compute. reflexivity.
Defined.

Lemma upgrade_runs_partial_witness :
  exists conn',
    @upgrade_runs python_imports 3 failing_store = (Raise JSONDecodeError, conn')
    /\ forall run_id, 1 <= run_id < 3 ->
         exists new_json,
           @new_json_of python_imports (description failing_store run_id) = Ok new_json
           /\ description conn' run_id = Some new_json.
Proof.
  apply (@upgrade_runs_partial python_imports failing_store 3 JSONDecodeError).
  - simpl. lia.
  - intros run_id Hr. assert (run_id = 1 \/ run_id = 2) as [-> | ->] by lia;
      vm_compute; reflexivity.
  - vm_compute. reflexivity.
Defined.

Lemma store_upgradable : @upgradable python_imports store.
Proof.
  intros run_id Hr. simpl in Hr.
  assert (run_id = 1 \/ run_id = 2) as [-> | ->] by lia; vm_compute; reflexivity.
Qed.

Lemma absent_description_gets_empty_document_witness :
  (exists conn1,
     @upgrade_run python_imports 2 store = (Ok tt, conn1)
     /\ description conn1 2 = Some doc_v6)
  /\ (exists conn',
        @upgrade_5_to_6 python_imports store = (Ok tt, conn')
        /\ description conn' 2 = Some doc_v6)
  /\ Json.keys (@versioned (@empty_idps_ser python_imports))
     = ["version"; "interdependencies"].
Proof.
  destruct (@absent_description_gets_empty_document python_imports store 2)
    as (Hrun & Hall & Hkeys).
  - simpl. lia.
  - reflexivity.
  - split; [exact Hrun|]. split; [exact (Hall store_upgradable)|exact Hkeys].
Defined.

Lemma upgrade_rewrites_with_version_0_witness :
  exists conn',
    @upgrade_5_to_6 python_imports store = (Ok tt, conn')
    /\ (forall run_id json_str ser idps,
          1 <= run_id <= Z.of_nat (length (runs store)) ->
          description store run_id = Some json_str ->
          Json.loads json_str = Ok ser ->
          Json.getitem ser "interdependencies" = Ok idps ->
          description conn' run_id = Some (Json.dumps (versioned idps))
          /\ Json.keys (versioned idps) = ["version"; "interdependencies"]
          /\ Json.getitem (versioned idps) "version" = Ok (Json.Int 0)
          /\ Json.getitem (versioned idps) "interdependencies" = Ok idps)
    /\ (Forall (@reads_back python_imports) (runs conn') ->
        @upgrade_5_to_6 python_imports conn' = (Ok tt, conn')).
Proof.
  apply (@upgrade_rewrites_with_version_0 python_imports store).
  intros run_id Hr. simpl in Hr.
  assert (run_id = 1 \/ run_id = 2) as [-> | ->] by lia; vm_compute; reflexivity.
Defined.

(** The store of the examples before and after: both runs end with the same
    document, and the upgraded store satisfies the premise of the last part
    of C3. *)
Example upgrade_store :
  @upgrade_5_to_6 python_imports store = (Ok tt, Conn [Some doc_v6; Some doc_v6])
  /\ Forall (@reads_back python_imports) [Some doc_v6; Some doc_v6]
  /\ @upgrade_5_to_6 python_imports (Conn [Some doc_v6; Some doc_v6])
     = (Ok tt, Conn [Some doc_v6; Some doc_v6]).
Proof.
  split; [vm_compute; reflexivity|]. split; [|vm_compute; reflexivity].
  repeat constructor;
    exists (Json.Object [("paramspecs", Json.Array [])]); split; vm_compute; reflexivity.
Qed.

(** C3, as the claim has it, fails: the description of the one run of
    [store_v3] parses to a dict with version 3, the upgrade returns, and the
    description it leaves parses to a dict with version 0. *)
Lemma version_of_description_is_not_kept :
  (ser ← Json.loads doc_v3; Json.getitem ser "version") = Ok (Json.Int 3)
  /\ @upgrade_5_to_6 python_imports store_v3 = (Ok tt, Conn [Some doc_v6])
  /\ (ser ← Json.loads doc_v6; Json.getitem ser "version") = Ok (Json.Int 0)
  /\ (ser ← Json.loads doc_v3; Json.getitem ser "interdependencies")
     = (ser ← Json.loads doc_v6; Json.getitem ser "interdependencies").
Proof. repeat split; vm_compute; reflexivity. Qed.

End UpgradeFacts.

(** ** The driver *)

Module DriverFacts.
Import Num B1520A.

(** ** The parsers *)

(** A comprehension whose every element converts returns as many values. *)
Lemma mapM_result {A B} (f : A -> result B) (l : list A) :
  Forall (fun x => is_Ok (f x) = true) l ->
  exists l', mapM f l = Ok l' /\ length l' = length l.
Proof.
  induction 1 as [|x l Hx _ (l' & IH & Hlen)]; [by exists []|].
  destruct (f x) as [y|] eqn:E; [|discriminate].
  exists (y :: l'). simpl. rewrite E. simpl. rewrite IH. simpl. by rewrite Hlen.
Qed.

(** How many values each sequence gets, from place [i] on. *)
Lemma deal_length (no_str : list Float.float) (i : nat) param1 param2 :
  length (deal i no_str param1 param2).1
    = (length param1 + (length no_str + (if (i mod 2 =? 0)%nat then 1 else 0)) / 2)%nat
  /\ length (deal i no_str param1 param2).2
    = (length param2 + (length no_str + (if (i mod 2 =? 0)%nat then 0 else 1)) / 2)%nat.
Proof.
  revert i param1 param2. induction no_str as [|val rest IH]; intros i param1 param2.
  - cbn [deal fst snd length]. destruct (i mod 2 =? 0)%nat; lia_div.
  - cbn [deal]. destruct (Nat.eqb_spec (i mod 2) 0) as [Hi|Hi].
    + destruct (IH (S i) (param1 ++ [val]) param2) as [IH1 IH2].
      rewrite IH1, IH2, length_app. cbn [length].
      destruct (Nat.eqb_spec (S i mod 2) 0); lia_div.
    + destruct (IH (S i) param1 (param2 ++ [val])) as [IH1 IH2].
      rewrite IH1, IH2, length_app. cbn [length].
      destruct (Nat.eqb_spec (S i mod 2) 0); lia_div.
Qed.

(** C6, as the code has it. A response whose every token reads as a float
    after its three tag characters parses to two sequences, the values at
    even places and those at odd places: of [k] tokens the first takes
    [(k + 1) / 2] and the second [k / 2], so the two have the same length
    exactly when [k] is even. *)
Theorem parse_sweep_data_lengths (raw_data : string) :
  Forall (fun val => is_Ok (Float.of_str (Py.drop_str 3 val)) = true)
         (Py.split "," raw_data) ->
  exists param1 param2,
    parse_sweep_data raw_data = Ok (param1, param2)
    /\ length param1 = ((length (Py.split "," raw_data) + 1) / 2)%nat
    /\ length param2 = (length (Py.split "," raw_data) / 2)%nat
    /\ (length param1 = length param2
        <-> (length (Py.split "," raw_data) mod 2 = 0)%nat).
Proof.
  intros Hall. destruct (mapM_result _ _ Hall) as (no_str & Hm & Hlen).
  unfold parse_sweep_data. rewrite Hm. cbn [mbind result_bind].
  destruct (deal_length no_str 0 [] []) as [H1 H2].
  destruct (deal 0 no_str [] []) as [param1 param2]. cbn [fst snd length] in *.
  change (0 mod 2 =? 0)%nat with true in *.
  exists param1, param2. rewrite <- Hlen. repeat split; lia_div.
Qed.

Lemma parse_sweep_data_lengths_witness :
  exists param1 param2,
    parse_sweep_data "NCC+1.0E+00,NCY+2.0E+00,NCC+3.0E+00,NCY+4.0E+00"
      = Ok (param1, param2)
    /\ length param1 = 2%nat /\ length param2 = 2%nat
    /\ (length param1 = length param2 <-> (4 mod 2 = 0)%nat).
Proof.
  apply (parse_sweep_data_lengths "NCC+1.0E+00,NCY+2.0E+00,NCC+3.0E+00,NCY+4.0E+00").
  replace (Py.split "," "NCC+1.0E+00,NCY+2.0E+00,NCC+3.0E+00,NCY+4.0E+00")
    with ["NCC+1.0E+00"; "NCY+2.0E+00"; "NCC+3.0E+00"; "NCY+4.0E+00"]
    by (vm_compute; reflexivity).
  repeat (constructor; [vm_compute; reflexivity|]). constructor.
Defined.

(** C6, as the claim has it, fails on three tokens: two values go to the
    first sequence and one to the second. *)
Lemma parse_sweep_data_odd :
  exists param1 param2,
    parse_sweep_data "NCC+1.0E+00,NCY+2.0E+00,NCC+3.0E+00" = Ok (param1, param2)
    /\ length param1 = 2%nat /\ length param2 = 1%nat.
Proof. eexists _, _. vm_compute. repeat split. Qed.

(** ** The link *)

Section WithB1500.
Context `{B1500}.

Lemma write_eval (cmd : string) (self : B1520A.B1520A) :
  write cmd self = (Ok tt, set_written (written self ++ [cmd]) self).
Proof. reflexivity. Qed.

Lemma ask_eval (cmd reply : string) (self : B1520A.B1520A) :
  instrument self (written self) cmd = Some reply ->
  ask cmd self = (Ok reply, set_written (written self ++ [cmd]) self).
Proof. intros Hr. unfold ask. by rewrite Hr. Qed.

Lemma _get_capacitance_eval (self : B1520A.B1520A) (response : string) :
  instrument self (written self ++ [mb_mm MM_Mode_SPOT_C [channels self]])
    (mb_tc (channels self) RangingMode_AUTO) = Some response ->
  _get_capacitance self = (parse_capacitance response, after_capacitance self).
Proof.
  intros Hr. unfold _get_capacitance, _set_measurement_mode, gets, lift.
  unfold mbind, SE_bind. rewrite write_eval. unfold ask. simpl. rewrite Hr.
  unfold after_capacitance, set_written. simpl. rewrite <- (assoc_L (++)). simpl.
  by destruct (parse_capacitance response).
Qed.

(** C2, as the code has it. The instrument answering the spot measurement
    with two tokens of three tag characters each, the third being [C] in the
    first token and [Y] in the second, the capacitance is the pair of floats
    [(1.23456e-3, 5.6789e-2)]; with the two tokens swapped the read raises
    the result-format error. The response of the claim, whose tokens carry
    four tag characters, raises that error in either order: the pattern
    takes the three characters next to the sign, and the third is [R]. *)
Theorem get_capacitance_reads_three_character_tags
    (self : B1520A.B1520A) (response : string) :
  instrument self (written self ++ [mb_mm MM_Mode_SPOT_C [channels self]])
    (mb_tc (channels self) RangingMode_AUTO) = Some response ->
  (response = "NCC+1.234560E-03,NCY+5.678900E-02" ->
   _get_capacitance self
   = (Ok (Float.of_decimal false 123456 (-8), Float.of_decimal false 56789 (-6)),
      after_capacitance self))
  /\ (response = "NCY+5.678900E-02,NCC+1.234560E-03"
      \/ response = "CAFR+1.234560E-03,YAFR+5.678900E-02"
      \/ response = "YAFR+5.678900E-02,CAFR+1.234560E-03" ->
      _get_capacitance self
      = (Raise (ValueError "Result format not supported."), after_capacitance self)).
Proof.
  intros Hr. rewrite (_get_capacitance_eval self response Hr). split.
  - intros ->. f_equal.
  - intros [-> | [-> | ->]]; f_equal.
Qed.

(** ** Ranging *)

(** The first half of C10: setting the ranging mode to AUTO forgets the
    fixed range, and the RC command goes out without one. *)
Lemma _set_ranging_mode_AUTO (self : B1520A.B1520A) :
  exists self',
    _set_ranging_mode RangingMode_AUTO self = (Ok tt, self')
    /\ _ranging_mode self' = RangingMode_AUTO
    /\ _measurement_range_for_non_auto self' = None
    /\ written self' = written self ++ [mb_rc (channels self) RangingMode_AUTO None].
Proof.
  unfold _set_ranging_mode, modify, gets. unfold mbind, SE_bind. simpl.
  rewrite Z.eqb_refl. simpl. eexists. split; [reflexivity|]. by simpl.
Qed.

(** C10: what the code does where the claim fails. On a module whose
    ranging mode is AUTO (as it is after [__init__]) setting
    [measurement_range_for_non_auto] to a range caches the range and sends
    an RC command with the mode AUTO and that range. *)
Theorem measurement_range_is_sent_in_AUTO (self : B1520A.B1520A) (range : Z) :
  initialized self ->
  exists self',
    _set_measurement_range_for_non_auto (Some range) self = (Ok tt, self')
    /\ _ranging_mode self' = RangingMode_AUTO
    /\ _measurement_range_for_non_auto self' = Some range
    /\ written self'
       = written self ++ [mb_rc (channels self) RangingMode_AUTO (Some range)].
Proof.
  intros (_ & Hmode & _ & _).
  unfold _set_measurement_range_for_non_auto, modify, gets. unfold mbind, SE_bind.
  simpl. eexists. split; [reflexivity|]. simpl. by rewrite Hmode.
Qed.

End WithB1500.

(** ** numpy *)

(** [np.linspace] returns [num] samples. *)
Lemma linspace_Ok (start stop : Float.float) (num : Z) (endpoint : bool) :
  0 <= num ->
  exists y, Np.linspace start stop num endpoint = Ok y /\ length y = Z.to_nat num.
Proof.
  intros Hnum. unfold Np.linspace. destruct (Z.ltb_spec num 0); [lia|].
  eexists. split; [reflexivity|].
  assert (forall f : Float.float -> Float.float,
            length (map f (map Float.of_int (seqZ 0 num))) = Z.to_nat num) as Hlen
    by (intros f; by rewrite !length_map, length_seqZ).
  destruct (endpoint && (1 <? num)); [rewrite length_insert|];
    rewrite length_map; destruct (0 <? _); [destruct (Float.eqb _ _)| |destruct (Float.eqb _ _)|];
    apply Hlen.
Qed.

Lemma logspace_Ok `{Numpy} (start stop : Float.float) (num : Z) (endpoint : bool) :
  0 <= num ->
  exists y, Np.logspace start stop num endpoint = Ok y /\ length y = Z.to_nat num.
Proof.
  intros Hnum. destruct (linspace_Ok start stop num endpoint Hnum) as (y & Hy & Hlen).
  unfold Np.logspace. rewrite Hy. eexists. split; [reflexivity|].
  by rewrite length_map.
Qed.

(** ** Numbers *)

(** A float equal to 0 is one of the two zeros. *)
Lemma float_eq_0 (x : Float.float) :
  eqb (Flt x) (Int 0) = true -> exists s, x = S754_zero s.
Proof.
  destruct x as [s|s| |s m e]; [by eauto|discriminate|discriminate|].
  unfold eqb, integral. destruct (Z.leb_spec 0 e).
  - cbn [fmap option_fmap option_map].
    assert (0 < Z.pos m * 2 ^ e) by (apply Z.mul_pos_pos; [lia|by apply Z.pow_pos_nonneg]).
    destruct s; intros ?%Z.eqb_eq; lia.
  - destruct (Z.eqb_spec (Z.pos m mod 2 ^ (- e)) 0) as [Hmod|];
      cbn [fmap option_fmap option_map]; [|discriminate].
    assert (0 < 2 ^ (- e)) by (apply Z.pow_pos_nonneg; lia).
    pose proof (Z.div_mod (Z.pos m) (2 ^ (- e)) ltac:(lia)).
    destruct s; intros ?%Z.eqb_eq; nia.
Qed.

Lemma times_resolution_zero (s : bool) :
  times_resolution (Flt (S754_zero s)) = Flt (S754_zero s).
Proof. by destruct s. Qed.

Lemma sign_0 (x : Float.float) :
  eqb (sign (Flt x)) (Int 0) = true -> exists s, x = S754_zero s /\ sign (Flt x) = Flt x.
Proof.
  unfold sign, truthy. destruct (eqb (Flt x) (Int 0)) eqn:E; simpl.
  - intros _. destruct (float_eq_0 x E) as [s ->]. eauto.
  - destruct (Float.ltb x Float.zero); discriminate.
Qed.

(** On floats the check changes neither value: a zero times the resolution
    is that zero. *)
Lemma check_polarity_floats (start end_ : Float.float) :
  check_polarity (Flt start) (Flt end_) (Flt end_) =
  if polarity_ok start end_ then Ok (Flt start, Flt end_)
  else Raise (AssertionError "Polarity of start and end is not same.").
Proof.
  unfold check_polarity, polarity_ok.
  destruct (eqb (sign (Flt start)) (sign (Flt end_))); simpl; [done|].
  destruct (eqb (sign (Flt start)) (Int 0)) eqn:Es; simpl.
  - destruct (sign_0 start Es) as (s & -> & ->). by rewrite times_resolution_zero.
  - destruct (eqb (sign (Flt end_)) (Int 0)) eqn:Ee; simpl; [|done].
    destruct (sign_0 end_ Ee) as (s & -> & ->). by rewrite times_resolution_zero.
Qed.

(** ** The sweep measurement *)

Lemma SE_bind_Ok {S A B} (m : SE S A) (k : A -> SE S B) (s s' : S) (a : A) :
  m s = (Ok a, s') -> (m ≫= k) s = k a s'.
Proof. intros Hm. unfold mbind, SE_bind. by rewrite Hm. Qed.

Lemma SE_bind_Raise {S A B} (m : SE S A) (k : A -> SE S B) (s s' : S) (e : exn) :
  m s = (Raise e, s') -> (m ≫= k) s = (Raise e, s').
Proof. intros Hm. unfold mbind, SE_bind. by rewrite Hm. Qed.

Section WithNumpy.
Context `{Numpy} `{B1500}.

Lemma answers_refreshed self response ret :
  answers self response -> answers (refreshed ret self) response.
Proof. intros Ha sent. apply Ha. Qed.

(** A read of a member when the instrument answers and the reply parses. *)
Lemma group_get_eval self response ret name value :
  answers self response ->
  _get_sweep_steps_parser response = Ok ret ->
  (list_to_map ret : gmap string num) !! name = Some value ->
  group_get name self = (Ok value, refreshed ret self).
Proof.
  intros Ha Hp Hv. unfold group_get, group_update.
  assert ((ask _get_sweep_steps ≫= (fun response =>
            lift (_get_sweep_steps_parser response) ≫= (fun ret =>
              modify (fun self => set_parameters (list_to_map ret ∪ parameters self) self))))
          self = (Ok tt, refreshed ret self)) as Hupdate.
  { erewrite SE_bind_Ok by (apply ask_eval, Ha).
    unfold lift, modify, mbind, SE_bind. by rewrite Hp. }
  erewrite SE_bind_Ok by exact Hupdate.
  unfold gets, mbind, SE_bind.
  change (parameters (id (refreshed ret self)))
    with (list_to_map ret ∪ parameters self).
  by rewrite (lookup_union_Some_l _ _ _ _ Hv).
Qed.

(** The method follows [sweep_voltages_of] on the settings it reads: every
    read returns the same settings, only the log of queries grows. *)
Lemma _cv_sweep_voltages_eval self response chan mode start end_ steps :
  answers self response ->
  _get_sweep_steps_parser response = Ok (settings chan mode start end_ steps) ->
  exists self', _cv_sweep_voltages self = (sweep_voltages_of mode start end_ steps, self').
Proof.
  intros Ha Hp. unfold _cv_sweep_voltages, sweep_voltages_of.
  pose proof (fun s name v Hs => group_get_eval s response _ name v Hs Hp) as Hget.
  set (r := refreshed (settings chan mode start end_ steps)).
  assert (forall s, answers s response -> answers (r s) response) as Hr
    by (intros s; apply answers_refreshed).
  erewrite SE_bind_Ok by (apply (Hget self "sweep_start"); [done|reflexivity]).
  erewrite SE_bind_Ok by (apply (Hget _ "sweep_end"); [auto|reflexivity]).
  erewrite SE_bind_Ok by (apply (Hget _ "sweep_steps"); [auto|reflexivity]).
  erewrite SE_bind_Ok by (apply (Hget _ "sweep_mode"); [auto|reflexivity]).
  change (eqb (Int mode) (Int 2)) with (mode =? 2).
  assert (exists s1, answers s1 response /\
    ((if mode =? 2 then mret true
      else group_get "sweep_mode" ≫= (fun mode => mret (eqb mode (Int 4))))
       : SE B1520A.B1520A bool) (r (r (r (r self))))
    = (Ok ((mode =? 2) || (mode =? 4)), s1)) as (s1 & Hs1 & Hlog).
  { destruct (mode =? 2).
    - eexists. split; [|reflexivity]. auto.
    - eexists. split; [|erewrite SE_bind_Ok
        by (apply (Hget _ "sweep_mode"); [auto 6|reflexivity]); reflexivity]. auto 6. }
  erewrite SE_bind_Ok by exact Hlog.
  set (pol := if (mode =? 2) || (mode =? 4)
              then check_polarity (Flt start) (Flt end_) (Flt end_)
              else Ok (Flt start, Flt end_)).
  assert (exists s2, answers s2 response /\
    ((if (mode =? 2) || (mode =? 4)
      then group_get "sweep_end" ≫= (fun end_again =>
             lift (check_polarity (Flt start) (Flt end_) end_again))
      else mret (Flt start, Flt end_)) : SE B1520A.B1520A (num * num)) s1
    = (pol, s2)) as (s2 & Hs2 & Hpol).
  { subst pol. destruct ((mode =? 2) || (mode =? 4)).
    - eexists. split; [|erewrite SE_bind_Ok
        by (apply (Hget _ "sweep_end"); [auto|reflexivity]); reflexivity]. auto.
    - eexists. split; [|reflexivity]. auto. }
  destruct pol as [[sv ev]|e].
  - erewrite SE_bind_Ok by exact Hpol. cbv beta iota.
    erewrite SE_bind_Ok by (apply (Hget _ "sweep_mode"); [auto|reflexivity]).
    unfold lift, mbind, SE_bind, result_bind. cbn [snd].
    destruct (modes (Int mode)) as [sweep|e]; [|eauto].
    destruct (sweep sv ev (Int steps)); eauto.
  - erewrite SE_bind_Raise by exact Hpol. eauto.
Qed.

Lemma two_way_intro (half : list Float.float) (end_ : Float.float) (n : Z) :
  1 <= n -> n mod 2 = 1 -> length half = Z.to_nat (n / 2) ->
  two_way half end_ n (map Flt half ++ [Flt end_] ++ reverse (map Flt half)).
Proof.
  intros Hn Hodd Hlen. split; [done|]. split; [done|]. split.
  - rewrite !length_app, length_reverse, length_map, Hlen. simpl. lia_div.
  - rewrite lookup_app_r; rewrite length_map, Hlen; [|lia].
    by rewrite Nat.sub_diag.
Qed.

(** C9, as the code has it. The settings read from the instrument being the
    mode, a start, an end and an odd number [n >= 1] of steps:
    in mode 3 the sweep is the [n / 2] points of [np.linspace] without the
    end point, the end value, and the same points backwards, so it has [n]
    elements and the end value in the middle; in mode 4 it is the same around
    [np.logspace] when the start and the end have the same sign or one of
    them is zero, and the read raises AssertionError when they have opposite
    signs; in mode 1 the sweep is the [n] points of [np.linspace] with its
    end point and nothing else, and so it is in mode 2 with [np.logspace]
    (under the same condition on the signs). *)
Theorem cv_sweep_voltages_two_way self response chan mode start end_ n :
  answers self response ->
  _get_sweep_steps_parser response = Ok (settings chan mode start end_ n) ->
  1 <= n -> n mod 2 = 1 ->
  (mode = 3 ->
   exists half sweep self',
     Np.linspace start end_ (n / 2) false = Ok half
     /\ _cv_sweep_voltages self = (Ok sweep, self')
     /\ two_way half end_ n sweep)
  /\ (mode = 4 -> polarity_ok start end_ = true ->
      exists half sweep self',
        Np.logspace (np_log10 start) (np_log10 end_) (n / 2) false = Ok half
        /\ _cv_sweep_voltages self = (Ok sweep, self')
        /\ two_way half end_ n sweep)
  /\ (mode = 4 -> polarity_ok start end_ = false ->
      exists self',
        _cv_sweep_voltages self
        = (Raise (AssertionError "Polarity of start and end is not same."), self'))
  /\ (mode = 1 ->
      exists points self',
        Np.linspace start end_ n true = Ok points
        /\ _cv_sweep_voltages self = (Ok (map Flt points), self'))
  /\ (mode = 2 -> polarity_ok start end_ = true ->
      exists points self',
        Np.logspace (np_log10 start) (np_log10 end_) n true = Ok points
        /\ _cv_sweep_voltages self = (Ok (map Flt points), self')).
Proof.
  intros Ha Hp Hn Hodd.
  destruct (_cv_sweep_voltages_eval self response chan mode start end_ n Ha Hp)
    as (self' & ->).
  assert (0 <= n / 2) as Hhalf by lia_div.
  assert ((n mod 2 =? 0) = false) as Hnodd by (apply Z.eqb_neq; lia).
  repeat split.
  - intros ->. destruct (linspace_Ok start end_ (n / 2) false Hhalf) as (half & Hl & Hlen).
    exists half. eexists _, self'. split; [done|]. split.
    + change (sweep_voltages_of 3 start end_ n)
        with (linear_2way_sweep (Flt start) (Flt end_) (Int n)).
      unfold linear_2way_sweep. cbn [index mbind result_bind to_float].
      rewrite Hnodd, Hl. reflexivity.
    + by apply two_way_intro.
  - intros -> Hpol.
    destruct (logspace_Ok (np_log10 start) (np_log10 end_) (n / 2) false Hhalf)
      as (half & Hl & Hlen).
    exists half. eexists _, self'. split; [done|]. split.
    + unfold sweep_voltages_of. cbn [Z.eqb Pos.eqb orb].
      rewrite check_polarity_floats, Hpol.
      change (Ok (Flt start, Flt end_) ≫= _)
        with (log_2way_sweep (Flt start) (Flt end_) (Int n)).
      unfold log_2way_sweep. cbn [index mbind result_bind to_float].
      rewrite Hnodd, Hl. reflexivity.
    + by apply two_way_intro.
  - intros -> Hpol. exists self'. unfold sweep_voltages_of. cbn [Z.eqb Pos.eqb orb].
    by rewrite check_polarity_floats, Hpol.
  - intros ->. destruct (linspace_Ok start end_ n true ltac:(lia)) as (points & Hl & _).
    exists points, self'. split; [done|].
    change (sweep_voltages_of 1 start end_ n)
      with (linear_sweep (Flt start) (Flt end_) (Int n)).
    unfold linear_sweep. cbn [index mbind result_bind to_float]. by rewrite Hl.
  - intros -> Hpol.
    destruct (logspace_Ok (np_log10 start) (np_log10 end_) n true ltac:(lia))
      as (points & Hl & _).
    exists points, self'. split; [done|].
    unfold sweep_voltages_of. cbn [Z.eqb Pos.eqb orb].
    rewrite check_polarity_floats, Hpol.
    change (Ok (Flt start, Flt end_) ≫= _)
      with (log_sweep (Flt start) (Flt end_) (Int n)).
    unfold log_sweep. cbn [index mbind result_bind to_float]. by rewrite Hl.
Qed.

End WithNumpy.

Section WithNumpy.
Context `{Numpy} `{B1500}.

(** C7. While [setup_fnc_already_run] is false (as [__init__] leaves it and
    as it stays until [setup_staircase_cv] sees no error), reading
    [run_sweep] raises the warning that the setup has not been run, and the
    module is as before: nothing was written to the instrument. *)
Theorem get_raw_not_configured (self : B1520A.B1520A) :
  setup_fnc_already_run self = false ->
  get_raw self = (Raise (Warning "Sweep setup has not yet been run successfully"), self)
  /\ written (get_raw self).2 = written self.
Proof.
  intros Hflag. assert (get_raw self
    = (Raise (Warning "Sweep setup has not yet been run successfully"), self)) as ->.
  { unfold get_raw, gets. unfold mbind at 1. unfold SE_bind. by rewrite Hflag. }
  done.
Qed.

(** X4. Once the setup has been run, and the instrument answering the query
    of the sweep settings, reading [run_sweep] raises AttributeError: line
    717 asks the module for [cvsweep], and the sweep submodule is registered
    as [cv_sweep] (line 224). One query has gone out by then, the execution
    command has not. *)
Theorem get_raw_configured (self : B1520A.B1520A) response chan mode start end_ n :
  setup_fnc_already_run self = true ->
  answers self response ->
  _get_sweep_steps_parser response = Ok (settings chan mode start end_ n) ->
  exists self',
    get_raw self = (Raise (AttributeError "cvsweep"), self')
    /\ written self' = written self ++ [_get_sweep_steps].
Proof.
  intros Hflag Ha Hp. unfold get_raw, gets. unfold mbind at 1. unfold SE_bind at 1.
  rewrite Hflag. change (negb true) with false. cbv iota beta.
  erewrite SE_bind_Ok
    by (apply (group_get_eval self response _ "sweep_steps" (Int n) Ha Hp); reflexivity).
  eexists. split; [reflexivity|]. reflexivity.
Qed.

End WithNumpy.

(** ** The group of the sweep steps *)

(** C4. With channel 1, sweep mode 1 (LINEAR), start 0.0, end 1.0 and 11
    steps the [set_cmd] of the group formats to [WDCV 1,1,0.0,1.0,11], and
    that is what setting [sweep_steps] to 11 writes on a module whose other
    four members hold these values. *)
Theorem set_sweep_steps_command `{B1500} (self : B1520A.B1520A) :
  Format.format set_sweep_steps_set_cmd wdcv_values = Ok "WDCV 1,1,0.0,1.0,11"
  /\ exists self',
      sweep_steps_set (Int 11)
        (set_parameters (list_to_map wdcv_values ∪ parameters self) self)
      = (Ok tt, self')
      /\ written self' = written self ++ ["WDCV 1,1,0.0,1.0,11"].
Proof.
  assert (Format.format set_sweep_steps_set_cmd wdcv_values
          = Ok "WDCV 1,1,0.0,1.0,11") as Hformat by (vm_compute; reflexivity).
  split; [exact Hformat|].
  set (self0 := set_parameters (list_to_map wdcv_values ∪ parameters self) self).
  set (calling_dict := <["sweep_steps" := Int 11]> (parameters self0)).
  assert (forall name v, (list_to_map wdcv_values : gmap string num) !! name = Some v ->
            calling_dict !! name = Some v) as Hget.
  { intros name v Hv. subst calling_dict self0. simpl parameters.
    destruct (decide (name = "sweep_steps")) as [-> | Hne].
    - rewrite lookup_insert_eq. vm_compute in Hv. congruence.
    - rewrite lookup_insert_ne by done. by apply lookup_union_Some_l. }
  assert (omap (fun name => pair name <$> calling_dict !! name)
               set_sweep_steps_members = wdcv_values) as Hkwargs.
  { unfold set_sweep_steps_members. cbn [omap list_omap].
    rewrite (Hget "chan" (Int 1)), (Hget "sweep_mode" (Int 1)),
      (Hget "sweep_start" (Flt f0)), (Hget "sweep_end" (Flt f1)),
      (Hget "sweep_steps" (Int 11)) by (vm_compute; reflexivity).
    reflexivity. }
  exists (set_parameters calling_dict
            (set_written (written self ++ ["WDCV 1,1,0.0,1.0,11"]) self0)).
  split; [|reflexivity].
  unfold sweep_steps_set. change (valid_sweep_steps (Int 11)) with true. cbv iota.
  unfold group_set, gets, lift, modify, mbind, SE_bind.
  change (<["sweep_steps" := Int 11]> (parameters (id self0))) with calling_dict.
  rewrite Hkwargs, Hformat. reflexivity.
Qed.

(** C5. The parser of the group reads [WDCV 1,1,0.0,1.0,11] back to the five
    values of C4, each with its type: the channel, the mode and the steps
    ints, the start and the end floats. *)
Theorem sweep_steps_parser_round_trip :
  _get_sweep_steps_parser "WDCV 1,1,0.0,1.0,11"
  = Ok [("chan", Int 1); ("sweep_mode", Int 1); ("sweep_start", Flt f0);
        ("sweep_end", Flt f1); ("sweep_steps", Int 11)]
  /\ (command ← Format.format set_sweep_steps_set_cmd wdcv_values;
      _get_sweep_steps_parser command) = Ok wdcv_values.
Proof. split; vm_compute; reflexivity. Qed.

(** ** Examples *)

Lemma get_capacitance_reads_three_character_tags_witness :
  (@_get_capacitance example_b1500 (fresh_module "NCC+1.234560E-03,NCY+5.678900E-02")).1
  = Ok (Float.of_decimal false 123456 (-8), Float.of_decimal false 56789 (-6)).
Proof.
  pose proof (@get_capacitance_reads_three_character_tags example_b1500
                (fresh_module "NCC+1.234560E-03,NCY+5.678900E-02") _ eq_refl) as [Hgood _].
  by rewrite (Hgood eq_refl).
Defined.

(** The two floats of C2 are those of the literals [1.23456e-3] and
    [5.6789e-2], and print as such. *)
Example capacitance_literals :
  Float.of_str "1.23456e-3" = Ok (Float.of_decimal false 123456 (-8))
  /\ Float.of_str "5.6789e-2" = Ok (Float.of_decimal false 56789 (-6))
  /\ Float.repr (Float.of_decimal false 123456 (-8)) = "0.00123456"
  /\ Float.repr (Float.of_decimal false 56789 (-6)) = "0.056789".
Proof. repeat split; vm_compute; reflexivity. Qed.

(** C2, as the claim has it, fails: the instrument answering with the
    response of the claim, the read raises. *)
Lemma get_capacitance_four_character_tags :
  (@_get_capacitance example_b1500 (fresh_module "CAFR+1.234560E-03,YAFR+5.678900E-02")).1
  = Raise (ValueError "Result format not supported.")
  /\ map (fun m => Re.group "dtype" (Re.m_groups m))
         (Re.finditer _pattern "CAFR+1.234560E-03,YAFR+5.678900E-02")
     = [Some "R"; Some "R"].
Proof. split; vm_compute; reflexivity. Qed.

Lemma measurement_range_is_sent_in_AUTO_witness :
  exists self',
    @_set_measurement_range_for_non_auto example_b1500 (Some 50) (fresh_module "")
    = (Ok tt, self')
    /\ _ranging_mode self' = 0
    /\ _measurement_range_for_non_auto self' = Some 50
    /\ written self' = ["RC 3,0,50"].
Proof.
  apply (@measurement_range_is_sent_in_AUTO example_b1500 (fresh_module "") 50).
  repeat split.
Defined.

Lemma get_raw_not_configured_witness :
  @get_raw example_numpy example_b1500 (fresh_module "")
  = (Raise (Warning "Sweep setup has not yet been run successfully"), fresh_module "")
  /\ written (@get_raw example_numpy example_b1500 (fresh_module "")).2 = [].
Proof. apply (@get_raw_not_configured example_numpy example_b1500 (fresh_module "")). reflexivity. Defined.

Lemma get_raw_configured_witness :
  exists self',
    @get_raw example_numpy example_b1500 (configured_module "WDCV3,3,0.0,1.0,5")
    = (Raise (AttributeError "cvsweep"), self')
    /\ written self' = ["*LRN? 61"].
Proof.
  apply (@get_raw_configured example_numpy example_b1500
           (configured_module "WDCV3,3,0.0,1.0,5") "WDCV3,3,0.0,1.0,5" 3 3 f0 f1 5).
  - reflexivity.
  - intros sent. reflexivity.
  - vm_compute. reflexivity.
Defined.

Lemma cv_sweep_voltages_two_way_witness :
  exists half sweep self',
    Np.linspace f0 f1 (5 / 2) false = Ok half
    /\ @_cv_sweep_voltages example_numpy example_b1500 (fresh_module "WDCV3,3,0.0,1.0,5")
       = (Ok sweep, self')
    /\ two_way half f1 5 sweep.
Proof.
  pose proof (@cv_sweep_voltages_two_way example_numpy example_b1500
                (fresh_module "WDCV3,3,0.0,1.0,5") "WDCV3,3,0.0,1.0,5" 3 3 f0 f1 5)
    as (Hmode3 & _).
  - intros sent. reflexivity.
  - vm_compute. reflexivity.
  - lia.
  - reflexivity.
  - exact (Hmode3 eq_refl).
Defined.

(** C9, as the claim has it, fails in mode 4: the settings being a start of
    -1.0, an end of 1.0 and 5 steps, the read raises and there is no
    sequence. *)
Lemma cv_sweep_voltages_opposite_signs :
  _get_sweep_steps_parser "WDCV3,4,-1.0,1.0,5"
  = Ok (settings 3 4 (Float.of_decimal true 1 0) f1 5)
  /\ (@_cv_sweep_voltages example_numpy example_b1500 (fresh_module "WDCV3,4,-1.0,1.0,5")).1
     = Raise (AssertionError "Polarity of start and end is not same.").
Proof. split; vm_compute; reflexivity. Qed.

(** A linear two-way sweep in full, from 0.0 to 1.0 in 5 steps:
    0.0, 0.5, 1.0, 0.5, 0.0. *)
Example cv_sweep_voltages_linear_two_way :
  (@_cv_sweep_voltages example_numpy example_b1500 (fresh_module "WDCV3,3,0.0,1.0,5")).1
  = Ok (map Flt [f0; Float.of_decimal false 5 (-1); f1;
                 Float.of_decimal false 5 (-1); f0]).
Proof. vm_compute. reflexivity. Qed.

(** ** Two more facts of the driver *)

(** X1. Lines 348-356 never change a start or an end that is a float: where the
    check does not raise it passes on the two values it was given, a zero
    included (a zero times the resolution is that zero). *)
Theorem polarity_check_keeps_floats (start end_ : Float.float) :
  check_polarity (Flt start) (Flt end_) (Flt end_)
  = if polarity_ok start end_ then Ok (Flt start, Flt end_)
    else Raise (AssertionError "Polarity of start and end is not same.").
Proof. apply check_polarity_floats. Qed.

(** X2. Lines 535-544: setting the ranging mode to AUTO forgets the fixed
    range, and the RC command goes out with the mode AUTO and no range. *)
Theorem ranging_mode_AUTO_forgets_range `{B1500} (self : B1520A.B1520A) :
  exists self',
    _set_ranging_mode RangingMode_AUTO self = (Ok tt, self')
    /\ _ranging_mode self' = RangingMode_AUTO
    /\ _measurement_range_for_non_auto self' = None
    /\ written self' = written self ++ [mb_rc (channels self) RangingMode_AUTO None].
Proof. apply _set_ranging_mode_AUTO. Qed.

End DriverFacts.

(* ================================================================== *)
(** * Further facts *)

(** ** The upgrade, further *)

Module UpgradeMoreFacts.
Import Sqlite Upgrade UpgradeFacts.

Section WithImports.
Context `{Imports}.

(** What the loop body writes is a versioned document. *)
Lemma new_json_of_versioned (d : option string) (new_json : string) :
  new_json_of d = Ok new_json ->
  exists idps, new_json = json_dumps (versioned idps)
               /\ (d = None -> idps = empty_idps_ser).
Proof.
  destruct d as [json_str|]; cbn [new_json_of].
  - destruct (json_loads json_str) as [ser|]; [|discriminate]. cbn.
    destruct (Json.getitem ser "interdependencies") as [idps|]; [|discriminate].
    cbn. intros [= <-]. by exists idps.
  - intros [= <-]. by exists empty_idps_ser.
Qed.


Lemma rows_after_returns (rows : list (option string)) :
  (rows_after rows).1 = Ok tt ->
  forall i d, rows !! i = Some d -> is_Ok (new_json_of d) = true.
Proof.
  induction rows as [|d0 rows IH]; intros Hok i d Hi; [by destruct i|].
  cbn [rows_after] in Hok. destruct (new_json_of d0) as [new_json|] eqn:E0;
    [|discriminate].
  destruct (rows_after rows) as [r rows'] eqn:Er. cbn in Hok, IH.
  destruct i as [|i]; cbn in Hi.
  - injection Hi as <-. by rewrite E0.
  - by apply (IH Hok i).
Qed.


(** X5. When the upgrade returns, the store has the runs it had, and every
    run holds [json.dumps] of a dict with the keys ['version'] (0) and
    ['interdependencies'], in that order; for a run that had no description
    the dependencies are the serialized empty ones. *)
Theorem upgrade_gives_every_run_a_version (conn conn' : ConnectionPlus) :
  upgrade_5_to_6 conn = (Ok tt, conn') ->
  length (runs conn') = length (runs conn)
  /\ forall run_id, 1 <= run_id <= Z.of_nat (length (runs conn)) ->
       exists idps,
         description conn' run_id = Some (json_dumps (versioned idps))
         /\ Json.keys (versioned idps) = ["version"; "interdependencies"]
         /\ Json.getitem (versioned idps) "version" = Ok (Json.Int 0)
         /\ (description conn run_id = None -> idps = empty_idps_ser).
Proof.
  rewrite upgrade_5_to_6_rows.
  destruct (rows_after (runs conn)) as [[[]|e] rows'] eqn:Er; [|discriminate].
  intros [= <-].
  destruct (rows_after_ok (runs conn)) as (_ & Hlen & Hrows).
  { apply rows_after_returns. by rewrite Er. }
  rewrite Er in Hlen, Hrows. cbn [fst snd] in Hlen, Hrows.
  split; [done|]. intros run_id Hr.
  destruct (description_run conn run_id Hr) as (i & d & -> & Hi & Hd).
  destruct (Hrows i d Hi) as (new_json & Hn & Hl).
  destruct (new_json_of_versioned d new_json Hn) as (idps & -> & Hnone).
  exists idps. rewrite (description_lookup (Conn rows') i _ Hl).
  repeat split. rewrite Hd. exact Hnone.
Qed.


End WithImports.

Import Examples.

Lemma upgrade_gives_every_run_a_version_witness :
  length (runs (Conn [Some doc_v6; Some doc_v6])) = length (runs store)
  /\ forall run_id, 1 <= run_id <= Z.of_nat (length (runs store)) ->
       exists idps,
         description (Conn [Some doc_v6; Some doc_v6]) run_id
         = Some (Json.dumps (versioned idps))
         /\ Json.keys (versioned idps) = ["version"; "interdependencies"]
         /\ Json.getitem (versioned idps) "version" = Ok (Json.Int 0)
         /\ (description store run_id = None
             -> idps = @empty_idps_ser python_imports).
Proof.
  apply (@upgrade_gives_every_run_a_version python_imports store).
  vm_compute. reflexivity.
Defined.


(** The three ways to fail, on stores of one run: a description cut short,
    a list, and a dict without the dependencies. *)
Example upgrade_failures :
  (@upgrade_5_to_6 python_imports (Conn [Some "{"])).1 = Raise JSONDecodeError
  /\ (@upgrade_5_to_6 python_imports (Conn [Some "[1, 2]"])).1 = Raise TypeError
  /\ (@upgrade_5_to_6 python_imports (Conn [Some "{}"])).1
     = Raise (KeyError "interdependencies")
  /\ @upgrade_5_to_6 python_imports (Conn []) = (Ok tt, Conn []).
Proof. repeat split; vm_compute; reflexivity. Qed.

End UpgradeMoreFacts.

(** ** Text and patterns *)

Module ReFacts.
Import Text.

Lemma append_cons c s t : String c s +:+ t = String c (s +:+ t).
Proof. reflexivity. Qed.

Lemma append_nil t : "" +:+ t = t.
Proof. reflexivity. Qed.

Lemma length_append s t :
  String.length (s +:+ t) = (String.length s + String.length t)%nat.
Proof.
  induction s as [|c s IH]; [done|]. rewrite append_cons. simpl. by rewrite IH.
Qed.

Lemma take_append s t :
  Py.take_str (String.length (s +:+ t) - String.length t) (s +:+ t) = s.
Proof.
  rewrite length_append.
  replace (String.length s + String.length t - String.length t)%nat
    with (String.length s) by lia.
  induction s as [|c s IH]; [rewrite append_nil; by destruct t|].
  rewrite append_cons. simpl. by rewrite IH.
Qed.

Lemma append_assoc s t u : (s +:+ t) +:+ u = s +:+ (t +:+ u).
Proof. induction s as [|c s IH]; [done|]. by rewrite !append_cons, IH. Qed.

Section Matcher.
Context {A : Type}.

Lemma run_plus_lazy_dot s g (k : string -> Re.groups -> option A) :
  Re.run (Re.plus_lazy Re.Dot) s g k = lazy_dots k (S (String.length s)) 0%nat s g.
Proof. reflexivity. Qed.

(** [.+?] takes a text without newline whole when what follows the pattern
    accepts the rest and rejects every earlier stop. *)
Lemma lazy_dots_field (k : string -> Re.groups -> option A) rest g a fld :
  free_of [Py.newline] fld = true ->
  (forall p c b, fld = p +:+ String c b -> k (String c b +:+ rest) g = None) ->
  k rest g = Some a ->
  forall fuel count,
    (String.length fld < fuel)%nat -> (1 <= count + String.length fld)%nat ->
    lazy_dots k fuel count (fld +:+ rest) g = Some a.
Proof.
  induction fld as [|c f IH]; intros Hfree Hstop Hk fuel count Hfuel Hcount.
  - destruct fuel as [|fuel]; [simpl in Hfuel; lia|].
    simpl in Hcount. rewrite append_nil. cbn [lazy_dots].
    destruct (Nat.leb_spec 1 count) as [_|]; [|lia]. by rewrite Hk.
  - destruct fuel as [|fuel]; [simpl in Hfuel; lia|].
    simpl in Hfree. apply andb_true_iff in Hfree as [Hc Hfree].
    rewrite orb_false_r in Hc.
    rewrite append_cons. cbn [lazy_dots].
    assert (Hnone : (if (1 <=? count)%nat then k (String c (f +:+ rest)) g else None)
                    = None).
    { destruct (1 <=? count)%nat; [|done]. apply (Hstop "" c f). done. }
    rewrite Hnone. cbn [Re.run Re.match1]. rewrite Hc. cbn [mbind option_bind].
    assert (Hlt : (String.length (f +:+ rest) <? String.length (String c (f +:+ rest)))%nat
                  = true) by (apply Nat.ltb_lt; simpl; lia).
    rewrite Hlt. apply IH; [done| |done|simpl in Hfuel; lia|simpl in Hcount; lia].
    intros p c' b ->. apply (Hstop (String c p) c' b). done.
Qed.

(** A named [.+?]. *)
Lemma run_named_field name (k : string -> Re.groups -> option A) rest g a fld :
  free_of [Py.newline] fld = true -> fld <> "" ->
  (forall p c b g', fld = p +:+ String c b -> k (String c b +:+ rest) g' = None) ->
  k rest ((name, fld) :: g) = Some a ->
  Re.run (Re.Named name (Re.plus_lazy Re.Dot)) (fld +:+ rest) g k = Some a.
Proof.
  intros Hfree Hne Hstop Hk.
  change (Re.run (Re.Named name (Re.plus_lazy Re.Dot)) (fld +:+ rest) g k)
    with (lazy_dots (fun s' g' =>
            k s' ((name, Py.take_str (String.length (fld +:+ rest) - String.length s')
                           (fld +:+ rest)) :: g'))
            (S (String.length (fld +:+ rest))) 0%nat (fld +:+ rest) g).
  apply lazy_dots_field; [done| | | |].
  - intros p c b E. by apply (Hstop p c b).
  - by rewrite take_append.
  - rewrite length_append. lia.
  - destruct fld; [done|simpl; lia].
Qed.


Lemma free_of_weaken cs cs' s :
  (forall c, In c cs' -> In c cs) -> free_of cs s = true -> free_of cs' s = true.
Proof.
  intros Hsub. induction s as [|a s IH]; [done|]. simpl.
  intros [Ha Hs]%andb_true_iff. rewrite IH by done. rewrite andb_true_r.
  apply negb_true_iff. apply negb_true_iff in Ha.
  destruct (existsb (Ascii.eqb a) cs') eqn:E; [|done].
  apply existsb_exists in E as (c & Hin & Hc).
  assert (existsb (Ascii.eqb a) cs = true); [|congruence].
  apply existsb_exists. eauto.
Qed.

(** Where a field stops, the next character is none of [cs]. *)
Lemma free_of_stop cs fld p c b :
  free_of cs fld = true -> fld = p +:+ String c b ->
  existsb (Ascii.eqb c) cs = false.
Proof.
  intros Hfree ->. induction p as [|a p IH].
  - rewrite append_nil in Hfree. simpl in Hfree.
    apply andb_true_iff in Hfree as [Hc _]. by apply negb_true_iff.
  - rewrite append_cons in Hfree. simpl in Hfree.
    apply andb_true_iff in Hfree as [_ Hp]. by apply IH.
Qed.

Lemma field_inv cs fld :
  field cs fld = true ->
  fld <> "" /\ free_of [Py.newline] fld = true /\ free_of cs fld = true.
Proof.
  unfold field. intros [Hne Hfree]%andb_true_iff. split_and!.
  - intros ->. done.
  - eapply free_of_weaken; [|done]. intros c [<-|[]]. by left.
  - eapply free_of_weaken; [|done]. intros c Hc. by right.
Qed.

(** A field, a comma, and the rest of the pattern. *)
Lemma run_field_comma name r (k : string -> Re.groups -> option A) rest g a fld :
  field [","%char] fld = true ->
  Re.run r rest ((name, fld) :: g) k = Some a ->
  Re.run (Re.Cat (Re.Named name (Re.plus_lazy Re.Dot)) (Re.Cat (Re.Chr ",") r))
    (fld +:+ String "," rest) g k = Some a.
Proof.
  intros (Hne & Hnl & Hfree)%field_inv Hk.
  change (Re.run (Re.Cat ?r1 ?r2) ?s ?g ?k)
    with (Re.run r1 s g (fun s' g' => Re.run r2 s' g' k)).
  apply run_named_field; [done|done| |].
  - intros p c b g' E. rewrite append_cons.
    pose proof (free_of_stop _ _ _ _ _ Hfree E) as Hc. simpl in Hc.
    rewrite orb_false_r in Hc. cbn [Re.run Re.match1].
    rewrite Ascii.eqb_sym, Hc. done.
  - cbn [Re.run Re.match1]. rewrite Ascii.eqb_refl. exact Hk.
Qed.

(** The last field and [(;|$)]. *)
Lemma run_field_closes name (k : string -> Re.groups -> option A) (P : A -> Prop)
    tail g fld :
  field [";"%char] fld = true -> closes tail = true ->
  (forall s, exists a, k s ((name, fld) :: g) = Some a /\ P a) ->
  exists a, Re.run (Re.Cat (Re.Named name (Re.plus_lazy Re.Dot))
                      (Re.Alt (Re.Chr ";") Re.Dollar))
              (fld +:+ tail) g k = Some a /\ P a.
Proof.
  intros (Hne & Hnl & Hfree)%field_inv Htail Hk.
  change (Re.run (Re.Cat ?r1 ?r2) ?s ?g ?k)
    with (Re.run r1 s g (fun s' g' => Re.run r2 s' g' k)).
  assert (exists a, Re.run (Re.Alt (Re.Chr ";") Re.Dollar) tail ((name, fld) :: g) k
                    = Some a /\ P a) as (a & Ha & HP).
  { destruct tail as [|c t].
    - destruct (Hk "") as (a & Ha & HP). exists a. cbn. by rewrite Ha.
    - simpl in Htail. destruct (Ascii.eqb c ";") eqn:Ec.
      + apply Ascii.eqb_eq in Ec as ->. destruct (Hk t) as (a & Ha & HP).
        exists a. cbn [Re.run Re.match1]. rewrite Ascii.eqb_refl. cbn.
        by rewrite Ha.
      + simpl in Htail. apply andb_true_iff in Htail as [Hc Ht].
        apply Ascii.eqb_eq in Hc as ->. apply String.eqb_eq in Ht as ->.
        destruct (Hk (String Py.newline "")) as (a & Ha & HP). exists a.
        cbn [Re.run Re.match1]. rewrite Ascii.eqb_sym, Ec. cbn [mbind option_bind].
        rewrite String.eqb_refl, orb_true_r. done. }
  exists a. split; [|done]. apply run_named_field; [done|done| |done].
  intros p c b g' E. rewrite append_cons.
  pose proof (free_of_stop _ _ _ _ _ Hfree E) as Hc.
  pose proof (free_of_stop _ _ _ _ _ Hnl E) as Hc'. simpl in Hc, Hc'.
  rewrite orb_false_r in Hc, Hc'. cbn [Re.run Re.match1].
  rewrite Ascii.eqb_sym, Hc. cbn [mbind option_bind]. cbn [String.eqb].
  rewrite Hc'. done.
Qed.

(** The last field and [$]. *)
Lemma run_field_ends name (k : string -> Re.groups -> option A) (P : A -> Prop)
    tail g fld :
  field [] fld = true -> ends tail = true ->
  (forall s, exists a, k s ((name, fld) :: g) = Some a /\ P a) ->
  exists a, Re.run (Re.Cat (Re.Named name (Re.plus_lazy Re.Dot)) Re.Dollar)
              (fld +:+ tail) g k = Some a /\ P a.
Proof.
  intros (Hne & Hnl & _)%field_inv Htail Hk.
  change (Re.run (Re.Cat ?r1 ?r2) ?s ?g ?k)
    with (Re.run r1 s g (fun s' g' => Re.run r2 s' g' k)).
  destruct (Hk tail) as (a & Ha & HP).
  exists a. split; [|done]. apply run_named_field; [done|done| |].
  - intros p c b g' E. rewrite append_cons.
    pose proof (free_of_stop _ _ _ _ _ Hnl E) as Hc. simpl in Hc.
    rewrite orb_false_r in Hc. cbn [Re.run String.eqb]. rewrite Hc. done.
  - cbn [Re.run]. unfold ends in Htail. rewrite Htail. done.
Qed.

(** A literal word at the head of the text. *)
Lemma run_lit w s g (k : string -> Re.groups -> option A) :
  Re.run (Re.lit w) s g k
  = if startswith w s then k (Py.drop_str (String.length w) s) g else None.
Proof.
  revert s. induction w as [|c w IH]; intros s; [done|].
  assert (E : Re.run (Re.lit (String c w)) s g k
              = Re.run (Re.Chr c) s g (fun s' g' => Re.run (Re.lit w) s' g' k)).
  { destruct w; reflexivity. }
  rewrite E. cbn [Re.run Re.match1]. destruct s as [|b s]; [done|].
  cbn [startswith String.length Py.drop_str Re.match1].
  destruct (Ascii.eqb c b); cbn [mbind option_bind andb]; [apply IH|reflexivity].
Qed.

End Matcher.

Lemma startswith_append w s : startswith w (w +:+ s) = true.
Proof.
  induction w as [|c w IH]; [done|]. rewrite append_cons. simpl.
  by rewrite Ascii.eqb_refl, IH.
Qed.

Lemma drop_append w s : Py.drop_str (String.length w) (w +:+ s) = s.
Proof. induction w as [|c w IH]; [done|]. rewrite append_cons. by simpl. Qed.

(** [re.search] for a pattern that starts with the word [w], in a text
    where [w] first occurs after [prefix]. *)
Lemma search_find w r prefix s :
  find w (prefix +:+ s) = Some (String.length prefix) ->
  Re.search (Re.Cat (Re.lit w) r) (prefix +:+ s) = Re.search (Re.Cat (Re.lit w) r) s.
Proof.
  induction prefix as [|c p IH]; [done|]. rewrite append_cons. intros Hfind.
  cbn [find] in Hfind. destruct (startswith w (String c (p +:+ s))) eqn:Ew;
    [discriminate|].
  destruct (find w (p +:+ s)) as [n|] eqn:En; [|discriminate].
  injection Hfind as Hn. cbn [Re.search].
  assert (Hm : Re.match_at (Re.Cat (Re.lit w) r) (String c (p +:+ s)) = None).
  { unfold Re.match_at.
    change (Re.run (Re.Cat ?r1 ?r2) ?s ?g ?k)
      with (Re.run r1 s g (fun s' g' => Re.run r2 s' g' k)).
    rewrite run_lit, Ew. done. }
  rewrite Hm. apply IH. by rewrite Hn.
Qed.

Lemma search_not_found w r s :
  find w s = None -> Re.search (Re.Cat (Re.lit w) r) s = None.
Proof.
  induction s as [|c s IH]; intros Hfind.
  - cbn [find] in Hfind. destruct (startswith w "") eqn:Ew; [discriminate|].
    cbn [Re.search]. unfold Re.match_at.
    change (Re.run (Re.Cat ?r1 ?r2) ?s ?g ?k)
      with (Re.run r1 s g (fun s' g' => Re.run r2 s' g' k)).
    by rewrite run_lit, Ew.
  - cbn [find] in Hfind. destruct (startswith w (String c s)) eqn:Ew; [discriminate|].
    destruct (find w s) eqn:En; [discriminate|].
    cbn [Re.search]. unfold Re.match_at at 1.
    change (Re.run (Re.Cat ?r1 ?r2) ?s ?g ?k)
      with (Re.run r1 s g (fun s' g' => Re.run r2 s' g' k)).
    rewrite run_lit, Ew. by apply IH.
Qed.

Lemma search_here r s m : Re.match_at r s = Some m -> Re.search r s = Some m.
Proof. intros Hm. destruct s; cbn [Re.search]; by rewrite Hm. Qed.

Lemma match_at_lit w r s :
  Re.match_at (Re.Cat (Re.lit w) r) (w +:+ s)
  = Re.run r s [] (fun s' g =>
      Some (Re.Match g (Py.take_str (String.length (w +:+ s) - String.length s')
                          (w +:+ s)) s')).
Proof.
  unfold Re.match_at.
  change (Re.run (Re.Cat ?r1 ?r2) ?s ?g ?k)
    with (Re.run r1 s g (fun s' g' => Re.run r2 s' g' k)).
  by rewrite run_lit, startswith_append, drop_append.
Qed.

End ReFacts.


(** ** The parsers of the replies *)

Module ParserFacts.
Import Num B1520A CVSweep B1520A_methods Text ReFacts.

Lemma wdcv_match c m s e n tail :
  field [","%char] c = true -> field [","%char] m = true ->
  field [","%char] s = true -> field [","%char] e = true ->
  field [";"%char] n = true -> closes tail = true ->
  exists text rest,
    Re.match_at wdcv_pattern
      ("WDCV" +:+ c +:+ "," +:+ m +:+ "," +:+ s +:+ "," +:+ e +:+ "," +:+ n +:+ tail)
    = Some (Re.Match [("sweep_steps", n); ("sweep_end", e); ("sweep_start", s);
                      ("sweep_mode", m); ("chan", c)] text rest).
Proof.
  intros Hc Hm Hs He Hn Htail.
  unfold wdcv_pattern. cbn [Re.cat]. rewrite match_at_lit.
  set (k := fun s' g => Some (Re.Match g _ s')).
  destruct (run_field_closes "sweep_steps" k
              (fun a => exists text rest,
                 a = Re.Match [("sweep_steps", n); ("sweep_end", e);
                               ("sweep_start", s); ("sweep_mode", m); ("chan", c)]
                       text rest)
              tail [("sweep_end", e); ("sweep_start", s); ("sweep_mode", m);
                    ("chan", c)] n Hn Htail) as (a & Ha & text & rest & ->).
  { intros s'. eexists. split; [reflexivity|]. by eexists _, _. }
  exists text, rest.
  do 4 (apply run_field_comma; [done|]). exact Ha.
Qed.

Lemma wtdcv_match h d s t m tail :
  field [","%char] h = true -> field [","%char] d = true ->
  field [","%char] s = true -> field [","%char] t = true ->
  field [";"%char] m = true -> closes tail = true ->
  exists text rest,
    Re.match_at wtdcv_pattern
      ("WTDCV" +:+ h +:+ "," +:+ d +:+ "," +:+ s +:+ "," +:+ t +:+ "," +:+ m +:+ tail)
    = Some (Re.Match [("measure_delay", m); ("trigger_delay", t); ("step_delay", s);
                      ("delay", d); ("hold", h)] text rest).
Proof.
  intros Hh Hd Hs Ht Hm Htail.
  unfold wtdcv_pattern. cbn [Re.cat]. rewrite match_at_lit.
  set (k := fun s' g => Some (Re.Match g _ s')).
  destruct (run_field_closes "measure_delay" k
              (fun a => exists text rest,
                 a = Re.Match [("measure_delay", m); ("trigger_delay", t);
                               ("step_delay", s); ("delay", d); ("hold", h)]
                       text rest)
              tail [("trigger_delay", t); ("step_delay", s); ("delay", d);
                    ("hold", h)] m Hm Htail) as (a & Ha & text & rest & ->).
  { intros s'. eexists. split; [reflexivity|]. by eexists _, _. }
  exists text, rest.
  do 4 (apply run_field_comma; [done|]). exact Ha.
Qed.

Lemma act_match a b tail :
  field [","%char] a = true -> field [] b = true -> ends tail = true ->
  exists text rest,
    Re.match_at act_pattern ("ACT" +:+ a +:+ "," +:+ b +:+ tail)
    = Some (Re.Match [("adc_coef", b); ("adc_mode", a)] text rest).
Proof.
  intros Ha Hb Htail.
  unfold act_pattern. cbn [Re.cat]. rewrite match_at_lit.
  set (k := fun s' g => Some (Re.Match g _ s')).
  destruct (run_field_ends "adc_coef" k
              (fun x => exists text rest,
                 x = Re.Match [("adc_coef", b); ("adc_mode", a)] text rest)
              tail [("adc_mode", a)] b Hb Htail) as (x & Hx & text & rest & ->).
  { intros s'. eexists. split; [reflexivity|]. by eexists _, _. }
  exists text, rest.
  apply run_field_comma; [done|]. exact Hx.
Qed.

(** X7. The parser of the sweep steps on a reply in which [WDCV] first
    occurs after [prefix] and is followed by five fields (none empty, no
    newline in them, no comma in the first four, no semicolon in the last)
    and then by the end of the reply or a semicolon: the five values are
    [int] of the first, second and fifth field and [float] of the third and
    fourth, and the first conversion that fails is the error. *)
Theorem sweep_steps_parser_reads_fields (prefix c m s e n tail : string) :
  find "WDCV" (prefix +:+ "WDCV" +:+ c +:+ "," +:+ m +:+ "," +:+ s +:+ ","
               +:+ e +:+ "," +:+ n +:+ tail) = Some (String.length prefix) ->
  field [","%char] c = true -> field [","%char] m = true ->
  field [","%char] s = true -> field [","%char] e = true ->
  field [";"%char] n = true -> closes tail = true ->
  _get_sweep_steps_parser
    (prefix +:+ "WDCV" +:+ c +:+ "," +:+ m +:+ "," +:+ s +:+ "," +:+ e +:+ ","
     +:+ n +:+ tail)
  = (chan ← Py.int c;
     sweep_mode ← Py.int m;
     sweep_start ← Float.of_str s;
     sweep_end ← Float.of_str e;
     sweep_steps ← Py.int n;
     Ok (settings chan sweep_mode sweep_start sweep_end sweep_steps)).
Proof.
  intros Hfind Hc Hm Hs He Hn Htail.
  destruct (wdcv_match c m s e n tail Hc Hm Hs He Hn Htail) as (text & rest & Hmatch).
  unfold _get_sweep_steps_parser.
  assert (Re.search wdcv_pattern
            (prefix +:+ "WDCV" +:+ c +:+ "," +:+ m +:+ "," +:+ s +:+ "," +:+ e
             +:+ "," +:+ n +:+ tail)
          = Some (Re.Match [("sweep_steps", n); ("sweep_end", e); ("sweep_start", s);
                            ("sweep_mode", m); ("chan", c)] text rest)) as ->.
  { unfold wdcv_pattern in *. cbn [Re.cat] in *.
    rewrite (search_find "WDCV" _ prefix _ Hfind). by apply search_here. }
  reflexivity.
Qed.

(** X8. The parser of the sweep delays on a reply in which [WTDCV] first
    occurs after [prefix] and is followed by five fields and the end of the
    reply or a semicolon: the five values are [float] of the five fields,
    and the first conversion that fails is the error. *)
Theorem sweep_delays_parser_reads_fields (prefix h d s t m tail : string) :
  find "WTDCV" (prefix +:+ "WTDCV" +:+ h +:+ "," +:+ d +:+ "," +:+ s +:+ ","
                +:+ t +:+ "," +:+ m +:+ tail) = Some (String.length prefix) ->
  field [","%char] h = true -> field [","%char] d = true ->
  field [","%char] s = true -> field [","%char] t = true ->
  field [";"%char] m = true -> closes tail = true ->
  _get_sweep_delays_parser
    (prefix +:+ "WTDCV" +:+ h +:+ "," +:+ d +:+ "," +:+ s +:+ "," +:+ t +:+ ","
     +:+ m +:+ tail)
  = (hold ← Float.of_str h;
     delay ← Float.of_str d;
     step_delay ← Float.of_str s;
     trigger_delay ← Float.of_str t;
     measure_delay ← Float.of_str m;
     Ok [("hold", Flt hold); ("delay", Flt delay); ("step_delay", Flt step_delay);
         ("trigger_delay", Flt trigger_delay); ("measure_delay", Flt measure_delay)]).
Proof.
  intros Hfind Hh Hd Hs Ht Hm Htail.
  destruct (wtdcv_match h d s t m tail Hh Hd Hs Ht Hm Htail) as (text & rest & Hmatch).
  unfold _get_sweep_delays_parser.
  assert (Re.search wtdcv_pattern
            (prefix +:+ "WTDCV" +:+ h +:+ "," +:+ d +:+ "," +:+ s +:+ "," +:+ t
             +:+ "," +:+ m +:+ tail)
          = Some (Re.Match [("measure_delay", m); ("trigger_delay", t);
                            ("step_delay", s); ("delay", d); ("hold", h)]
                    text rest)) as ->.
  { unfold wtdcv_pattern in *. cbn [Re.cat] in *.
    rewrite (search_find "WTDCV" _ prefix _ Hfind). by apply search_here. }
  reflexivity.
Qed.

Lemma adc_mode_parser_fields (prefix a b tail : string) :
  find "ACT" (prefix +:+ "ACT" +:+ a +:+ "," +:+ b +:+ tail)
    = Some (String.length prefix) ->
  field [","%char] a = true -> field [] b = true -> ends tail = true ->
  _get_adc_mode_parser (prefix +:+ "ACT" +:+ a +:+ "," +:+ b +:+ tail)
  = (adc_mode ← Py.int a;
     adc_coef ← Py.int b;
     Ok [("adc_mode", Int adc_mode); ("adc_coef", Int adc_coef)]).
Proof.
  intros Hfind Ha Hb Htail.
  destruct (act_match a b tail Ha Hb Htail) as (text & rest & Hmatch).
  unfold _get_adc_mode_parser.
  assert (Re.search act_pattern (prefix +:+ "ACT" +:+ a +:+ "," +:+ b +:+ tail)
          = Some (Re.Match [("adc_coef", b); ("adc_mode", a)] text rest)) as ->.
  { unfold act_pattern in *. cbn [Re.cat] in *.
    rewrite (search_find "ACT" _ prefix _ Hfind). by apply search_here. }
  reflexivity.
Qed.

(** X9. The parser of the ADC settings on a reply in which [ACT] first
    occurs after [prefix]: the mode is [int] of the text up to the first
    comma, the coefficient is [int] of all that follows, up to the end of
    the reply.  A semicolon and further settings after the coefficient are
    part of that text, and [int] then raises. *)
Theorem adc_mode_parser_reads_fields (prefix a b tail : string) :
  find "ACT" (prefix +:+ "ACT" +:+ a +:+ "," +:+ b +:+ tail)
    = Some (String.length prefix) ->
  field [","%char] a = true -> field [] b = true -> ends tail = true ->
  _get_adc_mode_parser (prefix +:+ "ACT" +:+ a +:+ "," +:+ b +:+ tail)
  = (adc_mode ← Py.int a;
     adc_coef ← Py.int b;
     Ok [("adc_mode", Int adc_mode); ("adc_coef", Int adc_coef)]).
Proof. apply adc_mode_parser_fields. Qed.

(** X10. A reply in which the mnemonic of a parser does not occur makes the
    parser raise its own ValueError: nothing is returned for the group. *)
Theorem parsers_need_their_mnemonic (response : string) :
  (find "WDCV" response = None ->
   _get_sweep_steps_parser response
   = Raise (ValueError "Sweep steps (WDCV) not found."))
  /\ (find "WTDCV" response = None ->
      _get_sweep_delays_parser response
      = Raise (ValueError "Sweep delays (WTDCV) not found."))
  /\ (find "ACT" response = None ->
      _get_adc_mode_parser response
      = Raise (ValueError "ADC mode and coef (ATC) not found.")).
Proof.
  repeat split; intros Hfind.
  - unfold _get_sweep_steps_parser, wdcv_pattern. cbn [Re.cat].
    by rewrite (search_not_found "WDCV" _ response Hfind).
  - unfold _get_sweep_delays_parser, wtdcv_pattern. cbn [Re.cat].
    by rewrite (search_not_found "WTDCV" _ response Hfind).
  - unfold _get_adc_mode_parser, act_pattern. cbn [Re.cat].
    by rewrite (search_not_found "ACT" _ response Hfind).
Qed.

Lemma parsers_need_their_mnemonic_witness :
  _get_sweep_steps_parser "+0" = Raise (ValueError "Sweep steps (WDCV) not found.")
  /\ _get_sweep_delays_parser "+0"
     = Raise (ValueError "Sweep delays (WTDCV) not found.")
  /\ _get_adc_mode_parser "+0"
     = Raise (ValueError "ADC mode and coef (ATC) not found.").
Proof.
  destruct (parsers_need_their_mnemonic "+0") as (Hsteps & Hdelays & Hadc).
  split; [apply Hsteps; reflexivity|].
  split; [apply Hdelays; reflexivity|apply Hadc; reflexivity].
Defined.

(** The reply to the learn query of the sweep settings, delays first. *)
Lemma sweep_steps_parser_reads_fields_witness :
  _get_sweep_steps_parser
    ("WTDCV0.0,0.0,0.0,0.0,0.0;WMDCV2,2;" +:+ "WDCV" +:+ "3" +:+ "," +:+ "1" +:+ ","
     +:+ "0.0" +:+ "," +:+ "1.0" +:+ "," +:+ "11" +:+ "")
  = (chan ← Py.int "3";
     sweep_mode ← Py.int "1";
     sweep_start ← Float.of_str "0.0";
     sweep_end ← Float.of_str "1.0";
     sweep_steps ← Py.int "11";
     Ok (settings chan sweep_mode sweep_start sweep_end sweep_steps)).
Proof.
  apply (sweep_steps_parser_reads_fields
           "WTDCV0.0,0.0,0.0,0.0,0.0;WMDCV2,2;" "3" "1" "0.0" "1.0" "11" "");
    vm_compute; reflexivity.
Defined.

Lemma sweep_delays_parser_reads_fields_witness :
  _get_sweep_delays_parser
    ("" +:+ "WTDCV" +:+ "0.5" +:+ "," +:+ "0.0" +:+ "," +:+ "0.25" +:+ ","
     +:+ "0.0" +:+ "," +:+ "1.5" +:+ ";WMDCV2,2;WDCV3,1,0.0,1.0,11")
  = (hold ← Float.of_str "0.5";
     delay ← Float.of_str "0.0";
     step_delay ← Float.of_str "0.25";
     trigger_delay ← Float.of_str "0.0";
     measure_delay ← Float.of_str "1.5";
     Ok [("hold", Flt hold); ("delay", Flt delay); ("step_delay", Flt step_delay);
         ("trigger_delay", Flt trigger_delay); ("measure_delay", Flt measure_delay)]).
Proof.
  apply (sweep_delays_parser_reads_fields
           "" "0.5" "0.0" "0.25" "0.0" "1.5" ";WMDCV2,2;WDCV3,1,0.0,1.0,11");
    vm_compute; reflexivity.
Defined.

Lemma adc_mode_parser_reads_fields_witness :
  _get_adc_mode_parser ("" +:+ "ACT" +:+ "2" +:+ "," +:+ "5" +:+ "")
  = (adc_mode ← Py.int "2";
     adc_coef ← Py.int "5";
     Ok [("adc_mode", Int adc_mode); ("adc_coef", Int adc_coef)]).
Proof.
  apply (adc_mode_parser_reads_fields "" "2" "5" ""); vm_compute; reflexivity.
Defined.

(** The replies of the examples in full: the settings of the sweep from a
    reply that starts with the delays, and an ADC reply that goes on after
    the coefficient. *)
Example parsers_on_replies :
  _get_sweep_steps_parser "WTDCV0.0,0.0,0.0,0.0,0.0;WMDCV2,2;WDCV3,1,0.0,1.0,11"
  = Ok (settings 3 1 f0 f1 11)
  /\ _get_adc_mode_parser "ACT2,5" = Ok [("adc_mode", Int 2); ("adc_coef", Int 5)]
  /\ _get_adc_mode_parser "ACT2,5;WDCV3,1,0.0,1.0,11"
     = Raise (ValueError "invalid literal for int() with base 10").
Proof. repeat split; vm_compute; reflexivity. Qed.

End ParserFacts.

(** ** Integers as text *)

Module IntFacts.
Import Text ReFacts.

(** The ten digits. *)
Lemma digit_chr (k : Z) :
  0 <= k <= 9 ->
  Py.is_digit (Py.chr (48 + k)) = true /\ Py.digit_value (Py.chr (48 + k)) = k.
Proof.
  intros Hk.
  assert (k = 0 \/ k = 1 \/ k = 2 \/ k = 3 \/ k = 4 \/ k = 5 \/ k = 6 \/ k = 7
          \/ k = 8 \/ k = 9) as Hcases by lia.
  repeat (destruct Hcases as [-> | Hcases]; [by vm_compute|]). subst. by vm_compute.
Qed.

Lemma append_nil_r (s : string) : s +:+ "" = s.
Proof. induction s as [|c s IH]; [done|]. by rewrite append_cons, IH. Qed.

Lemma all_chars_append p s t :
  all_chars p (s +:+ t) = all_chars p s && all_chars p t.
Proof.
  induction s as [|c s IH]; [done|]. rewrite append_cons. cbn [all_chars].
  by rewrite IH, andb_assoc.
Qed.

Lemma all_chars_impl (p q : ascii -> bool) s :
  (forall c, p c = true -> q c = true) ->
  all_chars p s = true -> all_chars q s = true.
Proof.
  intros Hpq. induction s as [|c s IH]; [done|]. cbn [all_chars].
  intros [Hc Hs]%andb_true_iff. by rewrite (Hpq c Hc), IH.
Qed.

Lemma all_chars_free_of (p : ascii -> bool) cs s :
  (forall c, p c = true -> existsb (Ascii.eqb c) cs = false) ->
  all_chars p s = true -> free_of cs s = true.
Proof.
  intros Hp. induction s as [|c s IH]; [done|]. cbn [all_chars free_of].
  intros [Hc Hs]%andb_true_iff. by rewrite (Hp c Hc), IH.
Qed.

Lemma spelled_append s t a : spelled (s +:+ t) a = spelled t (spelled s a).
Proof.
  revert a. induction s as [|c s IH]; intros a; [done|].
  rewrite append_cons. cbn [spelled]. apply IH.
Qed.

(** [digits_from] runs through a text of digits. *)
Lemma digits_from_digits (ds : string) (a : Z) (k : nat) :
  all_chars Py.is_digit ds = true ->
  Py.digits_from ds a k = (spelled ds a, (k + String.length ds)%nat, "").
Proof.
  revert a k. induction ds as [|c ds IH]; intros a k Hds.
  - cbn. by rewrite Nat.add_0_r.
  - cbn [all_chars] in Hds. apply andb_true_iff in Hds as [Hc Hds].
    cbn [Py.digits_from spelled String.length]. rewrite Hc, IH by done.
    by replace (S k + String.length ds)%nat with (k + S (String.length ds))%nat by lia.
Qed.

(** The digits of a number spell it. *)
Lemma digits_fuel_spelled (fuel : nat) :
  forall n acc, (0 < fuel)%nat -> 0 <= n < 2 ^ Z.of_nat fuel ->
    exists ds, Py.digits_fuel fuel n acc = ds +:+ acc
               /\ ds <> ""
               /\ all_chars Py.is_digit ds = true
               /\ forall a, spelled ds a = a * 10 ^ Z.of_nat (String.length ds) + n.
Proof.
  induction fuel as [|fuel IH]; intros n acc Hfuel Hn; [lia|].
  cbn [Py.digits_fuel].
  assert (0 <= n mod 10 <= 9) as Hd by lia_div.
  destruct (digit_chr (n mod 10) Hd) as [Hdigit Hvalue].
  destruct (Z.ltb_spec n 10) as [Hsmall|Hbig].
  - exists (String (Py.chr (48 + n mod 10)) ""). split; [done|]. split; [done|].
    split; [cbn; by rewrite Hdigit|]. intros a. cbn [spelled String.length].
    rewrite Hvalue. lia_div.
  - destruct (IH (n / 10) (String (Py.chr (48 + n mod 10)) acc))
      as (ds & Heq & Hne & Hds & Hsp).
    { destruct fuel; [cbn in Hn; lia|lia]. }
    { rewrite Nat2Z.inj_succ, Z.pow_succ_r in Hn by lia. lia_div. }
    exists (ds +:+ String (Py.chr (48 + n mod 10)) "").
    split; [by rewrite Heq, append_assoc|]. split; [by destruct ds|].
    split; [rewrite all_chars_append, Hds; cbn; by rewrite Hdigit|].
    intros a. rewrite spelled_append, Hsp, length_append. cbn [spelled String.length].
    rewrite Hvalue, Nat2Z.inj_add, Z.pow_add_r by lia. lia_div.
Qed.

Lemma digits_spelled (n : Z) :
  0 <= n ->
  Py.digits n <> "" /\ all_chars Py.is_digit (Py.digits n) = true
  /\ spelled (Py.digits n) 0 = n.
Proof.
  intros Hn. unfold Py.digits.
  destruct (digits_fuel_spelled (S (Z.to_nat (Z.log2 n))) n "")
    as (ds & Heq & Hne & Hds & Hsp); [lia| |].
  { rewrite Nat2Z.inj_succ, Z2Nat.id by apply Z.log2_nonneg.
    destruct (Z.eq_dec n 0) as [->|]; [by cbn|].
    pose proof (Z.log2_spec n ltac:(lia)). lia. }
  rewrite append_nil_r in Heq. rewrite Heq. split; [done|]. split; [done|].
  rewrite Hsp. lia.
Qed.

(** ** [strip] *)

Lemma rev_str_rev_str (s a b : string) :
  Py.rev_str (Py.rev_str s a) b = Py.rev_str a (s +:+ b).
Proof.
  revert a b. induction s as [|c s IH]; intros a b; [done|].
  cbn [Py.rev_str]. rewrite IH. by rewrite append_cons.
Qed.

Lemma all_chars_rev_str p (s a : string) :
  all_chars p (Py.rev_str s a) = all_chars p s && all_chars p a.
Proof.
  revert a. induction s as [|c s IH]; intros a; [done|].
  cbn [Py.rev_str all_chars]. rewrite IH. cbn [all_chars].
  destruct (p c), (all_chars p s), (all_chars p a); reflexivity.
Qed.

Lemma lstrip_no_space (s : string) :
  all_chars (fun c => negb (Py.is_space c)) s = true -> Py.lstrip s = s.
Proof.
  destruct s as [|c s]; [done|]. cbn [all_chars Py.lstrip].
  intros [Hc _]%andb_true_iff. apply negb_true_iff in Hc. by rewrite Hc.
Qed.

(** A text without white space is stripped to itself. *)
Lemma strip_no_space (s : string) :
  all_chars (fun c => negb (Py.is_space c)) s = true -> Py.strip s = s.
Proof.
  intros Hs. unfold Py.strip. rewrite (lstrip_no_space s Hs).
  rewrite lstrip_no_space by (by rewrite all_chars_rev_str, Hs).
  rewrite rev_str_rev_str. cbn [Py.rev_str]. apply append_nil_r.
Qed.

Lemma digit_no_space (c : ascii) :
  Py.is_digit c = true -> negb (Py.is_space c) = true.
Proof.
  unfold Py.is_digit, Py.is_space. intros [H1 H2]%andb_true_iff.
  apply Z.leb_le in H1, H2. apply negb_true_iff, orb_false_iff.
  split; apply andb_false_iff; [right|right]; apply Z.leb_gt; lia.
Qed.

Lemma digit_no_sign (c : ascii) (s : string) :
  Py.is_digit c = true -> Py.sign_of (String c s) = (false, String c s).
Proof.
  intros Hc. destruct c as [[] [] [] [] [] [] [] []]; try reflexivity;
    vm_compute in Hc; discriminate.
Qed.

(** [int] reads a text of digits as the number it spells. *)
Lemma int_digits (ds : string) :
  ds <> "" -> all_chars Py.is_digit ds = true ->
  Py.int ds = Ok (spelled ds 0) /\ Py.int (String "-" ds) = Ok (- spelled ds 0).
Proof.
  intros Hne Hds.
  assert (all_chars (fun c => negb (Py.is_space c)) ds = true) as Hns
    by (eapply all_chars_impl; [apply digit_no_space|done]).
  destruct ds as [|c ds]; [done|]. pose proof Hds as Hds'.
  cbn [all_chars] in Hds'. apply andb_true_iff in Hds' as [Hc Hrest].
  assert (Py.digitpart (String c ds)
          = Some (spelled (String c ds) 0, S (String.length ds), "")) as Hpart.
  { cbn [Py.digitpart]. rewrite Hc. rewrite digits_from_digits by done.
    cbn [spelled]. replace (10 * 0 + Py.digit_value c) with (Py.digit_value c) by lia.
    done. }
  split.
  - unfold Py.int. rewrite strip_no_space by done.
    rewrite digit_no_sign by done. by rewrite Hpart.
  - assert (all_chars (fun c => negb (Py.is_space c)) (String "-" (String c ds))
            = true) as Hns'.
    { change (negb (Py.is_space "-")
              && all_chars (fun c => negb (Py.is_space c)) (String c ds) = true).
      by rewrite Hns. }
    unfold Py.int. rewrite strip_no_space by done.
    cbn [Py.sign_of]. by rewrite Hpart.
Qed.

(** The text of an int: digits, after a minus when it is negative. *)
Lemma str_int_digits (n : Z) :
  exists ds, ds <> "" /\ all_chars Py.is_digit ds = true /\ spelled ds 0 = Z.abs n
             /\ Py.str_int n = if n <? 0 then String "-" ds else ds.
Proof.
  unfold Py.str_int. destruct (Z.ltb_spec n 0).
  - destruct (digits_spelled (- n) ltac:(lia)) as (Hne & Hds & Hsp).
    exists (Py.digits (- n)). repeat split; [done|done|lia].
  - destruct (digits_spelled n ltac:(lia)) as (Hne & Hds & Hsp).
    exists (Py.digits n). repeat split; [done|done|lia].
Qed.

(** [int(str(n))] is [n]; so it is after a space. *)
Lemma int_str_int (n : Z) :
  Py.int (Py.str_int n) = Ok n /\ Py.int (String " " (Py.str_int n)) = Ok n.
Proof.
  assert (Py.int (Py.str_int n) = Ok n) as Hint.
  { destruct (str_int_digits n) as (ds & Hne & Hds & Hsp & ->).
    destruct (int_digits ds Hne Hds) as [Hpos Hneg].
    destruct (Z.ltb_spec n 0); [rewrite Hneg|rewrite Hpos]; f_equal; lia. }
  split; [done|]. exact Hint.
Qed.

(** The text of an int holds none of the characters that end a field. *)
Lemma str_int_field (n : Z) (cs : list ascii) :
  existsb (Ascii.eqb "-") cs = false ->
  (forall c, Py.is_digit c = true -> existsb (Ascii.eqb c) cs = false) ->
  free_of cs (Py.str_int n) = true /\ Py.str_int n <> "".
Proof.
  intros Hminus Hdigits.
  destruct (str_int_digits n) as (ds & Hne & Hds & _ & ->).
  pose proof (all_chars_free_of _ cs ds Hdigits Hds) as Hfree.
  destruct (n <? 0); [|done]. cbn [free_of]. by rewrite Hminus, Hfree.
Qed.

End IntFacts.

(** ** The group of the ADC settings *)

Module AdcFacts.
Import Num B1520A CVSweep B1520A_methods Text ReFacts IntFacts ParserFacts.

(** The command of the group from its two values. *)
Lemma adc_group_command (mode coef : num) :
  Format.format adc_group_set_cmd [("adc_mode", mode); ("adc_coef", coef)]
  = Ok ("ACT " +:+ str mode +:+ "," +:+ str coef).
Proof.
  transitivity (Ok (A:=string) ("ACT " +:+ str mode +:+ "," +:+ str coef +:+ ""));
    [cbv - [str String.append]; reflexivity|]. by rewrite append_nil_r.
Qed.

Lemma digit_ends_no_field (c : ascii) :
  Py.is_digit c = true -> existsb (Ascii.eqb c) [Py.newline; ","%char] = false.
Proof.
  intros Hc. destruct c as [[] [] [] [] [] [] [] []]; try reflexivity;
    vm_compute in Hc; discriminate.
Qed.

(** X11. What setting a member of the ADC group writes reads back under
    the parser of the group: for any two ints, the command that the
    [set_cmd] of the group formats from them parses to the same two ints. *)
Theorem adc_group_round_trip (mode coef : Z) :
  (command ← Format.format adc_group_set_cmd
               [("adc_mode", Int mode); ("adc_coef", Int coef)];
   _get_adc_mode_parser command)
  = Ok [("adc_mode", Int mode); ("adc_coef", Int coef)].
Proof.
  rewrite adc_group_command. cbn [mbind result_bind str].
  destruct (str_int_field mode [Py.newline; ","%char] eq_refl digit_ends_no_field)
    as [Hmode Hmode'].
  destruct (str_int_field coef [Py.newline; ","%char] eq_refl digit_ends_no_field)
    as [Hcoef Hcoef'].
  pose proof (adc_mode_parser_fields "" (String " " (Py.str_int mode))
                (Py.str_int coef) "") as Hparse.
  rewrite (proj2 (int_str_int mode)), (proj1 (int_str_int coef)) in Hparse.
  rewrite append_nil_r in Hparse. apply Hparse.
  - reflexivity.
  - unfold field. cbn [String.eqb negb andb free_of].
    change (existsb (Ascii.eqb " ") [Py.newline; ","%char]) with false.
    cbn [negb andb]. exact Hmode.
  - unfold field. apply andb_true_iff. split.
    + destruct (Py.str_int coef); [done|reflexivity].
    + eapply free_of_weaken; [|exact Hcoef]. intros c [<-|[]]. by left.
  - reflexivity.
Qed.

End AdcFacts.

(** ** The data of a sweep *)

Module SweepDataFacts.
Import Num B1520A DriverFacts.

Lemma evens_lookup {A} (l : list A) (k : nat) : evens l !! k = l !! (2 * k)%nat.
Proof.
  revert l. induction k as [|k IH]; intros l.
  - by destruct l.
  - destruct l as [|x [|y l]]; [done|done|].
    replace (2 * S k)%nat with (S (S (2 * k))) by lia. cbn [evens lookup list_lookup].
    apply IH.
Qed.

Lemma odds_lookup {A} (l : list A) (k : nat) : odds l !! k = l !! (2 * k + 1)%nat.
Proof.
  destruct l as [|x l]; [done|]. cbn [odds]. rewrite evens_lookup.
  by replace (2 * k + 1)%nat with (S (2 * k)) by lia.
Qed.

Lemma evens_cons_cons {A} (x y : A) l : evens (x :: y :: l) = x :: evens l.
Proof. reflexivity. Qed.

(** [deal] from an even place on. *)
Lemma deal_evens_odds (no_str : list Float.float) :
  forall i param1 param2,
    deal i no_str param1 param2
    = if (i mod 2 =? 0)%nat
      then (param1 ++ evens no_str, param2 ++ odds no_str)
      else (param1 ++ odds no_str, param2 ++ evens no_str).
Proof.
  induction no_str as [|x l IH]; intros i param1 param2.
  - cbn [deal evens odds]. rewrite !app_nil_r. by destruct (i mod 2 =? 0)%nat.
  - cbn [deal]. rewrite !IH.
    assert ((S i mod 2 =? 0)%nat = negb (i mod 2 =? 0)%nat) as ->.
    { destruct (Nat.eqb_spec (i mod 2) 0), (Nat.eqb_spec (S i mod 2) 0);
        try done; lia_div. }
    destruct (i mod 2 =? 0)%nat; cbn [negb];
      rewrite <- !(assoc_L (++)); destruct l; reflexivity.
Qed.

(** A comprehension that returns kept the order of its elements. *)
Lemma mapM_lookup {A B} (f : A -> result B) (l : list A) (l' : list B) :
  mapM f l = Ok l' ->
  forall i x, l !! i = Some x -> exists y, f x = Ok y /\ l' !! i = Some y.
Proof.
  revert l'. induction l as [|a l IH]; intros l' Hm i x Hi; [by destruct i|].
  cbn in Hm. destruct (f a) as [b|] eqn:Eb; [|discriminate]. cbn in Hm.
  destruct (mapM f l) as [bs|] eqn:Ebs; [|discriminate]. cbn in Hm.
  injection Hm as <-. destruct i as [|i].
  - injection Hi as <-. eauto.
  - apply (IH bs eq_refl i x Hi).
Qed.

Lemma mapM_is_Ok {A B} (f : A -> result B) (l : list A) :
  is_Ok (mapM f l) = forallb (fun x => is_Ok (f x)) l.
Proof.
  induction l as [|a l IH]; [done|]. cbn.
  destruct (f a) as [b|]; [|done]. cbn. rewrite <- IH.
  by destruct (mapM f l).
Qed.

Lemma mapM_Raise {A B} (f : A -> result B) (l : list A) (e : exn) :
  mapM f l = Raise e -> exists x, In x l /\ f x = Raise e.
Proof.
  induction l as [|a l IH]; [done|]. cbn.
  destruct (f a) as [b|e'] eqn:Eb; cbn.
  - destruct (mapM f l) as [bs|e'] eqn:Ebs; cbn; [done|].
    intros [= ->]. destruct (IH eq_refl) as (x & Hx & Hf). exists x. by split; [right|].
  - intros [= ->]. exists a. by split; [left|].
Qed.

(** [float()] raises nothing but its ValueError. *)
Lemma exponent_Raise (s : string) (e : exn) :
  Float.exponent s = Raise e -> e = ValueError "could not convert string to float".
Proof.
  unfold Float.exponent, Float.bad_float. intros He.
  repeat case_match; congruence.
Qed.

Lemma of_str_Raise (s : string) (e : exn) :
  Float.of_str s = Raise e -> e = ValueError "could not convert string to float".
Proof.
  unfold Float.of_str, Float.bad_float. intros He.
  repeat case_match; try congruence;
    match goal with
    | H : context [Float.exponent ?s] |- _ =>
        destruct (Float.exponent s) eqn:Ee; cbn in H; [discriminate|];
        apply exponent_Raise in Ee; congruence
    end.
Qed.

(** X12. What [parse_sweep_data] returns when it returns: the two lists
    hold the values of the tokens in the order of the reply, the token at
    place [i] (from 0) at place [i / 2] of the first list when [i] is even
    and of the second when [i] is odd; the value of a token is [float] of
    what follows its first three characters, which are not looked at. *)
Theorem parse_sweep_data_interleaves (raw_data : string) param1 param2 :
  parse_sweep_data raw_data = Ok (param1, param2) ->
  forall (i : nat) (val : string),
    Py.split "," raw_data !! i = Some val ->
    exists x, Float.of_str (Py.drop_str 3 val) = Ok x
              /\ (if Nat.even i then param1 else param2) !! (i / 2)%nat = Some x.
Proof.
  unfold parse_sweep_data. intros Hparse i val Hi.
  destruct (mapM _ (Py.split "," raw_data)) as [no_str|] eqn:Hm; [|discriminate].
  cbn in Hparse. rewrite deal_evens_odds in Hparse. cbn in Hparse.
  injection Hparse as <- <-.
  destruct (mapM_lookup _ _ _ Hm i val Hi) as (x & Hx & Hl).
  exists x. split; [done|].
  destruct (Nat.even i) eqn:Ei.
  - apply Nat.even_spec in Ei as [k ->]. rewrite evens_lookup.
    replace (2 * k / 2)%nat with k by lia_div. done.
  - assert (Nat.odd i = true) as [k ->]%Nat.odd_spec
      by (rewrite <- Nat.negb_even; by rewrite Ei).
    rewrite odds_lookup. replace ((2 * k + 1) / 2)%nat with k by lia_div. done.
Qed.

(** The second of three tokens is the first value of the second list. *)
Lemma parse_sweep_data_interleaves_witness :
  exists x, Float.of_str (Py.drop_str 3 "NCY+2.0E+00") = Ok x
            /\ (if Nat.even 1
                then [Float.of_decimal false 1 0; Float.of_decimal false 3 0]
                else [Float.of_decimal false 2 0]) !! (1 / 2)%nat = Some x.
Proof.
  apply (parse_sweep_data_interleaves "NCC+1.0E+00,NCY+2.0E+00,NCC+3.0E+00"
           [Float.of_decimal false 1 0; Float.of_decimal false 3 0]
           [Float.of_decimal false 2 0]).
  - vm_compute. reflexivity.
  - vm_compute. reflexivity.
Defined.

(** X13. [parse_sweep_data] returns exactly when every token of the reply,
    its first three characters dropped, is the text of a float; otherwise it
    raises the ValueError of [float], and so it does on the empty reply,
    whose one token is empty. *)
Theorem parse_sweep_data_returns_iff (raw_data : string) :
  is_Ok (parse_sweep_data raw_data)
  = forallb (fun val => is_Ok (Float.of_str (Py.drop_str 3 val)))
            (Py.split "," raw_data)
  /\ (forall e, parse_sweep_data raw_data = Raise e ->
        e = ValueError "could not convert string to float")
  /\ parse_sweep_data "" = Raise (ValueError "could not convert string to float").
Proof.
  split; [|split; [|reflexivity]].
  - unfold parse_sweep_data. rewrite <- mapM_is_Ok.
    by destruct (mapM _ (Py.split "," raw_data)).
  - unfold parse_sweep_data. intros e He.
    destruct (mapM _ (Py.split "," raw_data)) as [no_str|e'] eqn:Hm; [discriminate|].
    cbn in He. injection He as ->.
    destruct (mapM_Raise _ _ _ Hm) as (x & _ & Hx). by apply of_str_Raise in Hx.
Qed.

End SweepDataFacts.

(** ** The methods of the module, further *)

Module MethodFacts.
Import Num B1520A CVSweep B1520A_methods Correction DriverFacts.

Section WithB1500.
Context `{B1500}.


(** X15. Whatever the instrument does, a read of the capacitance sends the
    MM command with the spot C mode and then the TC query, and changes
    nothing else of the module; it raises when no reply comes and returns
    what the reply parses to otherwise.  The measurement mode it has set
    is not set back. *)
Theorem get_capacitance_sends_two_messages (self : B1520A.B1520A) :
  _get_capacitance self
  = (match instrument self (written self ++ [mb_mm MM_Mode_SPOT_C [channels self]])
             (mb_tc (channels self) RangingMode_AUTO) with
     | Some response => parse_capacitance response
     | None => Raise VisaTimeout
     end, after_capacitance self).
Proof.
  unfold _get_capacitance, _set_measurement_mode, gets, lift.
  unfold mbind, SE_bind. rewrite write_eval. unfold ask. cbn.
  unfold after_capacitance, set_written. cbn. rewrite <- (assoc_L (++)). cbn.
  destruct (instrument self _ _) as [response|]; [|done].
  by destruct (parse_capacitance response).
Qed.

End WithB1500.

Section WithMessages.
Context `{Messages}.

(** X16. Lines 143-156, one setter after the other: once the automatic
    abort was set to a value that is false ([False], or a member of value
    0), setting the voltage after the sweep raises the warning, the value it
    had stays and no second command goes out; with any other value the two
    WMDCV commands go out, the second with the voltage condition. *)
Theorem post_sweep_voltage_needs_auto_abort (self : CVSweep.CVSweep)
    (val : auto_abort) (post : Z) :
  (_ ← _set_sweep_auto_abort val; _set_post_sweep_voltage_cond post) self
  = if abort_truthy val
    then (Ok tt,
          Channel_ val post
            (set_written (written (parent self)
                          ++ [mb_wmdcv val None; mb_wmdcv val (Some post)])
                         (parent self)))
    else (Raise (Warning "Enable auto abort before setting post sweep volatge."),
          Channel_ val (_post_sweep_voltage_cond self)
            (set_written (written (parent self) ++ [mb_wmdcv val None])
                         (parent self))).
Proof.
  unfold _set_sweep_auto_abort, _set_post_sweep_voltage_cond.
  unfold modify, gets, raise, on_parent, write, modify.
  unfold mbind, SE_bind. cbn.
  destruct (abort_truthy val); cbn; [|reflexivity].
  unfold set_parent, set_written. cbn. by rewrite <- (assoc_L (++)).
Qed.

(** A query by itself: the reply or the timeout, and the query is written. *)
Lemma ask_result (cmd : string) (self : B1520A.B1520A) :
  ask cmd self
  = (match instrument self (written self) cmd with
     | Some reply => Ok reply
     | None => Raise VisaTimeout
     end, set_written (written self ++ [cmd]) self).
Proof. unfold ask. by destruct (instrument self (written self) cmd). Qed.

Lemma perform_result (corr : Z) (self : B1520A.B1520A) :
  perform corr self
  = (response ← match instrument self (written self)
                        (mb_corr_query (channels self) corr) with
                | Some reply => Ok reply
                | None => Raise VisaTimeout
                end;
     n ← Py.int response; enum_member CORR_Response n,
     set_written (written self ++ [mb_corr_query (channels self) corr]) self).
Proof.
  unfold perform, gets, lift. unfold mbind at 1 2. unfold SE_bind.
  rewrite ask_result. by destruct (instrument self _ _).
Qed.

Lemma enable_result (corr : Z) (self : B1520A.B1520A) :
  enable corr self
  = (Ok tt, set_written (written self ++ [mb_corrst (channels self) corr true]) self).
Proof. reflexivity. Qed.

Lemma is_enabled_result (corr : Z) (self : B1520A.B1520A) :
  is_enabled corr self
  = (response ← match instrument self (written self)
                        (mb_corrst_query (channels self) corr) with
                | Some reply => Ok reply
                | None => Raise VisaTimeout
                end;
     n ← Py.int response; enum_member CORRST_Response n,
     set_written (written self ++ [mb_corrst_query (channels self) corr]) self).
Proof.
  unfold is_enabled, gets, lift. unfold mbind at 1 2. unfold SE_bind.
  rewrite ask_result. by destruct (instrument self _ _).
Qed.

(** X17. [perform_and_enable] enables the correction whatever status the
    measurement of the correction data returned: once [perform] has
    returned, the CORRST command that switches the correction on and the
    query of its state go out. *)
Theorem perform_and_enable_enables_whatever_the_status (self self1 : B1520A.B1520A)
    (corr : Z) (status : Z * string) :
  perform corr self = (Ok status, self1) ->
  exists r self',
    perform_and_enable corr self = (r, self')
    /\ written self'
       = written self1 ++ [mb_corrst (channels self) corr true;
                           mb_corrst_query (channels self) corr].
Proof.
  intros Hperform.
  assert (channels self1 = channels self) as Hch.
  { rewrite perform_result in Hperform. by injection Hperform as _ <-. }
  unfold perform_and_enable.
  erewrite SE_bind_Ok by exact Hperform.
  erewrite SE_bind_Ok by apply enable_result.
  unfold mbind at 1. unfold SE_bind.
  rewrite is_enabled_result. cbn [channels set_written written]. rewrite Hch.
  rewrite <- (assoc_L (++)). cbn [app].
  destruct (_ ≫= _) as [enabled|e]; eexists _, _; (split; [reflexivity|]); done.
Qed.

End WithMessages.


(** The three RC commands on a fresh module. *)
Example fixed_range_commands :
  ((_ ← @_set_measurement_range_for_non_auto example_b1500 (Some 50);
    _ ← @_set_ranging_mode example_b1500 (@RangingMode_AUTO example_b1500);
    @_set_ranging_mode example_b1500 2) (fresh_module "")).2.(written)
  = ["RC 3,0,50"; "RC 3,0"; "RC 3,2"].
Proof. vm_compute. reflexivity. Qed.

(** The correction fails (status 1), and is enabled. *)
Lemma perform_and_enable_enables_whatever_the_status_witness :
  exists r self',
    @perform_and_enable example_messages 1 (fresh_module "1") = (r, self')
    /\ written self'
       = written (set_written ["CORR? 3,1"] (fresh_module "1"))
         ++ [@mb_corrst example_messages (channels (fresh_module "1")) 1 true;
             @mb_corrst_query example_messages (channels (fresh_module "1")) 1].
Proof.
  apply (@perform_and_enable_enables_whatever_the_status example_messages
           (fresh_module "1") (set_written ["CORR? 3,1"] (fresh_module "1")) 1
           (1, "FAILED")).
  vm_compute. reflexivity.
Defined.

Example perform_and_enable_after_a_failure :
  (@perform_and_enable example_messages 1 (fresh_module "1")).1
  = Ok "Correction status FAILED and Enable ON"
  /\ written (@perform_and_enable example_messages 1 (fresh_module "1")).2
     = ["CORR? 3,1"; "CORRST 3,1,1"; "CORRST? 3,1"].
Proof. split; vm_compute; reflexivity. Qed.

End MethodFacts.

(** ** The sweep voltages, further *)

Module SweepFacts.
Import Num B1520A DriverFacts.

(** A half list, maybe a value in the middle, the half list backwards: the
    same read backwards. *)
Lemma reverse_two_way {A} (half middle : list A) :
  reverse middle = middle ->
  reverse (half ++ middle ++ reverse half) = half ++ middle ++ reverse half.
Proof.
  intros Hm. by rewrite !reverse_app, reverse_involutive, Hm, <- (assoc_L (++)).
Qed.

Section WithNumpy.
Context `{Numpy} `{B1500}.

(** The two-way sweeps for any number of steps. *)
Lemma two_way_sweep (half_of : Z -> bool -> result (list Float.float))
    (end_ : num) (n : Z) :
  0 <= n ->
  (forall k endpoint, 0 <= k ->
     exists y, half_of k endpoint = Ok y /\ length y = Z.to_nat k) ->
  exists sweep,
    (if n mod 2 =? 0
     then half_list ← half_of (n / 2) true;
          Ok (map Flt half_list ++ reverse (map Flt half_list))
     else half_list ← half_of (n / 2) false;
          Ok (map Flt half_list ++ [end_] ++ reverse (map Flt half_list)))
    = Ok sweep
    /\ length sweep = Z.to_nat n /\ reverse sweep = sweep.
Proof.
  intros Hn Hhalf. assert (0 <= n / 2) as Hk by lia_div.
  destruct (Z.eqb_spec (n mod 2) 0) as [Heven|Hodd].
  - destruct (Hhalf (n / 2) true Hk) as (y & -> & Hlen). eexists.
    split; [reflexivity|]. split.
    + rewrite length_app, length_reverse, length_map, Hlen. lia_div.
    + apply (reverse_two_way (map Flt y) []). reflexivity.
  - destruct (Hhalf (n / 2) false Hk) as (y & -> & Hlen). eexists.
    split; [reflexivity|]. split.
    + rewrite !length_app, length_reverse, length_map, Hlen. cbn [length]. lia_div.
    + apply (reverse_two_way (map Flt y) [end_]). reflexivity.
Qed.

(** X18. The two-way sweeps, for any number of steps [n >= 0], odd or
    even: in mode 3, and in mode 4 when the start and the end have the same
    sign or one of them is zero, the read returns [n] voltages that read
    the same backwards (with an even [n] the two in the middle are the last
    point of the half sweep, twice). *)
Theorem cv_sweep_voltages_two_way_symmetric self response chan mode start end_ n :
  answers self response ->
  _get_sweep_steps_parser response = Ok (settings chan mode start end_ n) ->
  0 <= n ->
  mode = 3 \/ (mode = 4 /\ polarity_ok start end_ = true) ->
  exists sweep self',
    _cv_sweep_voltages self = (Ok sweep, self')
    /\ length sweep = Z.to_nat n
    /\ reverse sweep = sweep.
Proof.
  intros Ha Hp Hn Hmode.
  destruct (_cv_sweep_voltages_eval self response chan mode start end_ n Ha Hp)
    as (self' & ->).
  destruct Hmode as [-> | [-> Hpol]].
  - destruct (two_way_sweep (Np.linspace start end_) (Flt end_) n Hn)
      as (sweep & Hs & Hlen & Hrev).
    { intros k endpoint Hk. by apply linspace_Ok. }
    exists sweep, self'. split; [|done]. f_equal.
    change (sweep_voltages_of 3 start end_ n)
      with (linear_2way_sweep (Flt start) (Flt end_) (Int n)).
    unfold linear_2way_sweep. cbn [index mbind result_bind to_float].
    rewrite <- Hs. by destruct (n mod 2 =? 0).
  - destruct (two_way_sweep (Np.logspace (np_log10 start) (np_log10 end_))
                (Flt end_) n Hn) as (sweep & Hs & Hlen & Hrev).
    { intros k endpoint Hk. by apply logspace_Ok. }
    exists sweep, self'. split; [|done]. f_equal.
    unfold sweep_voltages_of. cbn [Z.eqb Pos.eqb orb].
    rewrite check_polarity_floats, Hpol.
    change (Ok (Flt start, Flt end_) ≫= _)
      with (log_2way_sweep (Flt start) (Flt end_) (Int n)).
    unfold log_2way_sweep. cbn [index mbind result_bind to_float].
    rewrite <- Hs. by destruct (n mod 2 =? 0).
Qed.

(** X19. A sweep mode that is none of 1, 2, 3 and 4 has no entry in
    [modes]: the settings being read, the voltages raise KeyError with that
    mode. *)
Theorem cv_sweep_voltages_unknown_mode self response chan mode start end_ n :
  answers self response ->
  _get_sweep_steps_parser response = Ok (settings chan mode start end_ n) ->
  mode <> 1 -> mode <> 2 -> mode <> 3 -> mode <> 4 ->
  exists self',
    _cv_sweep_voltages self = (Raise (KeyError (Py.str_int mode)), self').
Proof.
  intros Ha Hp H1 H2 H3 H4.
  destruct (_cv_sweep_voltages_eval self response chan mode start end_ n Ha Hp)
    as (self' & ->).
  exists self'. f_equal. unfold sweep_voltages_of, modes. cbn [eqb].
  apply Z.eqb_neq in H1, H2, H3, H4. rewrite H1, H2, H3, H4. reflexivity.
Qed.

End WithNumpy.

Lemma cv_sweep_voltages_two_way_symmetric_witness :
  exists sweep self',
    @_cv_sweep_voltages example_numpy example_b1500 (fresh_module "WDCV3,3,0.0,1.0,4")
    = (Ok sweep, self')
    /\ length sweep = Z.to_nat 4
    /\ reverse sweep = sweep.
Proof.
  apply (@cv_sweep_voltages_two_way_symmetric example_numpy example_b1500
           (fresh_module "WDCV3,3,0.0,1.0,4") "WDCV3,3,0.0,1.0,4" 3 3 f0 f1 4).
  - intros sent. reflexivity.
  - vm_compute. reflexivity.
  - lia.
  - by left.
Defined.

Lemma cv_sweep_voltages_unknown_mode_witness :
  exists self',
    @_cv_sweep_voltages example_numpy example_b1500 (fresh_module "WDCV3,5,0.0,1.0,4")
    = (Raise (KeyError (Py.str_int 5)), self').
Proof.
  apply (@cv_sweep_voltages_unknown_mode example_numpy example_b1500
           (fresh_module "WDCV3,5,0.0,1.0,4") "WDCV3,5,0.0,1.0,4" 3 5 f0 f1 4).
  - intros sent. reflexivity.
  - vm_compute. reflexivity.
  - lia.
  - lia.
  - lia.
  - lia.
Defined.

(** Two-way sweeps of 4 and of 2 steps from 0.0 to 1.0: with 4 steps the
    end comes twice, with 2 steps the sweep stays at the start. *)
Example cv_sweep_voltages_even_steps :
  (@_cv_sweep_voltages example_numpy example_b1500 (fresh_module "WDCV3,3,0.0,1.0,4")).1
  = Ok (map Flt [f0; f1; f1; f0])
  /\ (@_cv_sweep_voltages example_numpy example_b1500
        (fresh_module "WDCV3,3,0.0,1.0,2")).1
     = Ok (map Flt [f0; f0]).
Proof. split; vm_compute; reflexivity. Qed.

Section WithNumpy.
Context `{Numpy} `{B1500}.

Lemma written_refreshed (ret : list (string * num)) (self : B1520A.B1520A) (k : nat) :
  written (Nat.iter k (refreshed ret) self)
  = written self ++ replicate k _get_sweep_steps.
Proof.
  induction k as [|k IH]; [by rewrite app_nil_r|].
  assert (forall s, written (refreshed ret s) = written s ++ [_get_sweep_steps])
    as Hw by reflexivity.
  change (Nat.iter (S k) (refreshed ret) self)
    with (refreshed ret (Nat.iter k (refreshed ret) self)).
  rewrite Hw, IH, <- (assoc_L (++)). f_equal.
  change (replicate k _get_sweep_steps ++ [_get_sweep_steps])
    with (replicate k _get_sweep_steps ++ replicate 1 _get_sweep_steps).
  rewrite <- replicate_add. f_equal. lia.
Qed.

Lemma answers_iter self response ret (k : nat) :
  answers self response -> answers (Nat.iter k (refreshed ret) self) response.
Proof. intros Ha. induction k; [done|]. by apply answers_refreshed. Qed.

(** X20. Every read of a setting of the sweep is a query of its own: when
    the instrument answers and the polarity check passes, one read of the
    sweep voltages sends the query of the sweep settings six times, and
    seven times in mode 4, and nothing else. *)
Theorem cv_sweep_voltages_queries self response chan mode start end_ n :
  answers self response ->
  _get_sweep_steps_parser response = Ok (settings chan mode start end_ n) ->
  (mode = 2 \/ mode = 4 -> polarity_ok start end_ = true) ->
  exists r self',
    _cv_sweep_voltages self = (r, self')
    /\ written self'
       = written self ++ replicate (if mode =? 4 then 7 else 6) _get_sweep_steps.
Proof.
  intros Ha Hp Hpol.
  set (ret := settings chan mode start end_ n).
  assert (forall k name v,
            (list_to_map ret : gmap string num) !! name = Some v ->
            group_get name (Nat.iter k (refreshed ret) self)
            = (Ok v, Nat.iter (S k) (refreshed ret) self)) as Hget.
  { intros k name v Hv.
    apply (group_get_eval _ response ret name v); [by apply answers_iter|done|done]. }
  unfold _cv_sweep_voltages.
  erewrite SE_bind_Ok by (apply (Hget 0%nat "sweep_start" (Flt start)); reflexivity).
  erewrite SE_bind_Ok by (apply (Hget 1%nat "sweep_end" (Flt end_)); reflexivity).
  erewrite SE_bind_Ok by (apply (Hget 2%nat "sweep_steps" (Int n)); reflexivity).
  erewrite SE_bind_Ok by (apply (Hget 3%nat "sweep_mode" (Int mode)); reflexivity).
  change (eqb (Int mode) (Int 2)) with (mode =? 2).
  destruct (Z.eqb_spec mode 2) as [->|Hne2].
  - (* mode 2 *)
    cbv iota. erewrite SE_bind_Ok by reflexivity. cbv iota beta.
    erewrite SE_bind_Ok.
    2:{ erewrite SE_bind_Ok by (apply (Hget 4%nat "sweep_end" (Flt end_)); reflexivity).
        unfold lift. rewrite check_polarity_floats, Hpol by (by left). reflexivity. }
    cbv iota beta.
    erewrite SE_bind_Ok by (apply (Hget 5%nat "sweep_mode" (Int 2)); reflexivity).
    unfold lift, mbind, SE_bind.
    destruct (modes (Int 2)) as [sweep|e]; [|eexists _, _; split;
      [reflexivity|apply written_refreshed]].
    destruct (sweep (Flt start) (Flt end_) (Int n)); eexists _, _;
      (split; [reflexivity|apply written_refreshed]).
  - erewrite SE_bind_Ok.
    2:{ erewrite SE_bind_Ok by (apply (Hget 4%nat "sweep_mode" (Int mode)); reflexivity).
        reflexivity. }
    change (eqb (Int mode) (Int 4)) with (mode =? 4).
    destruct (Z.eqb_spec mode 4) as [->|Hne4].
    + cbv iota beta. erewrite SE_bind_Ok.
      2:{ erewrite SE_bind_Ok by (apply (Hget 5%nat "sweep_end" (Flt end_)); reflexivity).
          unfold lift. rewrite check_polarity_floats, Hpol by (by right).
          reflexivity. }
      cbv iota beta.
      erewrite SE_bind_Ok by (apply (Hget 6%nat "sweep_mode" (Int 4)); reflexivity).
      unfold lift, mbind, SE_bind.
      destruct (modes (Int 4)) as [sweep|e]; [|eexists _, _; split;
        [reflexivity|apply written_refreshed]].
      destruct (sweep (Flt start) (Flt end_) (Int n)); eexists _, _;
        (split; [reflexivity|apply written_refreshed]).
    + cbv iota beta. erewrite SE_bind_Ok by reflexivity. cbv iota beta.
      erewrite SE_bind_Ok by (apply (Hget 5%nat "sweep_mode" (Int mode)); reflexivity).
      unfold lift, mbind, SE_bind.
      destruct (modes (Int mode)) as [sweep|e]; [|eexists _, _; split;
        [reflexivity|apply written_refreshed]].
      destruct (sweep (Flt start) (Flt end_) (Int n)); eexists _, _;
        (split; [reflexivity|apply written_refreshed]).
Qed.

End WithNumpy.

Lemma cv_sweep_voltages_queries_witness :
  exists r self',
    @_cv_sweep_voltages example_numpy example_b1500
      (fresh_module "WDCV3,4,1.0,10.0,5") = (r, self')
    /\ written self'
       = written (fresh_module "WDCV3,4,1.0,10.0,5")
         ++ replicate (if 4 =? 4 then 7 else 6) (@_get_sweep_steps example_b1500).
Proof.
  apply (@cv_sweep_voltages_queries example_numpy example_b1500
           (fresh_module "WDCV3,4,1.0,10.0,5") "WDCV3,4,1.0,10.0,5" 3 4 f1
           (Float.of_decimal false 1 1) 5).
  - intros sent. reflexivity.
  - vm_compute. reflexivity.
  - intros _. vm_compute. reflexivity.
Defined.

(** A linear sweep of three steps, and what went out for it. *)
Example cv_sweep_voltages_linear_queries :
  @_cv_sweep_voltages example_numpy example_b1500 (fresh_module "WDCV3,1,0.0,1.0,3")
  = (Ok (map Flt [f0; Float.of_decimal false 5 (-1); f1]),
     set_parameters
       (list_to_map (settings 3 1 f0 f1 3))
       (set_written ["*LRN? 61"; "*LRN? 61"; "*LRN? 61"; "*LRN? 61"; "*LRN? 61";
                     "*LRN? 61"]
          (fresh_module "WDCV3,1,0.0,1.0,3"))).
Proof. vm_compute. reflexivity. Qed.

End SweepFacts.

(** ** The setup of the sweep *)

Module SetupFacts.
Import Num B1520A CVSweep B1520A_methods DriverFacts ReFacts IntFacts.









Section WithMessages.
Context `{B1500} `{Messages} `{Mainframe}.


(** X22. When the settings of lines 643-664 all go through and the
    mainframe returns its error message, the call raises the AttributeError
    of line 669, after it has set [setup_fnc_already_run] when (and only
    when) the message is [+0,"No Error."]: otherwise the flag is what it
    was. *)
Theorem setup_staircase_cv_sets_the_flag v_start v_end n_steps freq ac_rms
    post_sweep_voltage_cond adc_mode adc_coef imp_model ranging_mode
    fixed_range_val hold_delay delay step_delay trigger_delay measure_delay
    abort_enabled sweep_mode volt_monitor (self self1 : CVSweep.CVSweep)
    (err : string) (w : list string) :
  staircase_settings v_start v_end n_steps freq ac_rms
    post_sweep_voltage_cond adc_mode adc_coef imp_model ranging_mode
    fixed_range_val hold_delay delay step_delay trigger_delay
    measure_delay abort_enabled sweep_mode volt_monitor self = (Ok tt, self1) ->
  error_message (written (parent self1), instrument (parent self1)) = (Ok err, w) ->
  exists self',
    setup_staircase_cv v_start v_end n_steps freq ac_rms
      post_sweep_voltage_cond adc_mode adc_coef imp_model ranging_mode
      fixed_range_val hold_delay delay step_delay trigger_delay
      measure_delay abort_enabled sweep_mode volt_monitor self
    = (Raise (AttributeError "self"), self')
    /\ setup_fnc_already_run (parent self')
       = (if String.eqb err no_error then true
          else setup_fnc_already_run (parent self1))
    /\ written (parent self') = w.
Proof.
  intros Hsettings Herr. unfold setup_staircase_cv.
  erewrite SE_bind_Ok by exact Hsettings.
  assert (on_parent (on_link error_message) self1
          = (Ok err, set_parent (set_written w (parent self1)) self1)) as Hask.
  { unfold on_parent, on_link. by rewrite Herr. }
  erewrite SE_bind_Ok by exact Hask.
  destruct (String.eqb err no_error); eexists; (split; [reflexivity|]); done.
Qed.

End WithMessages.

Lemma setup_staircase_cv_sets_the_flag_witness :
  exists self',
    @setup_staircase_cv example_b1500 example_messages example_mainframe
      (Flt f0) (Flt f1) 11 (Int 1000000) (Flt (Float.of_decimal false 25 (-2)))
      2 2 5 101 0 None (Int 0) (Int 0) (Int 0) (Int 0) (Int 0)
      (AbortEnum 2) 1 false (fresh_sweep no_error)
    = (Raise (AttributeError "self"), self')
    /\ setup_fnc_already_run (parent self')
       = (if String.eqb no_error no_error then true else false)
    /\ written (parent self')
       = ["CN 3"; "ACT 2,1"; "ACT 2,5"; "FC 3,1000000"; "ACV 3,0.25"; "WMDCV 2";
          "WMDCV 2,2"; "WTDCV 0,0,0,0,0"; "WTDCV 0,0,0,0,0"; "WTDCV 0,0,0,0,0";
          "WTDCV 0,0,0,0,0"; "WTDCV 0,0,0,0,0"; "WDCV 3,1,0,0,1";
          "WDCV 3,1,0.0,0,1"; "WDCV 3,1,0.0,1.0,1"; "WDCV 3,1,0.0,1.0,11";
          "MM 18,3"; "IMP 101"; "LMN 0"; "RC 3,0"; "RC 3,0"; "ERRX?"].
Proof.
  apply (@setup_staircase_cv_sets_the_flag example_b1500 example_messages
           example_mainframe
           (Flt f0) (Flt f1) 11 (Int 1000000) (Flt (Float.of_decimal false 25 (-2)))
           2 2 5 101 0 None (Int 0) (Int 0) (Int 0) (Int 0) (Int 0)
           (AbortEnum 2) 1 false (fresh_sweep no_error)
           (@staircase_settings example_b1500 example_messages example_mainframe
              (Flt f0) (Flt f1) 11 (Int 1000000)
              (Flt (Float.of_decimal false 25 (-2)))
              2 2 5 101 0 None (Int 0) (Int 0) (Int 0) (Int 0) (Int 0)
              (AbortEnum 2) 1 false (fresh_sweep no_error)).2
           no_error).
  - vm_compute. reflexivity.
  - vm_compute. reflexivity.
Defined.

Section WithMessages.
Context `{B1500} `{Messages} `{Mainframe}.







End WithMessages.


(** The commands of this setup as they go out: AUTO ranging, and a range
    in the last of them. *)
Example staircase_settings_trace :
  written (parent
    (@staircase_settings example_b1500 example_messages example_mainframe
       (Flt f0) (Flt f1) 11 (Int 1000000) (Flt (Float.of_decimal false 25 (-2)))
       2 2 5 101 0 (Some 50) (Int 0) (Int 0) (Int 0) (Int 0) (Int 0)
       (AbortEnum 2) 1 false (fresh_sweep no_error)).2)
  = ["CN 3"; "ACT 2,1"; "ACT 2,5"; "FC 3,1000000"; "ACV 3,0.25"; "WMDCV 2";
     "WMDCV 2,2"; "WTDCV 0,0,0,0,0"; "WTDCV 0,0,0,0,0"; "WTDCV 0,0,0,0,0";
     "WTDCV 0,0,0,0,0"; "WTDCV 0,0,0,0,0"; "WDCV 3,1,0,0,1"; "WDCV 3,1,0.0,0,1";
     "WDCV 3,1,0.0,1.0,1"; "WDCV 3,1,0.0,1.0,11"; "MM 18,3"; "IMP 101"; "LMN 0";
     "RC 3,0"; "RC 3,0,50"].
Proof. vm_compute. reflexivity. Qed.

End SetupFacts.

(** ** Readings and the capacitance *)

Module CapFacts.
Import Num B1520A Text Reading ReFacts IntFacts.

Section Matcher.
Context {A : Type}.

Lemma run_digits lo h s g (k : string -> Re.groups -> option A) :
  Re.run (Re.between lo h Re.DigitChar) s g k
  = greedy_digits lo h k (S (String.length s)) 0%nat s g.
Proof. reflexivity. Qed.

Lemma run_two_digits s g (k : string -> Re.groups -> option A) :
  Re.run (Re.times 2 Re.DigitChar) s g k
  = greedy_digits 2 2 k (S (String.length s)) 0%nat s g.
Proof. reflexivity. Qed.

(** [\d{lo,hi}] takes a run of digits whole when what follows the pattern
    accepts the rest. *)
Lemma greedy_digits_all lo h (k : string -> Re.groups -> option A) rest g a ds :
  all_chars Py.is_digit ds = true ->
  k rest g = Some a ->
  forall fuel count,
    (String.length ds < fuel)%nat ->
    (lo <= count + String.length ds <= h)%nat ->
    (count + String.length ds = h \/ Re.match1 Py.is_digit rest = None)%nat ->
    greedy_digits lo h k fuel count (ds +:+ rest) g = Some a.
Proof.
  induction ds as [|c ds IH]; intros Hds Hk fuel count Hfuel Hcount Hstop.
  - destruct fuel as [|fuel]; [simpl in Hfuel; lia|]. simpl in Hcount.
    rewrite append_nil. cbn [greedy_digits].
    assert ((if (count <? h)%nat
             then Re.run Re.DigitChar rest g (fun s' g' =>
                    if (String.length s' <? String.length rest)%nat
                    then greedy_digits lo h k fuel (S count) s' g' else None)
             else None) = None) as ->.
    { destruct (Nat.ltb_spec count h) as [Hlt|]; [|done].
      destruct Hstop as [Heq|Hnone]; [simpl in Heq; lia|].
      cbn [Re.run]. by rewrite Hnone. }
    destruct (Nat.leb_spec lo count); [done|lia].
  - destruct fuel as [|fuel]; [simpl in Hfuel; lia|].
    cbn [all_chars] in Hds. apply andb_true_iff in Hds as [Hc Hds].
    simpl in Hcount, Hfuel, Hstop. rewrite append_cons. cbn [greedy_digits].
    destruct (Nat.ltb_spec count h) as [_|]; [|lia].
    cbn [Re.run Re.match1]. rewrite Hc. cbn [mbind option_bind].
    assert ((String.length (ds +:+ rest) <? String.length (String c (ds +:+ rest)))%nat
            = true) as -> by (apply Nat.ltb_lt; simpl; lia).
    rewrite IH; [done|done|done|lia|lia|]. destruct Hstop; [left; lia|by right].
Qed.

Lemma value_ok_inv sign ip fp esign e1 e2 :
  value_ok sign ip fp esign e1 e2 = true ->
  is_sign sign = true /\ all_chars Py.is_digit ip = true
  /\ (1 <= String.length ip <= 3)%nat
  /\ all_chars Py.is_digit fp = true /\ (3 <= String.length fp <= 6)%nat
  /\ is_sign esign = true /\ Py.is_digit e1 = true /\ Py.is_digit e2 = true.
Proof.
  unfold value_ok. rewrite !andb_true_iff, !Nat.leb_le. tauto.
Qed.

Lemma value_text_append sign ip fp esign e1 e2 rest :
  value_text sign ip fp esign e1 e2 +:+ rest
  = String sign
      (ip +:+ String "."
         (fp +:+ String "E" (String esign (String e1 (String e2 rest))))).
Proof.
  unfold value_text. rewrite append_cons, append_assoc, append_cons, append_assoc.
  by rewrite !append_cons, append_nil.
Qed.

(** The pattern of a value on the text of a value. *)
Lemma run_value sign ip fp esign e1 e2 rest g
    (k : string -> Re.groups -> option A) a :
  value_ok sign ip fp esign e1 e2 = true ->
  k rest (("value", value_text sign ip fp esign e1 e2) :: g) = Some a ->
  Re.run (Re.Named "value"
            (Re.cat [Re.OneOf sign_chars; Re.between 1 3 Re.DigitChar; Re.Chr ".";
                     Re.between 3 6 Re.DigitChar; Re.Chr "E"; Re.OneOf sign_chars;
                     Re.times 2 Re.DigitChar]))
    (value_text sign ip fp esign e1 e2 +:+ rest) g k = Some a.
Proof.
  intros (Hsign & Hip & Hiplen & Hfp & Hfplen & Hesign & He1 & He2)%value_ok_inv Hk.
  cbn [Re.cat].
  set (k' := fun s' g' =>
    k s' (("value",
           Py.take_str (String.length (value_text sign ip fp esign e1 e2 +:+ rest)
                        - String.length s')
             (value_text sign ip fp esign e1 e2 +:+ rest)) :: g')).
  change (Re.run (Re.Named "value" ?r) ?s ?g k) with (Re.run r s g k').
  rewrite value_text_append.
  change (Re.run (Re.Cat ?r1 ?r2) ?s ?g ?k)
    with (Re.run r1 s g (fun s' g' => Re.run r2 s' g' k)).
  cbn [Re.run Re.match1]. unfold is_sign in Hsign. rewrite Hsign.
  cbn [mbind option_bind].
  rewrite run_digits. apply greedy_digits_all; [done| |rewrite length_append; lia
    |lia|by right].
  cbn [Re.match1 Ascii.eqb Bool.eqb mbind option_bind].
  rewrite run_digits. apply greedy_digits_all; [done| |rewrite length_append; lia
    |lia|by right].
  cbn [Re.match1 Ascii.eqb Bool.eqb mbind option_bind].
  unfold is_sign in Hesign. rewrite Hesign. cbn [mbind option_bind].
  rewrite run_two_digits.
  apply (greedy_digits_all 2 2 k' rest g a (String e1 (String e2 "")));
    [cbn; by rewrite He1, He2| |cbn; lia|cbn; lia|left; cbn; lia].
  subst k'. cbv beta. by rewrite take_append.
Qed.

End Matcher.

(** [r?] takes [r] when what follows accepts the rest. *)
Lemma run_opt_taken {A} r s g (k : string -> Re.groups -> option A) a :
  Re.run r s g (fun s' g' =>
    if (String.length s' <? String.length s)%nat then k s' g' else None) = Some a ->
  Re.run (Re.opt r) s g k = Some a.
Proof.
  intros Hr. destruct s as [|c s].
  - change (Re.run (Re.opt r) "" g k)
      with (match Re.run r "" g (fun s' g' =>
                    if (String.length s' <? String.length "")%nat
                    then k s' g' else None) with
            | Some a => Some a
            | None => k "" g
            end). by rewrite Hr.
  - change (Re.run (Re.opt r) (String c s) g k)
      with (match Re.run r (String c s) g (fun s' g' =>
                    if (String.length s' <? String.length (String c s))%nat
                    then k s' g' else None) with
            | Some a => Some a
            | None => k (String c s) g
            end). by rewrite Hr.
Qed.

(** A named [\w]. *)
Lemma run_named_word {A} name (c : ascii) s g (k : string -> Re.groups -> option A) :
  Py.is_word c = true ->
  Re.run (Re.Named name Re.WordChar) (String c s) g k
  = k s ((name, String c "") :: g).
Proof.
  intros Hc. cbn [Re.run Re.match1]. rewrite Hc. cbn [mbind option_bind String.length].
  replace (S (String.length s) - String.length s)%nat with 1%nat by lia.
  reflexivity.
Qed.

(** The pattern of a reading at the head of a reading: three tag
    characters and a value. *)
Lemma match_at_reading (st ch dt : ascii) sign ip fp esign e1 e2 rest :
  Py.is_word st = true -> Py.is_word ch = true -> Py.is_word dt = true ->
  value_ok sign ip fp esign e1 e2 = true ->
  Re.match_at _pattern
    (String st (String ch (String dt (value_text sign ip fp esign e1 e2 +:+ rest))))
  = Some (Re.Match [("value", value_text sign ip fp esign e1 e2);
                    ("dtype", String dt ""); ("chnr", String ch "");
                    ("status", String st "")]
            (String st (String ch (String dt (value_text sign ip fp esign e1 e2))))
            rest).
Proof.
  intros Hst Hch Hdt Hv. unfold Re.match_at, _pattern.
  change (Re.run (Re.Cat ?r1 ?r2) ?s ?g ?k)
    with (Re.run r1 s g (fun s' g' => Re.run r2 s' g' k)).
  apply run_opt_taken. cbn [Re.cat].
  change (Re.run (Re.Cat ?r1 ?r2) ?s ?g ?k)
    with (Re.run r1 s g (fun s' g' => Re.run r2 s' g' k)).
  rewrite run_named_word by done.
  change (Re.run (Re.Cat ?r1 ?r2) ?s ?g ?k)
    with (Re.run r1 s g (fun s' g' => Re.run r2 s' g' k)).
  rewrite run_named_word by done. rewrite run_named_word by done.
  assert ((String.length (value_text sign ip fp esign e1 e2 +:+ rest)
           <? String.length
                (String st (String ch (String dt
                   (value_text sign ip fp esign e1 e2 +:+ rest)))))%nat = true)
    as -> by (apply Nat.ltb_lt; cbn [String.length]; lia).
  apply run_value; [done|]. f_equal. f_equal.
  apply (take_append
    (String st (String ch (String dt (value_text sign ip fp esign e1 e2)))) rest).
Qed.


(** Where the pattern cannot match: no sign at the head, and none after
    three characters. *)
Lemma run_value_no_sign {A} s g (k : string -> Re.groups -> option A) :
  match s with String c _ => is_sign c = false | EmptyString => True end ->
  Re.run (Re.Named "value"
            (Re.cat [Re.OneOf sign_chars; Re.between 1 3 Re.DigitChar; Re.Chr ".";
                     Re.between 3 6 Re.DigitChar; Re.Chr "E"; Re.OneOf sign_chars;
                     Re.times 2 Re.DigitChar])) s g k = None.
Proof.
  intros Hs. cbn [Re.cat].
  generalize (Re.Cat (Re.between 1 3 Re.DigitChar)
                (Re.Cat (Re.Chr ".")
                   (Re.Cat (Re.between 3 6 Re.DigitChar)
                      (Re.Cat (Re.Chr "E")
                         (Re.Cat (Re.OneOf sign_chars) (Re.times 2 Re.DigitChar)))))).
  intros r. destruct s as [|c s]; cbn [Re.run Re.match1]; [done|].
  unfold is_sign in Hs. by rewrite Hs.
Qed.

Lemma run_opt_None {A} r s g (k : string -> Re.groups -> option A) :
  Re.run r s g (fun s' g' =>
    if (String.length s' <? String.length s)%nat then k s' g' else None) = None ->
  k s g = None ->
  Re.run (Re.opt r) s g k = None.
Proof.
  intros Hr Hk. destruct s as [|c s].
  - change (Re.run (Re.opt r) "" g k)
      with (match Re.run r "" g (fun s' g' =>
                    if (String.length s' <? String.length "")%nat
                    then k s' g' else None) with
            | Some a => Some a
            | None => k "" g
            end). by rewrite Hr.
  - change (Re.run (Re.opt r) (String c s) g k)
      with (match Re.run r (String c s) g (fun s' g' =>
                    if (String.length s' <? String.length (String c s))%nat
                    then k s' g' else None) with
            | Some a => Some a
            | None => k (String c s) g
            end). by rewrite Hr.
Qed.

Lemma match_at_no_sign (s : string) :
  match s with String c _ => is_sign c = false | EmptyString => True end ->
  match s with
  | String _ (String _ (String _ (String d _))) => is_sign d = false
  | _ => True
  end ->
  Re.match_at _pattern s = None.
Proof.
  intros H0 H3. unfold Re.match_at, _pattern.
  change (Re.run (Re.Cat ?r1 ?r2) ?s ?g ?k)
    with (Re.run r1 s g (fun s' g' => Re.run r2 s' g' k)).
  apply run_opt_None; [|by apply run_value_no_sign].
  cbn [Re.cat].
  set (v := Re.Named "value" _).
  change (Re.run (Re.Cat ?r1 ?r2) ?s ?g ?k)
    with (Re.run r1 s g (fun s' g' => Re.run r2 s' g' k)).
  destruct s as [|a [|b [|c s]]]; cbn [Re.run Re.match1]; [done| | |].
  - by destruct (Py.is_word a).
  - destruct (Py.is_word a); [|done]. cbn [mbind option_bind Re.run Re.match1].
    by destruct (Py.is_word b).
  - destruct (Py.is_word a); [|done]. cbn [mbind option_bind Re.run Re.match1].
    destruct (Py.is_word b); [|done]. cbn [mbind option_bind Re.run Re.match1].
    destruct (Py.is_word c); [|done]. cbn [mbind option_bind].
    destruct (_ <? _)%nat; [|done]. subst v. by apply run_value_no_sign.
Qed.

Lemma word_no_sign (c : ascii) : Py.is_word c = true -> is_sign c = false.
Proof.
  intros Hc. destruct c as [[] [] [] [] [] [] [] []]; try reflexivity;
    vm_compute in Hc; discriminate.
Qed.

(** No reading in a text without a sign. *)
Lemma search_no_sign (s : string) :
  free_of sign_chars s = true -> Re.search _pattern s = None.
Proof.
  induction s as [|c s IH]; intros Hs.
  - cbn [Re.search]. by rewrite match_at_no_sign.
  - cbn [free_of] in Hs. apply andb_true_iff in Hs as [Hc Hs].
    apply negb_true_iff in Hc. cbn [Re.search].
    rewrite match_at_no_sign, IH; [done|done|done|].
    destruct s as [|? [|? [|d s]]]; try done.
    cbn [free_of] in Hs. rewrite !andb_true_iff in Hs.
    destruct Hs as (_ & _ & Hd%negb_true_iff & _). exact Hd.
Qed.

Lemma finditer_fuel_step fuel r s m :
  Re.search r s = Some m -> Re.m_text m <> "" ->
  Re.finditer_fuel (S fuel) r s = m :: Re.finditer_fuel fuel r (Re.m_rest m).
Proof.
  intros Hs Ht. cbn [Re.finditer_fuel]. rewrite Hs.
  destruct (Re.m_text m); [done|]. reflexivity.
Qed.

Lemma finditer_fuel_done fuel r s :
  Re.search r s = None -> Re.finditer_fuel (S fuel) r s = [].
Proof. intros Hs. cbn [Re.finditer_fuel]. by rewrite Hs. Qed.

Lemma text_append (r : reading) (rest : string) :
  text r +:+ rest
  = String (status r) (String (chnr r) (String (dtype r) (value r +:+ rest))).
Proof. unfold text. by rewrite !append_cons. Qed.

Lemma reading_ok_inv (r : reading) :
  reading_ok r = true ->
  Py.is_word (status r) = true /\ Py.is_word (chnr r) = true
  /\ Py.is_word (dtype r) = true
  /\ value_ok (sign r) (int_part r) (frac_part r) (exp_sign r) (exp_1 r) (exp_2 r)
     = true.
Proof. unfold reading_ok. rewrite !andb_true_iff. tauto. Qed.

Lemma search_reading (r : reading) (rest : string) :
  reading_ok r = true ->
  Re.search _pattern (text r +:+ rest) = Some (Re.Match (groups_of r) (text r) rest).
Proof.
  intros (Hst & Hch & Hdt & Hv)%reading_ok_inv. apply search_here.
  rewrite text_append. by apply match_at_reading.
Qed.

(** The readings that [re.finditer] finds in a reply of two readings. *)
Lemma finditer_two_readings (r1 r2 : reading) (tail : string) :
  reading_ok r1 = true -> reading_ok r2 = true ->
  free_of sign_chars tail = true ->
  Re.finditer _pattern (text r1 +:+ String "," (text r2 +:+ tail))
  = [Re.Match (groups_of r1) (text r1) (String "," (text r2 +:+ tail));
     Re.Match (groups_of r2) (text r2) tail].
Proof.
  intros H1 H2 Htail. unfold Re.finditer.
  assert (exists fuel, S (String.length (text r1 +:+ String "," (text r2 +:+ tail)))
                       = S (S (S fuel))) as [fuel ->].
  { rewrite !text_append. cbn [String.length]. eauto. }
  rewrite (finditer_fuel_step _ _ _ _ (search_reading r1 _ H1))
    by (unfold text; done).
  cbn [Re.m_rest].
  assert (Re.search _pattern (String "," (text r2 +:+ tail))
          = Some (Re.Match (groups_of r2) (text r2) tail)) as Hsecond.
  { cbn [Re.search]. rewrite match_at_no_sign; [by apply search_reading|done|].
    rewrite text_append. apply word_no_sign.
    by destruct (reading_ok_inv r2 H2) as (_ & _ & Hdt & _). }
  rewrite (finditer_fuel_step _ _ _ _ Hsecond) by (unfold text; done).
  cbn [Re.m_rest]. by rewrite (finditer_fuel_done _ _ _ (search_no_sign tail Htail)).
Qed.

(** ** The number of a value *)

Lemma digits_from_stop (ds rest : string) (c : ascii) (a : Z) (k : nat) :
  all_chars Py.is_digit ds = true ->
  Py.is_digit c = false -> Ascii.eqb c "_" = false ->
  Py.digits_from (ds +:+ String c rest) a k
  = (spelled ds a, (k + String.length ds)%nat, String c rest).
Proof.
  revert a k. induction ds as [|d ds IH]; intros a k Hds Hc Hu.
  - rewrite append_nil. cbn [Py.digits_from spelled String.length].
    by rewrite Hc, Hu, Nat.add_0_r.
  - cbn [all_chars] in Hds. apply andb_true_iff in Hds as [Hd Hds].
    rewrite append_cons. cbn [Py.digits_from spelled String.length].
    rewrite Hd, IH by done.
    by replace (S k + String.length ds)%nat with (k + S (String.length ds))%nat by lia.
Qed.

Lemma digitpart_stop (ds rest : string) (c : ascii) :
  ds <> "" -> all_chars Py.is_digit ds = true ->
  Py.is_digit c = false -> Ascii.eqb c "_" = false ->
  Py.digitpart (ds +:+ String c rest)
  = Some (spelled ds 0, String.length ds, String c rest).
Proof.
  intros Hne Hds Hc Hu. destruct ds as [|d ds]; [done|].
  cbn [all_chars] in Hds. apply andb_true_iff in Hds as [Hd Hds].
  rewrite append_cons. cbn [Py.digitpart]. rewrite Hd.
  rewrite digits_from_stop by done. cbn [spelled String.length].
  by replace (10 * 0 + Py.digit_value d) with (Py.digit_value d) by lia.
Qed.

Lemma is_sign_inv (c : ascii) :
  is_sign c = true -> c = "+"%char \/ c = "-"%char.
Proof.
  unfold is_sign, sign_chars. cbn [existsb]. rewrite orb_false_r.
  intros [H%Ascii.eqb_eq | H%Ascii.eqb_eq]%orb_true_iff; auto.
Qed.

Lemma digit_facts (c : ascii) :
  Py.is_digit c = true ->
  Py.is_space c = false /\ Py.lower c = c /\ Ascii.eqb c "i" = false
  /\ Ascii.eqb c "n" = false.
Proof.
  intros Hc. destruct c as [[] [] [] [] [] [] [] []]; try (vm_compute in Hc; discriminate);
    by vm_compute.
Qed.

(** [float] of the value of a reading is the number it spells. *)
Lemma of_str_value (r : reading) :
  reading_ok r = true -> Float.of_str (value r) = Ok (number r).
Proof.
  intros (_ & _ & _ & Hv)%reading_ok_inv.
  apply value_ok_inv in Hv as (Hsign & Hip & Hiplen & Hfp & Hfplen & Hesign & He1 & He2).
  unfold value, value_text, number.
  destruct r as [st ch dt sg ip fp es e1 e2]. cbn [sign int_part frac_part exp_sign exp_1 exp_2] in *.
  set (tailE := String "E" (String es (String e1 (String e2 "")))).
  set (s1 := ip +:+ String "." (fp +:+ tailE)).
  assert (ip <> "") as Hipne by (destruct ip; [simpl in Hiplen; lia|done]).
  assert (fp <> "") as Hfpne by (destruct fp; [simpl in Hfplen; lia|done]).
  (* no white space *)
  assert (all_chars (fun c => negb (Py.is_space c)) (String sg s1) = true) as Hns.
  { assert (forall ds, all_chars Py.is_digit ds = true ->
              all_chars (fun c => negb (Py.is_space c)) ds = true) as Hd
      by (intros ds; apply all_chars_impl, digit_no_space).
    subst s1 tailE. cbn [all_chars]. rewrite !all_chars_append. cbn [all_chars].
    rewrite !all_chars_append. cbn [all_chars].
    rewrite (Hd ip Hip), (Hd fp Hfp), (digit_no_space e1 He1), (digit_no_space e2 He2).
    destruct (is_sign_inv sg Hsign) as [-> | ->],
             (is_sign_inv es Hesign) as [-> | ->]; reflexivity. }
  unfold Float.of_str. rewrite (strip_no_space _ Hns).
  assert (Py.sign_of (String sg s1) = (Ascii.eqb sg "-", s1)) as ->
    by (destruct (is_sign_inv sg Hsign) as [-> | ->]; reflexivity).
  (* neither inf nor nan *)
  assert (String.eqb (Py.lower_str s1) "inf" || String.eqb (Py.lower_str s1) "infinity"
          = false /\ String.eqb (Py.lower_str s1) "nan" = false) as [-> ->].
  { subst s1. destruct ip as [|d ip]; [done|]. cbn [all_chars] in Hip.
    apply andb_true_iff in Hip as [Hd _].
    destruct (digit_facts d Hd) as (_ & Hl & Hi & Hn).
    rewrite append_cons. cbn [Py.lower_str String.eqb]. rewrite Hl, Hi, Hn. done. }
  (* the integer part, the fraction *)
  subst s1. rewrite (digitpart_stop ip _ "." Hipne Hip eq_refl eq_refl).
  subst tailE. rewrite (digitpart_stop fp _ "E" Hfpne Hfp eq_refl eq_refl).
  cbn [default]. unfold Float.exponent. cbn [id].
  change (Ascii.eqb (Py.lower "E") "e") with true. cbv iota.
  assert (Py.sign_of (String es (String e1 (String e2 "")))
          = (Ascii.eqb es "-", String e1 (String e2 ""))) as ->
    by (destruct (is_sign_inv es Hesign) as [-> | ->]; reflexivity).
  cbn [Py.digitpart]. rewrite He1. cbn [Py.digits_from]. rewrite He2.
  cbn [Py.digits_from mbind result_bind]. reflexivity.
Qed.

(** ** The capacitance *)

Lemma dtype_is (r : reading) (c : ascii) :
  bool_decide (Re.group "dtype" (groups_of r) = Some (String c ""))
  = Ascii.eqb (dtype r) c.
Proof.
  change (Re.group "dtype" (groups_of r)) with (Some (String (dtype r) "")).
  destruct (Ascii.eqb_spec (dtype r) c) as [->|Hne].
  - by apply bool_decide_eq_true.
  - apply bool_decide_eq_false. intros [= ?]. done.
Qed.

Lemma parse_capacitance_readings (r1 r2 : reading) (tail : string) :
  reading_ok r1 = true -> reading_ok r2 = true ->
  free_of sign_chars tail = true ->
  parse_capacitance (text r1 +:+ "," +:+ text r2 +:+ tail)
  = if Ascii.eqb (dtype r1) "C" && Ascii.eqb (dtype r2) "Y"
    then Ok (number r1, number r2)
    else Raise (ValueError "Result format not supported.").
Proof.
  intros H1 H2 Htail. unfold parse_capacitance.
  change (text r1 +:+ "," +:+ text r2 +:+ tail)
    with (text r1 +:+ String "," (text r2 +:+ tail)).
  rewrite (finditer_two_readings r1 r2 tail H1 H2 Htail).
  cbn [Re.m_groups]. rewrite (dtype_is r1 "C"), (dtype_is r2 "Y").
  destruct (Ascii.eqb (dtype r1) "C"); [|done].
  destruct (Ascii.eqb (dtype r2) "Y"); [|done]. cbn [negb orb andb].
  unfold group_text. cbn [Re.m_groups].
  change (default "" (Re.group "value" (groups_of r1))) with (value r1).
  change (default "" (Re.group "value" (groups_of r2))) with (value r2).
  by rewrite (of_str_value r1 H1), (of_str_value r2 H2).
Qed.

Section WithB1500.
Context `{B1500}.

(** X24. The capacitance from any reply of two readings.  When the
    instrument answers the spot measurement with two readings between a
    comma, each three tag characters (letters, digits or underscores)
    followed by a value (a sign, one to three digits, a point, three to six
    digits, [E], a sign, two digits), and with no sign in what follows them:
    if the third tag character of the first reading is [C] and that of the
    second is [Y], the read returns the two numbers that the values spell,
    each the float next to [+-int.frac * 10^(+-exp)]; otherwise it raises
    the result-format error.  The first two tag characters are not looked
    at. *)
Theorem get_capacitance_of_two_readings (self : B1520A.B1520A)
    (r1 r2 : reading) (tail : string) :
  instrument self (written self ++ [mb_mm MM_Mode_SPOT_C [channels self]])
    (mb_tc (channels self) RangingMode_AUTO)
  = Some (text r1 +:+ "," +:+ text r2 +:+ tail) ->
  reading_ok r1 = true -> reading_ok r2 = true ->
  free_of sign_chars tail = true ->
  _get_capacitance self
  = (if Ascii.eqb (dtype r1) "C" && Ascii.eqb (dtype r2) "Y"
     then Ok (number r1, number r2)
     else Raise (ValueError "Result format not supported."),
     after_capacitance self).
Proof.
  intros Hreply H1 H2 Htail.
  rewrite (DriverFacts._get_capacitance_eval self _ Hreply).
  by rewrite (parse_capacitance_readings r1 r2 tail H1 H2 Htail).
Qed.

End WithB1500.

(** The readings [NCC+1.234560E-03] and [NCY+5.678900E-02], a newline
    after them. *)
Lemma get_capacitance_of_two_readings_witness :
  @_get_capacitance example_b1500
    (fresh_module ("NCC+1.234560E-03,NCY+5.678900E-02" +:+ String Py.newline ""))
  = (if Ascii.eqb "C" "C" && Ascii.eqb "Y" "Y"
     then Ok (number (Reading_ "N" "C" "C" "+" "1" "234560" "-" "0" "3"),
              number (Reading_ "N" "C" "Y" "+" "5" "678900" "-" "0" "2"))
     else Raise (ValueError "Result format not supported."),
     @after_capacitance example_b1500
       (fresh_module ("NCC+1.234560E-03,NCY+5.678900E-02"
                      +:+ String Py.newline ""))).
Proof.
  apply (@get_capacitance_of_two_readings example_b1500
           (fresh_module ("NCC+1.234560E-03,NCY+5.678900E-02"
                          +:+ String Py.newline ""))
           (Reading_ "N" "C" "C" "+" "1" "234560" "-" "0" "3")
           (Reading_ "N" "C" "Y" "+" "5" "678900" "-" "0" "2")
           (String Py.newline "")).
  - vm_compute. reflexivity.
  - vm_compute. reflexivity.
  - vm_compute. reflexivity.
  - vm_compute. reflexivity.
Defined.

(** The two numbers of these readings are 1.23456e-3 and 5.6789e-2. *)
Example numbers_of_readings :
  number (Reading_ "N" "C" "C" "+" "1" "234560" "-" "0" "3")
  = Float.of_decimal false 123456 (-8)
  /\ number (Reading_ "N" "C" "Y" "+" "5" "678900" "-" "0" "2")
     = Float.of_decimal false 56789 (-6).
Proof. split; vm_compute; reflexivity. Qed.

End CapFacts.
